(** * Streaming session manager of the retail sample client

    A shallow embedding of the Go client: the request signer (package
    [auth]), the wire types of the streaming protocol (package [models])
    and the dual-socket WebSocket session (package [client], type
    [WSClient]), followed by the properties the specification states
    about them.

    Conventions.
    - Go [string] and [[]byte] are [string] (sequences of bytes).
    - Go [int] and [int64] are [Z]; arithmetic that can overflow is
      wrapped explicitly with [wrap64].
    - Everything the program obtains from outside (the clock, the result
      of a dial, of a socket write, read or close) is an explicit
      argument of the operation that consumes it.
    - Library code that is not part of the repository (Ed25519, base64,
      [json.Unmarshal] into [WSMessage]) is an interface (a type class);
      the theorems hold for every implementation of it. *)

From Stdlib Require Import ZArith List String Ascii Bool Arith Lia.
From Stdlib Require Import DecimalString DecimalZ DecimalPos.
From Stdlib Require DecimalN DecimalFacts.
Import ListNotations.

Set Warnings "-register-all".

Local Open Scope list_scope.
Local Open Scope Z_scope.
Local Open Scope string_scope.

(* ================================================================== *)
(** ** Go runtime pieces *)

Module Go.

  (** The double quote and backslash characters. *)
Definition dquote : ascii := ascii_of_nat 34.
Definition bslash : ascii := ascii_of_nat 92.

  (** [quoted s] is [s] between two double quotes. *)
Definition quoted (s : string) : string :=
    String dquote (s ++ String dquote EmptyString).

  (** Two's-complement wrap-around of a 64-bit signed integer. *)
Definition wrap64 (z : Z) : Z := (z + 2 ^ 63) mod 2 ^ 64 - 2 ^ 63.

  (** [strconv.FormatInt(i, 10)] and the [%d] verb. *)
Definition FormatInt (i : Z) : string := NilZero.string_of_int (Z.to_int i).

  (** Go [error] values, by the way the program builds them. *)
Inductive error : Type :=
  | LibError (msg : string)
      (** an error produced by a library: dial, write, close *)
  | Errorf (msg : string)
      (** [fmt.Errorf(msg)] *)
  | ErrorfW (msg : string) (cause : error)
      (** [fmt.Errorf(msg + ": %w", cause)] *)
  | ErrorfV (msg : string) (errs : list error).
      (** [fmt.Errorf(msg + ": %v", errs)] *)

  (** A call either returns or panics. *)
Inductive outcome (A : Type) : Type :=
  | Returns (a : A)
  | Panics (msg : string).
Arguments Returns {A} a.
Arguments Panics {A} msg.

  (** A buffered channel of capacity [cap] holding [q], oldest first.
      [select { case ch <- v: default: }] never blocks: it enqueues when
      there is room and takes the default branch otherwise. *)
Definition try_send {A : Type} (cap : nat) (q : list A) (v : A)
    : list A * bool :=
    if (List.length q <? cap)%nat then ((q ++ [v])%list, true) else (q, false).

  (** The text is ASCII: every byte is below 0x80. *)
Fixpoint is_ascii (s : string) : bool :=
    match s with
    | EmptyString => true
    | String c r => (nat_of_ascii c <? 128)%nat && is_ascii r
    end.

End Go.

(* ================================================================== *)
(** ** JSON text *)

Module Json.

Inductive value : Type :=
  | JNull
  | JBool (b : bool)
  | JNum (n : Z)
  | JStr (s : string)
  | JArr (elems : list value)
  | JObj (members : list (string * value)).

  (** *** Encoding, as [json.Marshal] writes it (compact, HTML-safe) *)

Definition hex_digit (n : nat) : ascii :=
    match String.get n "0123456789abcdef" with
    | Some c => c
    | None => "0"%char
    end.

  (** [\u00XX] for the byte [c]. *)
Definition u00 (c : ascii) : string :=
    let n := nat_of_ascii c in
    String Go.bslash
      (String "u" (String "0" (String "0"
        (String (hex_digit (n / 16)) (String (hex_digit (n mod 16)) EmptyString))))).

  (** One byte of a string.  Bytes from 0x80 up are copied as they are,
      which is what [json.Marshal] does with well-formed UTF-8 other
      than U+2028 and U+2029; ill-formed bytes it replaces by [\ufffd].
      On ASCII text, which is what the identifiers of this client are,
      the two agree byte for byte. *)
Definition escape_char (c : ascii) : string :=
    if Ascii.eqb c Go.dquote then String Go.bslash (String Go.dquote EmptyString)
    else if Ascii.eqb c Go.bslash then String Go.bslash (String Go.bslash EmptyString)
    else if Ascii.eqb c (ascii_of_nat 10) then String Go.bslash "n"
    else if Ascii.eqb c (ascii_of_nat 13) then String Go.bslash "r"
    else if Ascii.eqb c (ascii_of_nat 9) then String Go.bslash "t"
    else if (nat_of_ascii c <? 32)%nat then u00 c
    else if Ascii.eqb c "<" || Ascii.eqb c ">" || Ascii.eqb c "&" then u00 c
    else String c EmptyString.

Fixpoint escape (s : string) : string :=
    match s with
    | EmptyString => EmptyString
    | String c r => escape_char c ++ escape r
    end.

Definition encode_string (s : string) : string := Go.quoted (escape s).

Fixpoint encode (v : value) : string :=
    match v with
    | JNull => "null"
    | JBool true => "true"
    | JBool false => "false"
    | JNum n => Go.FormatInt n
    | JStr s => encode_string s
    | JArr elems =>
        let fix go (first : bool) (l : list value) : string :=
          match l with
          | [] => EmptyString
          | x :: r => (if first then EmptyString else ",") ++ encode x ++ go false r
          end in
        "[" ++ go true elems ++ "]"
    | JObj members =>
        let fix go (first : bool) (l : list (string * value)) : string :=
          match l with
          | [] => EmptyString
          | (k, x) :: r =>
              (if first then EmptyString else ",")
              ++ encode_string k ++ ":" ++ encode x ++ go false r
          end in
        "{" ++ go true members ++ "}"
    end.

  (** *** Decoding *)

Definition is_ws (c : ascii) : bool :=
    let n := nat_of_ascii c in
    ((n =? 32) || (n =? 9) || (n =? 10) || (n =? 13))%nat.

Fixpoint skip_ws (s : string) : string :=
    match s with
    | String c r => if is_ws c then skip_ws r else s
    | EmptyString => EmptyString
    end.

Definition hex_val (c : ascii) : option nat :=
    let n := nat_of_ascii c in
    if ((48 <=? n) && (n <=? 57))%nat then Some (n - 48)%nat
    else if ((97 <=? n) && (n <=? 102))%nat then Some (n - 87)%nat
    else if ((65 <=? n) && (n <=? 70))%nat then Some (n - 55)%nat
    else None.

  (** UTF-8 bytes of a code point of the basic plane. *)
Definition utf8 (cp : nat) : string :=
    if (cp <? 128)%nat then String (ascii_of_nat cp) EmptyString
    else if (cp <? 2048)%nat then
      String (ascii_of_nat (192 + cp / 64))
        (String (ascii_of_nat (128 + cp mod 64)) EmptyString)
    else
      String (ascii_of_nat (224 + cp / 4096))
        (String (ascii_of_nat (128 + (cp / 64) mod 64))
          (String (ascii_of_nat (128 + cp mod 64)) EmptyString)).

Definition unescape_simple (e : ascii) : option ascii :=
    if Ascii.eqb e Go.dquote then Some Go.dquote
    else if Ascii.eqb e Go.bslash then Some Go.bslash
    else if Ascii.eqb e "/" then Some "/"%char
    else if Ascii.eqb e "b" then Some (ascii_of_nat 8)
    else if Ascii.eqb e "f" then Some (ascii_of_nat 12)
    else if Ascii.eqb e "n" then Some (ascii_of_nat 10)
    else if Ascii.eqb e "r" then Some (ascii_of_nat 13)
    else if Ascii.eqb e "t" then Some (ascii_of_nat 9)
    else None.

Definition hex4 (a b c d : ascii) : option nat :=
    match hex_val a, hex_val b, hex_val c, hex_val d with
    | Some x, Some y, Some z, Some w => Some (((x * 16 + y) * 16 + z) * 16 + w)%nat
    | _, _, _, _ => None
    end.

  (** The characters of a string literal after its opening quote, up to
      and including the closing quote; the result is the decoded string
      and the rest of the input.  A [\u] escape of a surrogate half is
      decoded on its own (pairs are not combined). *)
Fixpoint parse_string (s : string) : option (string * string) :=
    match s with
    | EmptyString => None
    | String c r =>
        if Ascii.eqb c Go.dquote then Some (EmptyString, r)
        else if Ascii.eqb c Go.bslash then
          match r with
          | String e r1 =>
              match unescape_simple e with
              | Some lit =>
                  match parse_string r1 with
                  | Some (t, rest) => Some (String lit t, rest)
                  | None => None
                  end
              | None =>
                  if Ascii.eqb e "u" then
                    match r1 with
                    | String h1 (String h2 (String h3 (String h4 r5))) =>
                        match hex4 h1 h2 h3 h4 with
                        | Some cp =>
                            match parse_string r5 with
                            | Some (t, rest) => Some (utf8 cp ++ t, rest)
                            | None => None
                            end
                        | None => None
                        end
                    | _ => None
                    end
                  else None
              end
          | EmptyString => None
          end
        else if (nat_of_ascii c <? 32)%nat then None
        else
          match parse_string r with
          | Some (t, rest) => Some (String c t, rest)
          | None => None
          end
    end.

Definition is_digit (c : ascii) : bool :=
    let n := nat_of_ascii c in ((48 <=? n) && (n <=? 57))%nat.

  (** Reads a run of decimal digits, accumulating their value. *)
Fixpoint parse_digits (acc : Z) (count : nat) (s : string) : Z * nat * string :=
    match s with
    | String c r =>
        if is_digit c
        then parse_digits (acc * 10 + Z.of_nat (nat_of_ascii c - 48)) (S count) r
        else (acc, count, s)
    | EmptyString => (acc, count, s)
    end.

  (** An integer literal.  Literals with a fraction or an exponent are
      outside this model and are refused. *)
Definition parse_int (s : string) : option (Z * string) :=
    let (neg, body) :=
      match s with
      | String c r => if Ascii.eqb c "-" then (true, r) else (false, s)
      | EmptyString => (false, s)
      end in
    match body with
    | String d _ =>
        match parse_digits 0 0 body with
        | (n, count, rest) =>
            if (count =? 0)%nat then None
            else if Ascii.eqb d "0" && (1 <? count)%nat then None
            else
              match rest with
              | String c _ =>
                  if Ascii.eqb c "." || Ascii.eqb c "e" || Ascii.eqb c "E"
                  then None
                  else Some (if neg then - n else n, rest)
              | EmptyString => Some (if neg then - n else n, rest)
              end
        end
    | EmptyString => None
    end.

Definition strip_prefix (p s : string) : option string :=
    if String.prefix p s
    then Some (String.substring (String.length p) (String.length s - String.length p) s)
    else None.

  (** One JSON value at the head of the input (after white space), with
      the rest of the input.  [fuel] bounds the nesting depth and the
      number of members of one object or array. *)
Fixpoint parse_value (fuel : nat) (s : string) {struct fuel}
    : option (value * string) :=
    match fuel with
    | O => None
    | S f =>
        match skip_ws s with
        | EmptyString => None
        | String c r =>
            if Ascii.eqb c "{" then
              match skip_ws r with
              | String c' r' =>
                  if Ascii.eqb c' "}" then Some (JObj [], r')
                  else parse_members f r []
              | EmptyString => None
              end
            else if Ascii.eqb c "[" then
              match skip_ws r with
              | String c' r' =>
                  if Ascii.eqb c' "]" then Some (JArr [], r')
                  else parse_elems f r []
              | EmptyString => None
              end
            else if Ascii.eqb c Go.dquote then
              match parse_string r with
              | Some (str, rest) => Some (JStr str, rest)
              | None => None
              end
            else
              match strip_prefix "true" (String c r) with
              | Some rest => Some (JBool true, rest)
              | None =>
              match strip_prefix "false" (String c r) with
              | Some rest => Some (JBool false, rest)
              | None =>
              match strip_prefix "null" (String c r) with
              | Some rest => Some (JNull, rest)
              | None =>
              match parse_int (String c r) with
              | Some (n, rest) => Some (JNum n, rest)
              | None => None
              end end end end
        end
    end
  with parse_members (fuel : nat) (s : string) (acc : list (string * value))
         {struct fuel} : option (value * string) :=
    match fuel with
    | O => None
    | S f =>
        match skip_ws s with
        | String q r =>
            if Ascii.eqb q Go.dquote then
              match parse_string r with
              | Some (k, r1) =>
                  match skip_ws r1 with
                  | String colon r2 =>
                      if Ascii.eqb colon ":" then
                        match parse_value f r2 with
                        | Some (v, r3) =>
                            match skip_ws r3 with
                            | String sep r4 =>
                                if Ascii.eqb sep "," then parse_members f r4 (acc ++ [(k, v)])%list
                                else if Ascii.eqb sep "}" then Some (JObj (acc ++ [(k, v)])%list, r4)
                                else None
                            | EmptyString => None
                            end
                        | None => None
                        end
                      else None
                  | EmptyString => None
                  end
              | None => None
              end
            else None
        | EmptyString => None
        end
    end
  with parse_elems (fuel : nat) (s : string) (acc : list value)
         {struct fuel} : option (value * string) :=
    match fuel with
    | O => None
    | S f =>
        match parse_value f s with
        | Some (v, r1) =>
            match skip_ws r1 with
            | String sep r2 =>
                if Ascii.eqb sep "," then parse_elems f r2 (acc ++ [v])%list
                else if Ascii.eqb sep "]" then Some (JArr (acc ++ [v])%list, r2)
                else None
            | EmptyString => None
            end
        | None => None
        end
    end.

  (** A whole document: one value, then only white space.  The length of
      the text is fuel enough for every text. *)
Definition decode (s : string) : option value :=
    match parse_value (S (String.length s)) s with
    | Some (v, rest) =>
        match skip_ws rest with
        | EmptyString => Some v
        | String _ _ => None
        end
    | None => None
    end.

  (** Member access on a decoded object: the last member with that key,
      as a decoder filling a record sees it. *)
Definition member (k : string) (v : value) : option value :=
    match v with
    | JObj members =>
        fold_left (fun found kv => if String.eqb (fst kv) k then Some (snd kv) else found)
                  members None
    | _ => None
    end.

(** *** The encoder, list by list

    [encode] writes arrays and objects with two local loops; these are
    the same loops as functions of their own. *)

Fixpoint encode_elems (first : bool) (l : list value) : string :=
  match l with
  | [] => EmptyString
  | x :: r => (if first then EmptyString else ",") ++ encode x ++ encode_elems false r
  end.

Fixpoint encode_members (first : bool) (l : list (string * value)) : string :=
  match l with
  | [] => EmptyString
  | (k, x) :: r =>
      (if first then EmptyString else ",")
      ++ encode_string k ++ ":" ++ encode x ++ encode_members false r
  end.

(** The number of nodes of a value: fuel enough to parse its text. *)
Fixpoint size (v : value) : nat :=
  match v with
  | JArr elems =>
      S ((fix go (l : list value) : nat :=
            match l with
            | [] => O
            | x :: r => S (size x + go r)
            end) elems)
  | JObj members =>
      S ((fix go (l : list (string * value)) : nat :=
            match l with
            | [] => O
            | (_, x) :: r => S (size x + go r)
            end) members)
  | _ => 1%nat
  end.

Fixpoint size_elems (l : list value) : nat :=
  match l with
  | [] => O
  | x :: r => S (size x + size_elems r)
  end.

Fixpoint size_members (l : list (string * value)) : nat :=
  match l with
  | [] => O
  | (_, x) :: r => S (size x + size_members r)
  end.

(** What may follow a value inside a document: nothing, a comma, or a
    closing bracket or brace. *)
Definition delimited (rest : string) : bool :=
  match rest with
  | EmptyString => true
  | String c _ => Ascii.eqb c "," || Ascii.eqb c "]" || Ascii.eqb c "}"
  end.

(** The value of a run of decimal digits read from the left. *)
Fixpoint uint_val (acc : Z) (d : Decimal.uint) : Z :=
  match d with
  | Decimal.Nil => acc
  | Decimal.D0 r => uint_val (acc * 10 + 0) r
  | Decimal.D1 r => uint_val (acc * 10 + 1) r
  | Decimal.D2 r => uint_val (acc * 10 + 2) r
  | Decimal.D3 r => uint_val (acc * 10 + 3) r
  | Decimal.D4 r => uint_val (acc * 10 + 4) r
  | Decimal.D5 r => uint_val (acc * 10 + 5) r
  | Decimal.D6 r => uint_val (acc * 10 + 6) r
  | Decimal.D7 r => uint_val (acc * 10 + 7) r
  | Decimal.D8 r => uint_val (acc * 10 + 8) r
  | Decimal.D9 r => uint_val (acc * 10 + 9) r
  end.

(** *** Shapes of texts, for the round trip *)

(** The first digit of a run of digits is not zero. *)
Definition head_nonzero (d : Decimal.uint) : Prop :=
  match d with
  | Decimal.Nil | Decimal.D0 _ => False
  | _ => True
  end.

(** A character a number can start with. *)
Definition is_num_start (c : ascii) : bool := is_digit c || Ascii.eqb c "-".

(** A text that starts as a value does: not with white space and not
    with a closing bracket or brace. *)
Definition starts_value (s : string) : bool :=
  match s with
  | String c _ => negb (is_ws c) && negb (Ascii.eqb c "]") && negb (Ascii.eqb c "}")
  | EmptyString => false
  end.

(** [v] is read back from its text, whatever delimited text follows,
    with fuel for its nodes. *)
Definition parses_back (v : value) : Prop :=
  forall (f : nat) (rest : string),
    (size v <= f)%nat ->
    delimited rest = true ->
    parse_value f (encode v ++ rest) = Some (v, rest).

End Json.

(* ================================================================== *)
(** ** Package [models]: the wire types of the streaming protocol *)

Module Models.

  (** Subscription type constants (integer values used by the API).
      Private socket: *)
Definition SubscriptionTypeOrder : Z := 1.
Definition SubscriptionTypeOrderSnapshot : Z := 2.
Definition SubscriptionTypePosition : Z := 3.
Definition SubscriptionTypeAccountBalance : Z := 4.
  (** Markets socket: *)
Definition SubscriptionTypeMarketData : Z := 1.
Definition SubscriptionTypeMarketDataLite : Z := 2.
Definition SubscriptionTypeTrade : Z := 3.

  (** [WSSubscription]; a nil slice and an empty slice are both [[]]. *)
Module WSSubscription.
Record t : Type := {
      RequestID : string;           (* json:"request_id" *)
      SubscriptionType : Z;         (* json:"subscription_type" *)
      MarketSlugs : list string;    (* json:"market_slugs,omitempty" *)
      ResponsesDebounced : bool     (* json:"responses_debounced,omitempty" *)
    }.
Definition zero : t :=
      {| RequestID := EmptyString; SubscriptionType := 0;
         MarketSlugs := []; ResponsesDebounced := false |}.
End WSSubscription.

  (** [WSSubscribeRequest]; the pointer field is an option. *)
Record WSSubscribeRequest : Type := {
    Subscribe : option WSSubscription.t   (* json:"subscribe" *)
  }.

Module WSUnsubscription.
Record t : Type := {
      RequestID : string            (* json:"request_id" *)
    }.
End WSUnsubscription.

Record WSUnsubscribeRequest : Type := {
    Unsubscribe : option WSUnsubscription.t   (* json:"unsubscribe" *)
  }.

  (** [WSMessage].  Each payload pointer is an option; what a payload
      holds plays no role in the session logic and is kept as the JSON
      value it was decoded from. *)
Module WSMessage.
Record t : Type := {
      RequestID : string;                              (* requestId *)
      SubscriptionType : string;                       (* subscriptionType *)
      Error : string;                                  (* error *)
      Heartbeat : option unit;                         (* heartbeat: *struct{} *)
      OrderSubscriptionSnapshot : option Json.value;   (* orderSubscriptionSnapshot *)
      OrderSubscriptionUpdate : option Json.value;     (* orderSubscriptionUpdate *)
      PositionSubscription : option Json.value;        (* positionSubscription *)
      AccountBalancesSnapshot : option Json.value;     (* accountBalancesSnapshot *)
      AccountBalancesUpdate : option Json.value;       (* accountBalancesUpdate *)
      MarketData : option Json.value;                  (* marketData *)
      MarketDataLite : option Json.value;              (* marketDataLite *)
      Trade : option Json.value                        (* trade *)
    }.
Definition zero : t :=
      {| RequestID := EmptyString; SubscriptionType := EmptyString;
         Error := EmptyString; Heartbeat := None;
         OrderSubscriptionSnapshot := None; OrderSubscriptionUpdate := None;
         PositionSubscription := None; AccountBalancesSnapshot := None;
         AccountBalancesUpdate := None; MarketData := None;
         MarketDataLite := None; Trade := None |}.
End WSMessage.

  (** What the send path is given as [msg interface{}]. *)
Inductive outbound : Type :=
  | OutSubscribe (r : WSSubscribeRequest)
  | OutUnsubscribe (r : WSUnsubscribeRequest).

  (** *** [json.Marshal], following the struct tags *)

Definition json_of_WSSubscription (s : WSSubscription.t) : Json.value :=
    Json.JObj
      ([("request_id", Json.JStr (WSSubscription.RequestID s));
        ("subscription_type", Json.JNum (WSSubscription.SubscriptionType s))]
       ++ (match WSSubscription.MarketSlugs s with
           | [] => []
           | slugs => [("market_slugs", Json.JArr (map Json.JStr slugs))]
           end)
       ++ (if WSSubscription.ResponsesDebounced s
           then [("responses_debounced", Json.JBool true)]
           else []))%list.

Definition json_of_WSSubscribeRequest (r : WSSubscribeRequest) : Json.value :=
    Json.JObj
      [("subscribe",
        match Subscribe r with
        | Some s => json_of_WSSubscription s
        | None => Json.JNull
        end)].

Definition json_of_WSUnsubscribeRequest (r : WSUnsubscribeRequest) : Json.value :=
    Json.JObj
      [("unsubscribe",
        match Unsubscribe r with
        | Some u => Json.JObj [("request_id", Json.JStr (WSUnsubscription.RequestID u))]
        | None => Json.JNull
        end)].

  (** These types hold only strings, integers, booleans and slices of
      strings, so [json.Marshal] cannot fail on them. *)
Definition Marshal (m : outbound) : string :=
    match m with
    | OutSubscribe r => Json.encode (json_of_WSSubscribeRequest r)
    | OutUnsubscribe r => Json.encode (json_of_WSUnsubscribeRequest r)
    end.

  (** *** [json.Unmarshal] into the request types

      Members are taken in order, a later one overwriting an earlier
      one; a key matches a field when it equals the field's name up to
      the case of ASCII letters; unknown keys are skipped; [null] leaves
      the field as it is; a value of the wrong kind is an error. *)

Definition lower (c : ascii) : ascii :=
    let n := nat_of_ascii c in
    if ((65 <=? n) && (n <=? 90))%nat then ascii_of_nat (n + 32) else c.

Fixpoint fold_eqb (a b : string) : bool :=
    match a, b with
    | EmptyString, EmptyString => true
    | String x a', String y b' => Ascii.eqb (lower x) (lower y) && fold_eqb a' b'
    | _, _ => false
    end.

Definition fits_int (n : Z) : bool := ((- 2 ^ 63 <=? n) && (n <? 2 ^ 63))%Z.

Fixpoint strings_of (l : list Json.value) : option (list string) :=
    match l with
    | [] => Some []
    | Json.JStr s :: r =>
        match strings_of r with Some t => Some (s :: t) | None => None end
    | Json.JNull :: r =>
        match strings_of r with Some t => Some (EmptyString :: t) | None => None end
    | _ :: _ => None
    end.

Definition set_WSSubscription_field (acc : option WSSubscription.t)
             (kv : string * Json.value) : option WSSubscription.t :=
    match acc with
    | None => None
    | Some s =>
        let (k, v) := kv in
        if fold_eqb k "request_id" then
          match v with
          | Json.JStr x =>
              Some {| WSSubscription.RequestID := x;
                      WSSubscription.SubscriptionType := WSSubscription.SubscriptionType s;
                      WSSubscription.MarketSlugs := WSSubscription.MarketSlugs s;
                      WSSubscription.ResponsesDebounced := WSSubscription.ResponsesDebounced s |}
          | Json.JNull => Some s
          | _ => None
          end
        else if fold_eqb k "subscription_type" then
          match v with
          | Json.JNum n =>
              if fits_int n then
                Some {| WSSubscription.RequestID := WSSubscription.RequestID s;
                        WSSubscription.SubscriptionType := n;
                        WSSubscription.MarketSlugs := WSSubscription.MarketSlugs s;
                        WSSubscription.ResponsesDebounced := WSSubscription.ResponsesDebounced s |}
              else None
          | Json.JNull => Some s
          | _ => None
          end
        else if fold_eqb k "market_slugs" then
          match v with
          | Json.JArr l =>
              match strings_of l with
              | Some slugs =>
                  Some {| WSSubscription.RequestID := WSSubscription.RequestID s;
                          WSSubscription.SubscriptionType := WSSubscription.SubscriptionType s;
                          WSSubscription.MarketSlugs := slugs;
                          WSSubscription.ResponsesDebounced := WSSubscription.ResponsesDebounced s |}
              | None => None
              end
          | Json.JNull =>
              Some {| WSSubscription.RequestID := WSSubscription.RequestID s;
                      WSSubscription.SubscriptionType := WSSubscription.SubscriptionType s;
                      WSSubscription.MarketSlugs := [];
                      WSSubscription.ResponsesDebounced := WSSubscription.ResponsesDebounced s |}
          | _ => None
          end
        else if fold_eqb k "responses_debounced" then
          match v with
          | Json.JBool b =>
              Some {| WSSubscription.RequestID := WSSubscription.RequestID s;
                      WSSubscription.SubscriptionType := WSSubscription.SubscriptionType s;
                      WSSubscription.MarketSlugs := WSSubscription.MarketSlugs s;
                      WSSubscription.ResponsesDebounced := b |}
          | Json.JNull => Some s
          | _ => None
          end
        else Some s
    end.

Definition WSSubscription_of_json (init : WSSubscription.t) (v : Json.value)
    : option WSSubscription.t :=
    match v with
    | Json.JObj members => fold_left set_WSSubscription_field members (Some init)
    | _ => None
    end.

Definition set_WSSubscribeRequest_field (acc : option WSSubscribeRequest)
             (kv : string * Json.value) : option WSSubscribeRequest :=
    match acc with
    | None => None
    | Some r =>
        let (k, v) := kv in
        if fold_eqb k "subscribe" then
          match v with
          | Json.JNull => Some {| Subscribe := None |}
          | _ =>
              let init := match Subscribe r with
                          | Some s => s
                          | None => WSSubscription.zero
                          end in
              match WSSubscription_of_json init v with
              | Some s => Some {| Subscribe := Some s |}
              | None => None
              end
          end
        else Some r
    end.

  (** [json.Unmarshal(data, &req)] for a fresh [req WSSubscribeRequest]. *)
Definition Unmarshal_WSSubscribeRequest (data : string) : option WSSubscribeRequest :=
    match Json.decode data with
    | Some (Json.JObj members) =>
        fold_left set_WSSubscribeRequest_field members (Some {| Subscribe := None |})
    | Some Json.JNull => Some {| Subscribe := None |}
    | _ => None
    end.

  (** *** Decoding inbound frames

      [json.Unmarshal] into [WSMessage] belongs to the library and its
      verdict depends on the payload types; the session takes it as an
      interface.  [None] is a decoding error. *)
Class Decoder : Type := {
    Unmarshal_WSMessage : string -> option WSMessage.t
  }.

(** [json.Unmarshal(data, &req)] for a fresh [req WSUnsubscribeRequest]. *)
Definition set_WSUnsubscription_field (acc : option WSUnsubscription.t)
           (kv : string * Json.value) : option WSUnsubscription.t :=
  match acc with
  | None => None
  | Some u =>
      let (k, v) := kv in
      if fold_eqb k "request_id" then
        match v with
        | Json.JStr x => Some {| WSUnsubscription.RequestID := x |}
        | Json.JNull => Some u
        | _ => None
        end
      else Some u
  end.

Definition set_WSUnsubscribeRequest_field (acc : option WSUnsubscribeRequest)
           (kv : string * Json.value) : option WSUnsubscribeRequest :=
  match acc with
  | None => None
  | Some r =>
      let (k, v) := kv in
      if fold_eqb k "unsubscribe" then
        match v with
        | Json.JNull => Some {| Unsubscribe := None |}
        | Json.JObj members =>
            let init := match Unsubscribe r with
                        | Some u => u
                        | None => {| WSUnsubscription.RequestID := EmptyString |}
                        end in
            match fold_left set_WSUnsubscription_field members (Some init) with
            | Some u => Some {| Unsubscribe := Some u |}
            | None => None
            end
        | _ => None
        end
      else Some r
  end.

Definition Unmarshal_WSUnsubscribeRequest (data : string)
  : option WSUnsubscribeRequest :=
  match Json.decode data with
  | Some (Json.JObj members) =>
      fold_left set_WSUnsubscribeRequest_field members (Some {| Unsubscribe := None |})
  | Some Json.JNull => Some {| Unsubscribe := None |}
  | _ => None
  end.

End Models.

(* ================================================================== *)
(** ** Package [models], older layout

    The repository also keeps an earlier [models/types.go] in which the
    subscription type is a string and the JSON keys are in camel case.
    The demo program compiles only against the layout above (it uses
    the integer request constants), so the session is read against that
    one; this module records what the earlier layout would put on the
    wire. *)

Module ModelsOld.

Definition SubscriptionTypeMarketData : string := "SUBSCRIPTION_TYPE_MARKET_DATA".

Record WSSubscription : Type := {
  RequestID : string;           (* json:"requestId" *)
  SubscriptionType : string;    (* json:"subscriptionType" *)
  MarketSlugs : list string;    (* json:"marketSlugs,omitempty" *)
  ResponsesDebounced : bool     (* json:"responsesDebounced,omitempty" *)
}.

Definition json_of_WSSubscription (s : WSSubscription) : Json.value :=
  Json.JObj
    ([("requestId", Json.JStr (RequestID s));
      ("subscriptionType", Json.JStr (SubscriptionType s))]
     ++ (match MarketSlugs s with
         | [] => []
         | slugs => [("marketSlugs", Json.JArr (map Json.JStr slugs))]
         end)
     ++ (if ResponsesDebounced s
         then [("responsesDebounced", Json.JBool true)]
         else []))%list.

(** [json.Marshal] of a [WSSubscribeRequest] holding [s]. *)
Definition Marshal_subscribe (s : WSSubscription) : string :=
  Json.encode (Json.JObj [("subscribe", json_of_WSSubscription s)]).

End ModelsOld.

(* ================================================================== *)
(** ** Library models: [net/http] headers, [net/url], [http.NewRequest]

    These follow the library as far as it decides the method, the path
    and the query of a request.  [Parse] does not validate the authority
    part, so it accepts some URLs that the library refuses. *)

Module NetHTTP.

Definition is_upper (c : ascii) : bool :=
    let n := nat_of_ascii c in ((65 <=? n) && (n <=? 90))%nat.
Definition is_lower (c : ascii) : bool :=
    let n := nat_of_ascii c in ((97 <=? n) && (n <=? 122))%nat.
Definition to_upper (c : ascii) : ascii :=
    if is_lower c then ascii_of_nat (nat_of_ascii c - 32) else c.
Definition to_lower (c : ascii) : ascii :=
    if is_upper c then ascii_of_nat (nat_of_ascii c + 32) else c.

  (** A token character of RFC 7230. *)
Definition is_token_char (c : ascii) : bool :=
    is_upper c || is_lower c || Json.is_digit c
    || existsb (Ascii.eqb c)
         ["!"; "#"; "$"; "%"; "&"; "'"; "*"; "+"; "-"; "."; "^"; "_"; "`"; "|"; "~"]%char.

Fixpoint all_chars (p : ascii -> bool) (s : string) : bool :=
    match s with
    | EmptyString => true
    | String c r => p c && all_chars p r
    end.

  (** [textproto.CanonicalMIMEHeaderKey]. *)
Fixpoint canonical_from (upper : bool) (s : string) : string :=
    match s with
    | EmptyString => EmptyString
    | String c r =>
        String (if upper then to_upper c else to_lower c)
               (canonical_from (Ascii.eqb c "-") r)
    end.

Definition CanonicalMIMEHeaderKey (k : string) : string :=
    if all_chars is_token_char k then canonical_from true k else k.

  (** [http.Header] with single values, as [Set] leaves it. *)
Definition Header : Type := list (string * string).

Definition Header_Set (k v : string) (h : Header) : Header :=
    let ck := CanonicalMIMEHeaderKey k in
    ((ck, v) :: filter (fun kv => negb (String.eqb (fst kv) ck)) h)%list.

Definition Header_Get (k : string) (h : Header) : option string :=
    let ck := CanonicalMIMEHeaderKey k in
    match find (fun kv => String.eqb (fst kv) ck) h with
    | Some kv => Some (snd kv)
    | None => None
    end.

Module URL.
Record t : Type := {
      Scheme : string;
      Opaque : string;
      Host : string;
      Path : string;       (* the path, with percent-escapes decoded *)
      RawQuery : string;   (* the query, without the question mark *)
      Fragment : string
    }.
End URL.

  (** [strings.Cut(s, sep)] for a one-character separator. *)
Fixpoint cut (sep : ascii) (s : string) : string * string * bool :=
    match s with
    | EmptyString => (EmptyString, EmptyString, false)
    | String c r =>
        if Ascii.eqb c sep then (EmptyString, r, true)
        else match cut sep r with
             | (a, b, found) => (String c a, b, found)
             end
    end.

Definition is_ctl (c : ascii) : bool :=
    let n := nat_of_ascii c in ((n <? 32) || (n =? 127))%nat.

  (** [getScheme]: the outer [None] is the error "missing protocol
      scheme". *)
Fixpoint getScheme_from (i : nat) (seen s whole : string)
    : option (string * string) :=
    match s with
    | EmptyString => Some (EmptyString, whole)
    | String c r =>
        if is_upper c || is_lower c then
          getScheme_from (S i) (seen ++ String c EmptyString) r whole
        else if Json.is_digit c || Ascii.eqb c "+" || Ascii.eqb c "-" || Ascii.eqb c "." then
          match i with
          | O => Some (EmptyString, whole)
          | S _ => getScheme_from (S i) (seen ++ String c EmptyString) r whole
          end
        else if Ascii.eqb c ":" then
          match i with
          | O => None
          | S _ => Some (seen, r)
          end
        else Some (EmptyString, whole)
    end.

Definition getScheme (rawURL : string) : option (string * string) :=
    getScheme_from 0 EmptyString rawURL rawURL.

  (** [unescape(s, encodePath)]. *)
Fixpoint unescape (s : string) : option string :=
    match s with
    | EmptyString => Some EmptyString
    | String c r =>
        if Ascii.eqb c "%" then
          match r with
          | String h1 (String h2 r') =>
              match Json.hex_val h1, Json.hex_val h2 with
              | Some a, Some b =>
                  match unescape r' with
                  | Some t => Some (String (ascii_of_nat (a * 16 + b)) t)
                  | None => None
                  end
              | _, _ => None
              end
          | _ => None
          end
        else
          match unescape r with
          | Some t => Some (String c t)
          | None => None
          end
    end.

Fixpoint map_string (f : ascii -> ascii) (s : string) : string :=
    match s with
    | EmptyString => EmptyString
    | String c r => String (f c) (map_string f r)
    end.

  (** The end of [url.parse], once the scheme and the query have been
      split off: opaque URLs, the authority, the path. *)
Definition parse_rest (scheme rest query fragment : string) : option URL.t :=
    if negb (String.prefix "/" rest) then
      if negb (String.eqb scheme EmptyString) then
        Some {| URL.Scheme := scheme; URL.Opaque := rest;
                URL.Host := EmptyString; URL.Path := EmptyString;
                URL.RawQuery := query; URL.Fragment := fragment |}
      else
        match cut "/" rest with
        | (segment, _, _) =>
            if negb (all_chars (fun c => negb (Ascii.eqb c ":")) segment)
            then None
            else
              match unescape rest with
              | Some path =>
                  Some {| URL.Scheme := scheme; URL.Opaque := EmptyString;
                          URL.Host := EmptyString; URL.Path := path;
                          URL.RawQuery := query; URL.Fragment := fragment |}
              | None => None
              end
        end
    else
      let (host, rest') :=
        if (negb (String.eqb scheme EmptyString)
            || negb (String.prefix "///" rest))
           && String.prefix "//" rest
        then
          let authority_rest :=
            String.substring 2 (String.length rest - 2) rest in
          match cut "/" authority_rest with
          | (authority, after, true) => (authority, String "/" after)
          | (authority, _, false) => (authority, EmptyString)
          end
        else (EmptyString, rest) in
      match unescape rest' with
      | Some path =>
          Some {| URL.Scheme := scheme; URL.Opaque := EmptyString;
                  URL.Host := host; URL.Path := path;
                  URL.RawQuery := query; URL.Fragment := fragment |}
      | None => None
      end.

  (** [url.Parse]. *)
Definition Parse (rawURL : string) : option URL.t :=
    match cut "#" rawURL with
    | (u, frag, _) =>
        if negb (all_chars (fun c => negb (is_ctl c)) u) then None
        else
          match unescape frag with
          | None => None
          | Some fragment =>
              if String.eqb u "*" then
                Some {| URL.Scheme := EmptyString; URL.Opaque := EmptyString;
                        URL.Host := EmptyString; URL.Path := "*";
                        URL.RawQuery := EmptyString; URL.Fragment := fragment |}
              else
                match getScheme u with
                | None => None
                | Some (scheme0, rest0) =>
                    match cut "?" rest0 with
                    | (rest, query, _) =>
                        parse_rest (map_string to_lower scheme0) rest query fragment
                    end
                end
          end
    end.

  (** [s] does not contain the character [c]. *)
Definition lacks (c : ascii) (s : string) : bool :=
    all_chars (fun x => negb (Ascii.eqb x c)) s.

Module Request.
Record t : Type := {
      Method : string;
      URL : URL.t;
      Header : NetHTTP.Header
    }.
End Request.

  (** [http.NewRequest(method, url, body)]; the body does not concern
      the signer and is left out. *)
Definition NewRequest (method url : string) : option Request.t :=
    let method := if String.eqb method EmptyString then "GET" else method in
    if negb (all_chars is_token_char method) then None
    else
      match Parse url with
      | Some u => Some {| Request.Method := method; Request.URL := u; Request.Header := [] |}
      | None => None
      end.

(** *** Escaping: [url.PathEscape], [url.QueryEscape], [url.Values] *)

Definition upperhex (n : nat) : ascii :=
  match String.get n "0123456789ABCDEF" with
  | Some c => c
  | None => "0"%char
  end.

(** [%XX] for the byte [c]. *)
Definition percent (c : ascii) : string :=
  let n := nat_of_ascii c in
  String "%" (String (upperhex (n / 16)) (String (upperhex (n mod 16)) EmptyString)).

Definition is_alnum (c : ascii) : bool :=
  is_upper c || is_lower c || Json.is_digit c.

Definition is_mark (c : ascii) : bool :=
  existsb (Ascii.eqb c) ["-"; "_"; "."; "~"]%char.

Definition is_reserved (c : ascii) : bool :=
  existsb (Ascii.eqb c) ["$"; "&"; "+"; ","; "/"; ":"; ";"; "="; "?"; "@"]%char.

(** [shouldEscape(c, encodePathSegment)]. *)
Definition shouldEscape_pathSegment (c : ascii) : bool :=
  if is_alnum c then false
  else if is_mark c then false
  else if is_reserved c then
    Ascii.eqb c "/" || Ascii.eqb c ";" || Ascii.eqb c "," || Ascii.eqb c "?"
  else true.

(** [shouldEscape(c, encodeQueryComponent)]. *)
Definition shouldEscape_queryComponent (c : ascii) : bool :=
  if is_alnum c then false
  else if is_mark c then false
  else if is_reserved c then true
  else true.

Fixpoint PathEscape (s : string) : string :=
  match s with
  | EmptyString => EmptyString
  | String c r =>
      (if shouldEscape_pathSegment c then percent c else String c EmptyString)
      ++ PathEscape r
  end.

Fixpoint QueryEscape (s : string) : string :=
  match s with
  | EmptyString => EmptyString
  | String c r =>
      (if shouldEscape_queryComponent c
       then (if Ascii.eqb c " " then "+" else percent c)
       else String c EmptyString)
      ++ QueryEscape r
  end.

(** [url.Values] holding one value per key, as [Set] leaves it. *)
Definition Values : Type := list (string * string).

Definition Values_Set (k v : string) (vs : Values) : Values :=
  ((k, v) :: filter (fun kv => negb (String.eqb (fst kv) k)) vs)%list.

Fixpoint insert_by_key (kv : string * string) (l : Values) : Values :=
  match l with
  | [] => [kv]
  | x :: r =>
      if String.leb (fst kv) (fst x) then kv :: l else x :: insert_by_key kv r
  end.

Definition sort_by_key (vs : Values) : Values := fold_right insert_by_key [] vs.

Fixpoint join_query (l : Values) : string :=
  match l with
  | [] => EmptyString
  | (k, v) :: r =>
      QueryEscape k ++ "=" ++ QueryEscape v
      ++ match r with
         | [] => EmptyString
         | _ :: _ => "&" ++ join_query r
         end
  end.

(** [Values.Encode()]: sorted by key. *)
Definition Values_Encode (vs : Values) : string := join_query (sort_by_key vs).

(** [strings.Join(l, sep)]. *)
Fixpoint Join (l : list string) (sep : string) : string :=
  match l with
  | [] => EmptyString
  | x :: r =>
      x ++ match r with
           | [] => EmptyString
           | _ :: _ => sep ++ Join r sep
           end
  end.

(** Characters of a host name made of letters, digits, dots and dashes. *)
Definition is_host_char (c : ascii) : bool :=
  is_alnum c || Ascii.eqb c "-" || Ascii.eqb c ".".

(** Characters that pass through [Parse] into the path unchanged. *)
Definition is_plain_path_char (c : ascii) : bool :=
  negb (Ascii.eqb c "%") && negb (Ascii.eqb c "#") && negb (Ascii.eqb c "?")
  && negb (is_ctl c).

(** Characters that may stand in a query without ending it. *)
Definition is_query_safe (c : ascii) : bool :=
  negb (Ascii.eqb c "#") && negb (is_ctl c).

End NetHTTP.

(* ================================================================== *)
(** ** Package [config] *)

Module Config.
Record t : Type := {
    APIKey : string;
    PrivateKey : string;       (* ed25519.PrivateKey *)
    Symbol : string;
    BaseURL : string;
    WSPrivateURL : string;
    WSMarketsURL : string;
    InsecureSkipVerify : bool
  }.
(** The process environment: [os.Getenv], which gives the empty string
    for a name that is not set. *)
Definition Env : Type := string -> string.

(** [getEnvWithFallback(names...)]. *)
Fixpoint getEnvWithFallback (env : Env) (names : list string) : string :=
  match names with
  | [] => EmptyString
  | name :: r =>
      let val := env name in
      if negb (String.eqb val EmptyString) then val else getEnvWithFallback env r
  end.

(** [base64.StdEncoding.DecodeString] and [ed25519.NewKeyFromSeed]. *)
Class KeyLib : Type := {
  base64_DecodeString : string -> string + Go.error;
  ed25519_NewKeyFromSeed : string -> string
}.

(** [Load()]. *)
Definition Load `{L : KeyLib} (env : Env) : t + Go.error :=
  let apiKey := getEnvWithFallback env ["POLYMARKET_API_KEY"; "TEST_API_KEY_ID"] in
  if String.eqb apiKey EmptyString then
    inr (Go.Errorf
           "POLYMARKET_API_KEY or TEST_API_KEY_ID environment variable is required")
  else
  let privateKeyB64 :=
    getEnvWithFallback env ["POLYMARKET_PRIVATE_KEY"; "TEST_API_SECRET_KEY"] in
  if String.eqb privateKeyB64 EmptyString then
    inr (Go.Errorf
           "POLYMARKET_PRIVATE_KEY or TEST_API_SECRET_KEY environment variable is required")
  else
  match base64_DecodeString privateKeyB64 with
  | inr err => inr (Go.ErrorfW "failed to decode private key" err)
  | inl privateKeyBytes =>
      let n := String.length privateKeyBytes in
      match (if (n =? 64)%nat then Some privateKeyBytes
             else if (n =? 32)%nat then Some (ed25519_NewKeyFromSeed privateKeyBytes)
             else None) with
      | None =>
          inr (Go.Errorf ("invalid private key length: expected 64 or 32 bytes, got "
                          ++ Go.FormatInt (Z.of_nat n)))
      | Some privateKey =>
          let symbol := getEnvWithFallback env ["POLYMARKET_SYMBOL"; "TEST_MARKET_SLUG"] in
          if String.eqb symbol EmptyString then
            inr (Go.Errorf
                   "POLYMARKET_SYMBOL or TEST_MARKET_SLUG environment variable is required")
          else
          let baseURL := getEnvWithFallback env ["POLYMARKET_BASE_URL"; "RETAIL_API_URL"] in
          let baseURL :=
            if String.eqb baseURL EmptyString then "https://api.polymarket.us"
            else baseURL in
          let wsBaseURL := getEnvWithFallback env ["POLYMARKET_WS_URL"; "RETAIL_WS_URL"] in
          let wsBaseURL :=
            if String.eqb wsBaseURL EmptyString then
              let wsBaseURL := baseURL in
              if (5 <? String.length wsBaseURL)%nat
                 && String.eqb (String.substring 0 5 wsBaseURL) "https"
              then "wss" ++ String.substring 5 (String.length wsBaseURL - 5) wsBaseURL
              else if (4 <? String.length wsBaseURL)%nat
                      && String.eqb (String.substring 0 4 wsBaseURL) "http"
              then "ws" ++ String.substring 4 (String.length wsBaseURL - 4) wsBaseURL
              else wsBaseURL
            else wsBaseURL in
          let insecureSkipVerify :=
            String.eqb (getEnvWithFallback env ["INSECURE_SKIP_VERIFY"]) "true" in
          inl {| APIKey := apiKey;
                 PrivateKey := privateKey;
                 Symbol := symbol;
                 BaseURL := baseURL;
                 WSPrivateURL := wsBaseURL ++ "/v1/ws/private";
                 WSMarketsURL := wsBaseURL ++ "/v1/ws/markets";
                 InsecureSkipVerify := insecureSkipVerify |}
      end
  end.

End Config.

(* ================================================================== *)
(** ** Package [auth]: the request signer *)

Module Auth.

  (** [ed25519.Sign] and [base64.StdEncoding.EncodeToString]. *)
Class Crypto : Type := {
    ed25519_Sign : string -> string -> string;
    base64_EncodeToString : string -> string
  }.

Section Signer.
Context `{K : Crypto}.

    (** [SignRequest(req, cfg)]; [now] is [time.Now().UnixMilli()].
        The request is mutated in place and the error is always nil. *)
Definition SignRequest (req : NetHTTP.Request.t) (cfg : Config.t) (now : Z)
      : NetHTTP.Request.t * option Go.error :=
      let timestamp := Go.FormatInt now in
      let method := NetHTTP.Request.Method req in
      let path := NetHTTP.URL.Path (NetHTTP.Request.URL req) in
      let message := timestamp ++ method ++ path in
      let signature := ed25519_Sign (Config.PrivateKey cfg) message in
      let signatureB64 := base64_EncodeToString signature in
      let h0 := NetHTTP.Request.Header req in
      let h1 := NetHTTP.Header_Set "X-PM-Access-Key" (Config.APIKey cfg) h0 in
      let h2 := NetHTTP.Header_Set "X-PM-Timestamp" timestamp h1 in
      let h3 := NetHTTP.Header_Set "X-PM-Signature" signatureB64 h2 in
      ({| NetHTTP.Request.Method := NetHTTP.Request.Method req;
          NetHTTP.Request.URL := NetHTTP.Request.URL req;
          NetHTTP.Request.Header := h3 |}, None).

    (** [GenerateWSHeaders(cfg)]. *)
Definition GenerateWSHeaders (cfg : Config.t) (now : Z) : NetHTTP.Header :=
      let timestamp := Go.FormatInt now in
      let message := timestamp ++ "GET" ++ "/v1/ws/private" in
      let signature := ed25519_Sign (Config.PrivateKey cfg) message in
      let signatureB64 := base64_EncodeToString signature in
      NetHTTP.Header_Set "X-PM-Signature" signatureB64
        (NetHTTP.Header_Set "X-PM-Timestamp" timestamp
          (NetHTTP.Header_Set "X-PM-Access-Key" (Config.APIKey cfg) [])).

    (** [GenerateWSMarketsHeaders(cfg)]. *)
Definition GenerateWSMarketsHeaders (cfg : Config.t) (now : Z) : NetHTTP.Header :=
      let timestamp := Go.FormatInt now in
      let message := timestamp ++ "GET" ++ "/v1/ws/markets" in
      let signature := ed25519_Sign (Config.PrivateKey cfg) message in
      let signatureB64 := base64_EncodeToString signature in
      NetHTTP.Header_Set "X-PM-Signature" signatureB64
        (NetHTTP.Header_Set "X-PM-Timestamp" timestamp
          (NetHTTP.Header_Set "X-PM-Access-Key" (Config.APIKey cfg) [])).

End Signer.

(** [ValidateTimestamp(timestampMs)]; [now] is [time.Now().UnixMilli()].
    The subtraction and the negation are those of [int64]. *)
Definition ValidateTimestamp (now timestampMs : Z) : option Go.error :=
  let diff := Go.wrap64 (now - timestampMs) in
  let diff := if (diff <? 0)%Z then Go.wrap64 (- diff) else diff in
  let maxDiff := (5 * 60 * 1000)%Z in
  if (diff >? maxDiff)%Z then
    Some (Go.Errorf ("timestamp outside valid window: difference of "
                     ++ Go.FormatInt diff ++ " ms exceeds "
                     ++ Go.FormatInt maxDiff ++ " ms"))
  else None.

End Auth.

(* ================================================================== *)
(** ** Package [client]: the REST request path up to signing *)

Module Rest.

Section DoRequest.
Context `{K : Auth.Crypto}.

    (** [doRequest(method, path, body)] up to and including the call of
        [auth.SignRequest]: the request as it is about to be executed.
        [has_body] says whether [body] is non-nil; [None] is the error
        "failed to create request". *)
Definition doRequest_signed (cfg : Config.t) (method path : string)
               (has_body : bool) (now : Z) : option NetHTTP.Request.t :=
      let reqURL := Config.BaseURL cfg ++ path in
      match NetHTTP.NewRequest method reqURL with
      | None => None
      | Some req =>
          let req :=
            if has_body then
              {| NetHTTP.Request.Method := NetHTTP.Request.Method req;
                 NetHTTP.Request.URL := NetHTTP.Request.URL req;
                 NetHTTP.Request.Header :=
                   NetHTTP.Header_Set "Content-Type" "application/json"
                                      (NetHTTP.Request.Header req) |}
            else req in
          match Auth.SignRequest req cfg now with
          | (req', None) => Some req'
          | (_, Some _) => None
          end
      end.

End DoRequest.

  (** The signature header of a prepared request. *)
Definition signature_of (r : option NetHTTP.Request.t) : option (option string) :=
    option_map (fun req => NetHTTP.Header_Get "X-PM-Signature"
                                              (NetHTTP.Request.Header req)) r.

(** *** The request targets the REST methods build

    Each is the [path] that the method of the same name hands to
    [doRequest]. *)

Definition with_query (path : string) (params : NetHTTP.Values) : string :=
  if (0 <? List.length params)%nat
  then path ++ "?" ++ NetHTTP.Values_Encode params
  else path.

Definition GetMarkets_path (limit : Z) (active : option bool) : string :=
  let params : NetHTTP.Values := [] in
  let params :=
    if (0 <? limit)%Z then NetHTTP.Values_Set "limit" (Go.FormatInt limit) params
    else params in
  let params :=
    match active with
    | Some b => NetHTTP.Values_Set "active" (if b then "true" else "false") params
    | None => params
    end in
  with_query "/v1/markets" params.

Definition GetMarketBySlug_path (slug : string) : string :=
  "/v1/market/slug/" ++ NetHTTP.PathEscape slug.

Definition GetMarketSettlement_path (slug : string) : string :=
  "/v1/markets/" ++ NetHTTP.PathEscape slug ++ "/settlement".

Definition GetPositions_path (market : string) (limit : Z) (cursor : string) : string :=
  let params : NetHTTP.Values := [] in
  let params :=
    if negb (String.eqb market EmptyString)
    then NetHTTP.Values_Set "market" market params else params in
  let params :=
    if (0 <? limit)%Z then NetHTTP.Values_Set "limit" (Go.FormatInt limit) params
    else params in
  let params :=
    if negb (String.eqb cursor EmptyString)
    then NetHTTP.Values_Set "cursor" cursor params else params in
  with_query "/v1/portfolio/positions" params.

Definition GetActivities_path (marketSlug : string) (types : list string)
           (limit : Z) (cursor sortOrder : string) : string :=
  let params : NetHTTP.Values := [] in
  let params :=
    if negb (String.eqb marketSlug EmptyString)
    then NetHTTP.Values_Set "marketSlug" marketSlug params else params in
  let params :=
    if (0 <? List.length types)%nat
    then NetHTTP.Values_Set "types" (NetHTTP.Join types ",") params else params in
  let params :=
    if (0 <? limit)%Z then NetHTTP.Values_Set "limit" (Go.FormatInt limit) params
    else params in
  let params :=
    if negb (String.eqb cursor EmptyString)
    then NetHTTP.Values_Set "cursor" cursor params else params in
  let params :=
    if negb (String.eqb sortOrder EmptyString)
    then NetHTTP.Values_Set "sortOrder" sortOrder params else params in
  with_query "/v1/portfolio/activities" params.

Definition GetOpenOrders_path (slugs : list string) : string :=
  let path := "/v1/orders/open" in
  if (0 <? List.length slugs)%nat then
    let params := NetHTTP.Values_Set "slugs" (NetHTTP.Join slugs ",") [] in
    path ++ "?" ++ NetHTTP.Values_Encode params
  else path.

Definition GetOrder_path (orderID : string) : string :=
  "/v1/order/" ++ NetHTTP.PathEscape orderID.

Definition CancelOrder_path (orderID : string) : string :=
  "/v1/order/" ++ NetHTTP.PathEscape orderID ++ "/cancel".

End Rest.

(* ================================================================== *)
(** ** Package [client]: the WebSocket session *)

Module Client.

Import Go.
Import Models.

  (** The two sockets of a session. *)
Inductive socket : Type := Private | Markets.

Definition socket_eqb (a b : socket) : bool :=
    match a, b with
    | Private, Private | Markets, Markets => true
    | _, _ => false
    end.

  (** A [*websocket.Conn] as the session sees it: where it was dialled
      and how many times [Close] was called on it. *)
Record Conn : Type := {
    conn_url : string;
    conn_header : NetHTTP.Header;
    conn_closes : nat
  }.

  (** What the session does to the outside world, in order.  This log
      is ghost state: the program does not hold it. *)
Inductive effect : Type :=
  | EffDial (s : socket) (url : string) (res : option error)
  | EffCloseDone
  | EffConnClose (s : socket) (res : option error)
  | EffWrite (s : socket) (data : string) (res : option error)
  | EffGo (s : socket)
  | EffPush (s : socket) (m : WSMessage.t) (queued : bool).

  (** [WSClient].  [done] is a channel that is never sent on: all that
      matters is whether it has been closed.  [messages] is the content
      of the buffered channel, oldest first.  The mutex [mu] is not a
      field here: every method body that holds it is one atomic step. *)
Record WSClient : Type := {
    config : Config.t;
    privateConn : option Conn;
    marketsConn : option Conn;
    privateURL : string;
    marketsURL : string;
    done : bool;
    messages : list WSMessage.t;
    requestID : Z;
    connected : bool;
    reconnecting : bool;
    trace : list effect
  }.

Definition messages_cap : nat := 100.

Definition set_privateConn (v : option Conn) (c : WSClient) : WSClient :=
    {| config := config c; privateConn := v; marketsConn := marketsConn c;
       privateURL := privateURL c; marketsURL := marketsURL c; done := done c;
       messages := messages c; requestID := requestID c; connected := connected c;
       reconnecting := reconnecting c; trace := trace c |}.

Definition set_marketsConn (v : option Conn) (c : WSClient) : WSClient :=
    {| config := config c; privateConn := privateConn c; marketsConn := v;
       privateURL := privateURL c; marketsURL := marketsURL c; done := done c;
       messages := messages c; requestID := requestID c; connected := connected c;
       reconnecting := reconnecting c; trace := trace c |}.

Definition set_done (v : bool) (c : WSClient) : WSClient :=
    {| config := config c; privateConn := privateConn c; marketsConn := marketsConn c;
       privateURL := privateURL c; marketsURL := marketsURL c; done := v;
       messages := messages c; requestID := requestID c; connected := connected c;
       reconnecting := reconnecting c; trace := trace c |}.

Definition set_messages (v : list WSMessage.t) (c : WSClient) : WSClient :=
    {| config := config c; privateConn := privateConn c; marketsConn := marketsConn c;
       privateURL := privateURL c; marketsURL := marketsURL c; done := done c;
       messages := v; requestID := requestID c; connected := connected c;
       reconnecting := reconnecting c; trace := trace c |}.

Definition set_requestID (v : Z) (c : WSClient) : WSClient :=
    {| config := config c; privateConn := privateConn c; marketsConn := marketsConn c;
       privateURL := privateURL c; marketsURL := marketsURL c; done := done c;
       messages := messages c; requestID := v; connected := connected c;
       reconnecting := reconnecting c; trace := trace c |}.

Definition set_connected (v : bool) (c : WSClient) : WSClient :=
    {| config := config c; privateConn := privateConn c; marketsConn := marketsConn c;
       privateURL := privateURL c; marketsURL := marketsURL c; done := done c;
       messages := messages c; requestID := requestID c; connected := v;
       reconnecting := reconnecting c; trace := trace c |}.

Definition emit (e : effect) (c : WSClient) : WSClient :=
    {| config := config c; privateConn := privateConn c; marketsConn := marketsConn c;
       privateURL := privateURL c; marketsURL := marketsURL c; done := done c;
       messages := messages c; requestID := requestID c; connected := connected c;
       reconnecting := reconnecting c; trace := (trace c ++ [e])%list |}.

  (** [conn.Close()] was called once more. *)
Definition conn_closed_once (k : Conn) : Conn :=
    {| conn_url := conn_url k; conn_header := conn_header k;
       conn_closes := S (conn_closes k) |}.

  (** [NewWSClient(cfg)]. *)
Definition NewWSClient (cfg : Config.t) : WSClient :=
    {| config := cfg;
       privateConn := None;
       marketsConn := None;
       privateURL := Config.WSPrivateURL cfg;
       marketsURL := Config.WSMarketsURL cfg;
       done := false;
       messages := [];
       requestID := 0;
       connected := false;
       reconnecting := false;
       trace := [] |}.

Section Session.
Context `{K : Auth.Crypto}.
Context `{D : Decoder}.

    (** [Connect()].  [now1], [now2] are the two clock readings;
        [dial1], [dial2] the results of the two dials ([None] is
        success); [rollback] the result, which the code discards, of
        closing the private socket after a failed markets dial.  An
        answer is consulted only if the code reaches the call.  The
        third component says whether the two reader goroutines were
        started. *)
Definition Connect (c : WSClient) (now1 : Z) (dial1 : option error)
               (now2 : Z) (dial2 : option error) (rollback : option error)
      : WSClient * option error * bool :=
      let privateHeaders := Auth.GenerateWSHeaders (config c) now1 in
      let c := emit (EffDial Private (privateURL c) dial1) c in
      match dial1 with
      | Some err =>
          (c, Some (ErrorfW "failed to connect to private WebSocket" err), false)
      | None =>
          let privateConn0 :=
            {| conn_url := privateURL c; conn_header := privateHeaders;
               conn_closes := 0 |} in
          let c := set_privateConn (Some privateConn0) c in
          let marketsHeaders := Auth.GenerateWSMarketsHeaders (config c) now2 in
          let c := emit (EffDial Markets (marketsURL c) dial2) c in
          match dial2 with
          | Some err =>
              let c := set_privateConn (Some (conn_closed_once privateConn0)) c in
              let c := emit (EffConnClose Private rollback) c in
              (c, Some (ErrorfW "failed to connect to markets WebSocket" err), false)
          | None =>
              let marketsConn0 :=
                {| conn_url := marketsURL c; conn_header := marketsHeaders;
                   conn_closes := 0 |} in
              let c := set_marketsConn (Some marketsConn0) c in
              let c := set_connected true c in
              let c := emit (EffGo Private) c in
              let c := emit (EffGo Markets) c in
              (c, None, true)
          end
      end.

    (** [Close()].  [close1], [close2] are the results of closing the
        private and the markets socket, consulted only for a socket
        that is present.  Closing a closed channel panics. *)
Definition Close (c : WSClient) (close1 close2 : option error)
      : outcome (WSClient * option error) :=
      if done c then Panics "close of closed channel"
      else
        let c := emit EffCloseDone (set_done true c) in
        let errs : list error := [] in
        let (c, errs) :=
          match privateConn c with
          | Some k =>
              let c := emit (EffConnClose Private close1)
                            (set_privateConn (Some (conn_closed_once k)) c) in
              match close1 with
              | Some err => (c, (errs ++ [err])%list)
              | None => (c, errs)
              end
          | None => (c, errs)
          end in
        let (c, errs) :=
          match marketsConn c with
          | Some k =>
              let c := emit (EffConnClose Markets close2)
                            (set_marketsConn (Some (conn_closed_once k)) c) in
              match close2 with
              | Some err => (c, (errs ++ [err])%list)
              | None => (c, errs)
              end
          | None => (c, errs)
          end in
        let c := set_connected false c in
        if (0 <? List.length errs)%nat
        then Returns (c, Some (ErrorfV "errors closing connections" errs))
        else Returns (c, None).

    (** [Messages()]: the receive end of the channel. *)
Definition Messages (c : WSClient) : list WSMessage.t := messages c.

    (** [nextRequestID(prefix)]: [c.requestID++] on a Go [int], then
        [fmt.Sprintf("%s-%d", prefix, c.requestID)]. *)
Definition nextRequestID (c : WSClient) (prefix : string) : string * WSClient :=
      let c := set_requestID (wrap64 (requestID c + 1)) c in
      (prefix ++ "-" ++ FormatInt (requestID c), c).

    (** [sendPrivate(msg)]; [wr] is the result of [WriteMessage]. *)
Definition sendPrivate (c : WSClient) (msg : outbound) (wr : option error)
      : WSClient * option error :=
      match privateConn c with
      | None => (c, Some (Errorf "private WebSocket not connected"))
      | Some _ =>
          let data := Marshal msg in
          (emit (EffWrite Private data wr) c, wr)
      end.

    (** [sendMarkets(msg)]. *)
Definition sendMarkets (c : WSClient) (msg : outbound) (wr : option error)
      : WSClient * option error :=
      match marketsConn c with
      | None => (c, Some (Errorf "markets WebSocket not connected"))
      | Some _ =>
          let data := Marshal msg in
          (emit (EffWrite Markets data wr) c, wr)
      end.

Definition subscription (requestID : string) (ty : Z) (marketSlugs : list string)
               (debounced : bool) : outbound :=
      OutSubscribe
        {| Subscribe :=
             Some {| WSSubscription.RequestID := requestID;
                     WSSubscription.SubscriptionType := ty;
                     WSSubscription.MarketSlugs := marketSlugs;
                     WSSubscription.ResponsesDebounced := debounced |} |}.

    (** The six subscribe methods return [(requestID, nil)] or
        the empty string with the error. *)
Definition SubscribeOrders (c : WSClient) (marketSlugs : list string)
               (wr : option error) : WSClient * (string * option error) :=
      let (requestID, c) := nextRequestID c "order" in
      let msg := subscription requestID SubscriptionTypeOrder marketSlugs false in
      match sendPrivate c msg wr with
      | (c, Some err) => (c, (EmptyString, Some err))
      | (c, None) => (c, (requestID, None))
      end.

Definition SubscribePositions (c : WSClient) (marketSlugs : list string)
               (wr : option error) : WSClient * (string * option error) :=
      let (requestID, c) := nextRequestID c "position" in
      let msg := subscription requestID SubscriptionTypePosition marketSlugs false in
      match sendPrivate c msg wr with
      | (c, Some err) => (c, (EmptyString, Some err))
      | (c, None) => (c, (requestID, None))
      end.

Definition SubscribeBalances (c : WSClient) (wr : option error)
      : WSClient * (string * option error) :=
      let (requestID, c) := nextRequestID c "balance" in
      let msg := subscription requestID SubscriptionTypeAccountBalance [] false in
      match sendPrivate c msg wr with
      | (c, Some err) => (c, (EmptyString, Some err))
      | (c, None) => (c, (requestID, None))
      end.

Definition SubscribeMarketData (c : WSClient) (marketSlugs : list string)
               (debounced : bool) (wr : option error)
      : WSClient * (string * option error) :=
      let (requestID, c) := nextRequestID c "marketdata" in
      let msg := subscription requestID SubscriptionTypeMarketData marketSlugs debounced in
      match sendMarkets c msg wr with
      | (c, Some err) => (c, (EmptyString, Some err))
      | (c, None) => (c, (requestID, None))
      end.

Definition SubscribeMarketDataLite (c : WSClient) (marketSlugs : list string)
               (wr : option error) : WSClient * (string * option error) :=
      let (requestID, c) := nextRequestID c "marketdatalite" in
      let msg := subscription requestID SubscriptionTypeMarketDataLite marketSlugs false in
      match sendMarkets c msg wr with
      | (c, Some err) => (c, (EmptyString, Some err))
      | (c, None) => (c, (requestID, None))
      end.

Definition SubscribeTrades (c : WSClient) (marketSlugs : list string)
               (wr : option error) : WSClient * (string * option error) :=
      let (requestID, c) := nextRequestID c "trade" in
      let msg := subscription requestID SubscriptionTypeTrade marketSlugs false in
      match sendMarkets c msg wr with
      | (c, Some err) => (c, (EmptyString, Some err))
      | (c, None) => (c, (requestID, None))
      end.

    (** [Unsubscribe(requestID, isPrivate)]. *)
Definition Unsubscribe (c : WSClient) (requestID : string) (isPrivate : bool)
               (wr : option error) : WSClient * option error :=
      let msg := OutUnsubscribe
                   {| Unsubscribe := Some {| WSUnsubscription.RequestID := requestID |} |} in
      if isPrivate then sendPrivate c msg wr else sendMarkets c msg wr.

    (** [IsConnected()]. *)
Definition IsConnected (c : WSClient) : bool := connected c.

End Session.

  (** *** The reader goroutines

      [readPrivate] and [readMarkets] have the same body but for the
      socket they read; one iteration is split where it can block: the
      [select] on [done], and the return of [ReadMessage]. *)

Inductive pc : Type :=
  | AtSelect   (* about to evaluate the select at the top of the loop *)
  | InRead     (* blocked in ReadMessage *)
  | Exited.    (* the goroutine has returned *)

  (** What [ReadMessage] returns: a frame, or an error together with
      the verdict of [websocket.IsCloseError] on it. *)
Inductive ReadResult : Type :=
  | ReadOk (message : string)
  | ReadErr (err : error) (isCloseError : bool).

Section Readers.
Context `{D : Decoder}.

    (** [select { case <-c.done: return; default: ... }]: a closed
        channel is ready to receive, so [default] runs only while
        [done] is open, and it goes straight into [ReadMessage]. *)
Definition reader_select (c : WSClient) : pc :=
      if done c then Exited else InRead.

    (** The rest of the iteration, from the return of [ReadMessage]. *)
Definition reader_receive (s : socket) (c : WSClient) (r : ReadResult)
      : WSClient * pc :=
      match r with
      | ReadErr _ _ => (c, Exited)
      | ReadOk message =>
          match Unmarshal_WSMessage message with
          | None => (c, AtSelect)
          | Some msg =>
              match WSMessage.Heartbeat msg with
              | Some _ => (c, AtSelect)
              | None =>
                  let (q, queued) := try_send messages_cap (messages c) msg in
                  (emit (EffPush s msg queued) (set_messages q c), AtSelect)
              end
          end
      end.

    (** The loop run against the successive results of [ReadMessage],
        nothing else touching the session meanwhile.  When the results
        run out the goroutine is left blocked in [ReadMessage]. *)
Fixpoint reader_loop (s : socket) (c : WSClient) (rs : list ReadResult)
      : WSClient * pc :=
      match reader_select c with
      | InRead =>
          match rs with
          | [] => (c, InRead)
          | r :: rs' =>
              match reader_receive s c r with
              | (c', AtSelect) => reader_loop s c' rs'
              | (c', p) => (c', p)
              end
          end
      | p => (c, p)
      end.

Definition readPrivate : WSClient -> list ReadResult -> WSClient * pc :=
      reader_loop Private.
Definition readMarkets : WSClient -> list ReadResult -> WSClient * pc :=
      reader_loop Markets.

End Readers.

  (** *** The running program

      The session, its reader goroutines and whether the process has
      died of a panic.  The steps of different goroutines interleave in
      any order. *)

Record reader : Type := { rd_socket : socket; rd_pc : pc }.

Record System : Type := {
    client : WSClient;
    readers : list reader;
    crashed : bool
  }.

Inductive call : Type :=
  | CallConnect (now1 : Z) (dial1 : option error)
                (now2 : Z) (dial2 : option error) (rollback : option error)
  | CallClose (close1 close2 : option error)
  | CallSubscribeOrders (marketSlugs : list string) (wr : option error)
  | CallSubscribePositions (marketSlugs : list string) (wr : option error)
  | CallSubscribeBalances (wr : option error)
  | CallSubscribeMarketData (marketSlugs : list string) (debounced : bool)
                            (wr : option error)
  | CallSubscribeMarketDataLite (marketSlugs : list string) (wr : option error)
  | CallSubscribeTrades (marketSlugs : list string) (wr : option error)
  | CallUnsubscribe (requestID : string) (isPrivate : bool) (wr : option error)
  | CallIsConnected.

Inductive event : Type :=
  | EvCall (k : call)                    (* a method call by the application *)
  | EvSelect (i : nat)                   (* reader [i] evaluates its select *)
  | EvReceive (i : nat) (r : ReadResult) (* the pending ReadMessage of reader [i] returns *)
  | EvConsume.                           (* the consumer receives from Messages() *)

Inductive ret : Type :=
  | RetNone
  | RetError (e : option error)
  | RetID (id : string) (e : option error)
  | RetBool (b : bool)
  | RetMessage (m : WSMessage.t)
  | RetPanic (msg : string).

Fixpoint set_reader_pc (i : nat) (p : pc) (l : list reader) : list reader :=
    match l, i with
    | [], _ => []
    | rd :: r, O => {| rd_socket := rd_socket rd; rd_pc := p |} :: r
    | rd :: r, S j => rd :: set_reader_pc j p r
    end.

Definition with_client (s : System) (c : WSClient) : System :=
    {| client := c; readers := readers s; crashed := crashed s |}.

Section Program.
Context `{K : Auth.Crypto}.
Context `{D : Decoder}.

Definition step_call (s : System) (k : call) : System * ret :=
      let c := client s in
      match k with
      | CallConnect now1 dial1 now2 dial2 rollback =>
          match Connect c now1 dial1 now2 dial2 rollback with
          | (c', err, started) =>
              ({| client := c';
                  readers :=
                    (readers s ++
                     if started
                     then [ {| rd_socket := Private; rd_pc := AtSelect |};
                            {| rd_socket := Markets; rd_pc := AtSelect |} ]
                     else [])%list;
                  crashed := crashed s |}, RetError err)
          end
      | CallClose close1 close2 =>
          match Close c close1 close2 with
          | Returns (c', err) => (with_client s c', RetError err)
          | Panics msg =>
              ({| client := c; readers := readers s; crashed := true |}, RetPanic msg)
          end
      | CallSubscribeOrders slugs wr =>
          let (c', r) := SubscribeOrders c slugs wr in
          (with_client s c', RetID (fst r) (snd r))
      | CallSubscribePositions slugs wr =>
          let (c', r) := SubscribePositions c slugs wr in
          (with_client s c', RetID (fst r) (snd r))
      | CallSubscribeBalances wr =>
          let (c', r) := SubscribeBalances c wr in
          (with_client s c', RetID (fst r) (snd r))
      | CallSubscribeMarketData slugs debounced wr =>
          let (c', r) := SubscribeMarketData c slugs debounced wr in
          (with_client s c', RetID (fst r) (snd r))
      | CallSubscribeMarketDataLite slugs wr =>
          let (c', r) := SubscribeMarketDataLite c slugs wr in
          (with_client s c', RetID (fst r) (snd r))
      | CallSubscribeTrades slugs wr =>
          let (c', r) := SubscribeTrades c slugs wr in
          (with_client s c', RetID (fst r) (snd r))
      | CallUnsubscribe id isPrivate wr =>
          let (c', err) := Unsubscribe c id isPrivate wr in
          (with_client s c', RetError err)
      | CallIsConnected => (s, RetBool (IsConnected c))
      end.

    (** One step of the program.  An event that is not enabled (a
        reader that is somewhere else, an empty queue, a dead process)
        leaves the state as it is. *)
Definition step (s : System) (e : event) : System * ret :=
      if crashed s then (s, RetNone)
      else
        match e with
        | EvCall k => step_call s k
        | EvSelect i =>
            match nth_error (readers s) i with
            | Some rd =>
                match rd_pc rd with
                | AtSelect =>
                    ({| client := client s;
                        readers := set_reader_pc i (reader_select (client s)) (readers s);
                        crashed := crashed s |}, RetNone)
                | _ => (s, RetNone)
                end
            | None => (s, RetNone)
            end
        | EvReceive i r =>
            match nth_error (readers s) i with
            | Some rd =>
                match rd_pc rd with
                | InRead =>
                    let (c', p) := reader_receive (rd_socket rd) (client s) r in
                    ({| client := c';
                        readers := set_reader_pc i p (readers s);
                        crashed := crashed s |}, RetNone)
                | _ => (s, RetNone)
                end
            | None => (s, RetNone)
            end
        | EvConsume =>
            match messages (client s) with
            | m :: q => (with_client s (set_messages q (client s)), RetMessage m)
            | [] => (s, RetNone)
            end
        end.

Fixpoint run (s : System) (evs : list event) : System :=
      match evs with
      | [] => s
      | e :: r => run (fst (step s e)) r
      end.

    (** The values returned along a run, one per event. *)
Fixpoint returns (s : System) (evs : list event) : list ret :=
      match evs with
      | [] => []
      | e :: r => snd (step s e) :: returns (fst (step s e)) r
      end.

End Program.

  (** The program right after [NewWSClient(cfg)]. *)
Definition boot (cfg : Config.t) : System :=
    {| client := NewWSClient cfg; readers := []; crashed := false |}.

Definition reader_pc (s : System) (i : nat) : option pc :=
    match nth_error (readers s) i with
    | Some rd => Some (rd_pc rd)
    | None => None
    end.

  (** *** The specification's view of subscribing

      The specification speaks of one operation [subscribe(kind, ...)]
      and of a mapping from kinds to sockets; the code has six methods.
      [subscribe] dispatches to the code; [socket_of_kind] follows the
      words of the specification. *)

Inductive kind : Type :=
  | KindOrder | KindPosition | KindAccountBalance
  | KindMarketData | KindMarketDataLite | KindTrade.

Definition subscribe (k : kind) (c : WSClient) (marketSlugs : list string)
             (debounced : bool) (wr : option error)
    : WSClient * (string * option error) :=
    match k with
    | KindOrder => SubscribeOrders c marketSlugs wr
    | KindPosition => SubscribePositions c marketSlugs wr
    | KindAccountBalance => SubscribeBalances c wr
    | KindMarketData => SubscribeMarketData c marketSlugs debounced wr
    | KindMarketDataLite => SubscribeMarketDataLite c marketSlugs wr
    | KindTrade => SubscribeTrades c marketSlugs wr
    end.

Definition socket_of_kind (k : kind) : socket :=
    match k with
    | KindOrder | KindPosition | KindAccountBalance => Private
    | KindMarketData | KindMarketDataLite | KindTrade => Markets
    end.

Definition other_socket (s : socket) : socket :=
    match s with Private => Markets | Markets => Private end.

  (** The frames handed to [WriteMessage] on socket [s], in order. *)
Fixpoint writes_on (s : socket) (t : list effect) : list string :=
    match t with
    | [] => []
    | EffWrite s' data _ :: r =>
        if socket_eqb s s' then data :: writes_on s r else writes_on s r
    | _ :: r => writes_on s r
    end.

Definition conn_of (s : socket) (c : WSClient) : option Conn :=
    match s with Private => privateConn c | Markets => marketsConn c end.

  (** *** Vocabulary of the properties *)

  (** The heartbeat variant of a message is not populated. *)
Definition no_heartbeat (m : WSMessage.t) : Prop :=
    WSMessage.Heartbeat m = None.

  (** How one step of the program can move the queue: not at all, by
    the consumer taking its head, or by a reader trying to push a
    message that is not a heartbeat. *)
Inductive queue_move (q q' : list WSMessage.t) : Prop :=
| QueueSame : q' = q -> queue_move q q'
| QueuePop (m : WSMessage.t) : q = m :: q' -> queue_move q q'
| QueuePush (m : WSMessage.t) :
    no_heartbeat m -> q' = fst (try_send messages_cap q m) -> queue_move q q'.

(** An effect that is not the push of a heartbeat. *)
Definition push_ok (e : effect) : Prop :=
    match e with
    | EffPush _ m _ => no_heartbeat m
    | _ => True
    end.

  (** The calls that allocate a request id. *)
Definition is_subscribe (e : event) : bool :=
    match e with
    | EvCall (CallSubscribeOrders _ _)
    | EvCall (CallSubscribePositions _ _)
    | EvCall (CallSubscribeBalances _)
    | EvCall (CallSubscribeMarketData _ _ _)
    | EvCall (CallSubscribeMarketDataLite _ _)
    | EvCall (CallSubscribeTrades _ _) => true
    | _ => false
    end.

Definition count_subscribes (evs : list event) : nat :=
    List.length (filter is_subscribe evs).

(** A frame the readers throw away: it does not decode, or it decodes
    to a heartbeat. *)
Definition discarded `{D : Decoder} (frame : string) : Prop :=
  match Unmarshal_WSMessage frame with
  | None => True
  | Some m => WSMessage.Heartbeat m <> None
  end.

(** The messages of the pushes the queue took, oldest first. *)
Fixpoint accepted (t : list effect) : list WSMessage.t :=
  match t with
  | [] => []
  | EffPush _ m true :: r => m :: accepted r
  | _ :: r => accepted r
  end.

(** The messages the consumer was handed along a run, oldest first. *)
Fixpoint delivered (rs : list ret) : list WSMessage.t :=
  match rs with
  | [] => []
  | RetMessage m :: r => m :: delivered r
  | _ :: r => delivered r
  end.

(** The pushes a trace records, taken or dropped. *)
Fixpoint pushes (t : list effect) : list WSMessage.t :=
  match t with
  | [] => []
  | EffPush _ m _ :: r => m :: pushes r
  | _ :: r => pushes r
  end.

Definition is_call (e : event) : bool :=
  match e with
  | EvCall _ => true
  | _ => false
  end.

(** Two sessions agree on everything but the queue and the log. *)
Definition same_control (a b : WSClient) : Prop :=
  config a = config b
  /\ privateConn a = privateConn b
  /\ marketsConn a = marketsConn b
  /\ privateURL a = privateURL b
  /\ marketsURL a = marketsURL b
  /\ done a = done b
  /\ requestID a = requestID b
  /\ connected a = connected b
  /\ reconnecting a = reconnecting b.

(** Two programs agree on everything the application's calls look at. *)
Definition same_program (a b : System) : Prop :=
  crashed a = crashed b /\ same_control (client a) (client b).

(** The session is closed and no reader is inside [ReadMessage]. *)
Definition quiescent (s : System) : Prop :=
  done (client s) = true
  /\ Forall (fun rd => rd_pc rd <> InRead) (readers s).

(** A session that says it is connected holds both sockets. *)
Definition connected_has_sockets (c : WSClient) : Prop :=
  connected c = true -> privateConn c <> None /\ marketsConn c <> None.

(** The values the application's calls return along a run. *)
Fixpoint call_returns `{K : Auth.Crypto} `{D : Decoder}
         (s : System) (evs : list event) : list ret :=
  match evs with
  | [] => []
  | e :: r =>
      (if is_call e then [snd (step s e)] else [])
      ++ call_returns (fst (step s e)) r
  end%list.

(** The integer each kind of subscription goes out with. *)
Definition type_of_kind (k : kind) : Z :=
  match k with
  | KindOrder => SubscriptionTypeOrder
  | KindPosition => SubscriptionTypePosition
  | KindAccountBalance => SubscriptionTypeAccountBalance
  | KindMarketData => SubscriptionTypeMarketData
  | KindMarketDataLite => SubscriptionTypeMarketDataLite
  | KindTrade => SubscriptionTypeTrade
  end.

(** The prefix each kind of subscription gives its request ids. *)
Definition prefix_of_kind (k : kind) : string :=
  match k with
  | KindOrder => "order"
  | KindPosition => "position"
  | KindAccountBalance => "balance"
  | KindMarketData => "marketdata"
  | KindMarketDataLite => "marketdatalite"
  | KindTrade => "trade"
  end.

(** The kind a call subscribes to, for the six calls that allocate a
    request id. *)
Definition kind_of_call (k : call) : option kind :=
  match k with
  | CallSubscribeOrders _ _ => Some KindOrder
  | CallSubscribePositions _ _ => Some KindPosition
  | CallSubscribeBalances _ => Some KindAccountBalance
  | CallSubscribeMarketData _ _ _ => Some KindMarketData
  | CallSubscribeMarketDataLite _ _ => Some KindMarketDataLite
  | CallSubscribeTrades _ _ => Some KindTrade
  | _ => None
  end.

Definition kind_of_event (e : event) : option kind :=
  match e with
  | EvCall k => kind_of_call k
  | _ => None
  end.

(** *** Use of the session as the specification allows it

    [Connect] is called only on a session that is neither connected
    nor closed, and [Close] only on a session that is not closed. *)
Definition allowed (s : System) (e : event) : Prop :=
  match e with
  | EvCall (CallConnect _ _ _ _ _) =>
      connected (client s) = false /\ done (client s) = false
  | EvCall (CallClose _ _) => done (client s) = false
  | _ => True
  end.

Fixpoint allowed_run `{K : Auth.Crypto} `{D : Decoder}
         (s : System) (evs : list event) : Prop :=
  match evs with
  | [] => True
  | e :: r => allowed s e /\ allowed_run (fst (step s e)) r
  end.

(** What reader [i] is about to do completes without a frame arriving.
    The [select] at the top of the loop has a [default] branch and
    never waits.  [ReadMessage] returns once [Close] has been called on
    its connection: [conn.Close()] closes the network connection
    whatever it returns, which ends every read pending on it (an error,
    or a frame that had already been buffered). *)
Definition pending_returns (s : System) (i : nat) : Prop :=
  match nth_error (readers s) i with
  | Some rd =>
      match rd_pc rd with
      | AtSelect => True
      | InRead =>
          match conn_of (rd_socket rd) (client s) with
          | Some k => (1 <= conn_closes k)%nat
          | None => False
          end
      | Exited => False
      end
  | None => False
  end.

(** What holds of every session used as allowed: the process has not
    panicked; once readers exist both sockets are held; and once the
    session is closed, [Close] has been called on every connection it
    holds. *)
Definition closing_invariant (s : System) : Prop :=
  crashed s = false
  /\ (readers s <> [] ->
      privateConn (client s) <> None /\ marketsConn (client s) <> None)
  /\ (done (client s) = true ->
      forall sock k, conn_of sock (client s) = Some k -> (1 <= conn_closes k)%nat).

End Client.

(* ================================================================== *)
(** ** Concrete library instances

    One decoder of inbound frames and one signer, to run the session
    on concrete inputs.  The decoder follows the JSON tags of
    [WSMessage] and checks of a payload only that it is an object. *)

Module Sample.

Import Models.

Definition set_WSMessage_field (acc : option WSMessage.t)
             (kv : string * Json.value) : option WSMessage.t :=
    match acc with
    | None => None
    | Some m =>
        let (k, v) := kv in        if fold_eqb k "requestId" then
          match v with
          | Json.JStr x => Some {| WSMessage.RequestID := x;
                 WSMessage.SubscriptionType := WSMessage.SubscriptionType m;
                 WSMessage.Error := WSMessage.Error m;
                 WSMessage.Heartbeat := WSMessage.Heartbeat m;
                 WSMessage.OrderSubscriptionSnapshot := WSMessage.OrderSubscriptionSnapshot m;
                 WSMessage.OrderSubscriptionUpdate := WSMessage.OrderSubscriptionUpdate m;
                 WSMessage.PositionSubscription := WSMessage.PositionSubscription m;
                 WSMessage.AccountBalancesSnapshot := WSMessage.AccountBalancesSnapshot m;
                 WSMessage.AccountBalancesUpdate := WSMessage.AccountBalancesUpdate m;
                 WSMessage.MarketData := WSMessage.MarketData m;
                 WSMessage.MarketDataLite := WSMessage.MarketDataLite m;
                 WSMessage.Trade := WSMessage.Trade m |}
          | Json.JNull => Some m
          | _ => None
          end
        else if fold_eqb k "subscriptionType" then
          match v with
          | Json.JStr x => Some {| WSMessage.RequestID := WSMessage.RequestID m;
                 WSMessage.SubscriptionType := x;
                 WSMessage.Error := WSMessage.Error m;
                 WSMessage.Heartbeat := WSMessage.Heartbeat m;
                 WSMessage.OrderSubscriptionSnapshot := WSMessage.OrderSubscriptionSnapshot m;
                 WSMessage.OrderSubscriptionUpdate := WSMessage.OrderSubscriptionUpdate m;
                 WSMessage.PositionSubscription := WSMessage.PositionSubscription m;
                 WSMessage.AccountBalancesSnapshot := WSMessage.AccountBalancesSnapshot m;
                 WSMessage.AccountBalancesUpdate := WSMessage.AccountBalancesUpdate m;
                 WSMessage.MarketData := WSMessage.MarketData m;
                 WSMessage.MarketDataLite := WSMessage.MarketDataLite m;
                 WSMessage.Trade := WSMessage.Trade m |}
          | Json.JNull => Some m
          | _ => None
          end
        else if fold_eqb k "error" then
          match v with
          | Json.JStr x => Some {| WSMessage.RequestID := WSMessage.RequestID m;
                 WSMessage.SubscriptionType := WSMessage.SubscriptionType m;
                 WSMessage.Error := x;
                 WSMessage.Heartbeat := WSMessage.Heartbeat m;
                 WSMessage.OrderSubscriptionSnapshot := WSMessage.OrderSubscriptionSnapshot m;
                 WSMessage.OrderSubscriptionUpdate := WSMessage.OrderSubscriptionUpdate m;
                 WSMessage.PositionSubscription := WSMessage.PositionSubscription m;
                 WSMessage.AccountBalancesSnapshot := WSMessage.AccountBalancesSnapshot m;
                 WSMessage.AccountBalancesUpdate := WSMessage.AccountBalancesUpdate m;
                 WSMessage.MarketData := WSMessage.MarketData m;
                 WSMessage.MarketDataLite := WSMessage.MarketDataLite m;
                 WSMessage.Trade := WSMessage.Trade m |}
          | Json.JNull => Some m
          | _ => None
          end
        else if fold_eqb k "heartbeat" then
          match v with
          | Json.JObj _ => Some {| WSMessage.RequestID := WSMessage.RequestID m;
                 WSMessage.SubscriptionType := WSMessage.SubscriptionType m;
                 WSMessage.Error := WSMessage.Error m;
                 WSMessage.Heartbeat := Some tt;
                 WSMessage.OrderSubscriptionSnapshot := WSMessage.OrderSubscriptionSnapshot m;
                 WSMessage.OrderSubscriptionUpdate := WSMessage.OrderSubscriptionUpdate m;
                 WSMessage.PositionSubscription := WSMessage.PositionSubscription m;
                 WSMessage.AccountBalancesSnapshot := WSMessage.AccountBalancesSnapshot m;
                 WSMessage.AccountBalancesUpdate := WSMessage.AccountBalancesUpdate m;
                 WSMessage.MarketData := WSMessage.MarketData m;
                 WSMessage.MarketDataLite := WSMessage.MarketDataLite m;
                 WSMessage.Trade := WSMessage.Trade m |}
          | Json.JNull => Some {| WSMessage.RequestID := WSMessage.RequestID m;
                 WSMessage.SubscriptionType := WSMessage.SubscriptionType m;
                 WSMessage.Error := WSMessage.Error m;
                 WSMessage.Heartbeat := None;
                 WSMessage.OrderSubscriptionSnapshot := WSMessage.OrderSubscriptionSnapshot m;
                 WSMessage.OrderSubscriptionUpdate := WSMessage.OrderSubscriptionUpdate m;
                 WSMessage.PositionSubscription := WSMessage.PositionSubscription m;
                 WSMessage.AccountBalancesSnapshot := WSMessage.AccountBalancesSnapshot m;
                 WSMessage.AccountBalancesUpdate := WSMessage.AccountBalancesUpdate m;
                 WSMessage.MarketData := WSMessage.MarketData m;
                 WSMessage.MarketDataLite := WSMessage.MarketDataLite m;
                 WSMessage.Trade := WSMessage.Trade m |}
          | _ => None
          end
        else if fold_eqb k "orderSubscriptionSnapshot" then
          match v with
          | Json.JObj _ => Some {| WSMessage.RequestID := WSMessage.RequestID m;
                 WSMessage.SubscriptionType := WSMessage.SubscriptionType m;
                 WSMessage.Error := WSMessage.Error m;
                 WSMessage.Heartbeat := WSMessage.Heartbeat m;
                 WSMessage.OrderSubscriptionSnapshot := Some v;
                 WSMessage.OrderSubscriptionUpdate := WSMessage.OrderSubscriptionUpdate m;
                 WSMessage.PositionSubscription := WSMessage.PositionSubscription m;
                 WSMessage.AccountBalancesSnapshot := WSMessage.AccountBalancesSnapshot m;
                 WSMessage.AccountBalancesUpdate := WSMessage.AccountBalancesUpdate m;
                 WSMessage.MarketData := WSMessage.MarketData m;
                 WSMessage.MarketDataLite := WSMessage.MarketDataLite m;
                 WSMessage.Trade := WSMessage.Trade m |}
          | Json.JNull => Some {| WSMessage.RequestID := WSMessage.RequestID m;
                 WSMessage.SubscriptionType := WSMessage.SubscriptionType m;
                 WSMessage.Error := WSMessage.Error m;
                 WSMessage.Heartbeat := WSMessage.Heartbeat m;
                 WSMessage.OrderSubscriptionSnapshot := None;
                 WSMessage.OrderSubscriptionUpdate := WSMessage.OrderSubscriptionUpdate m;
                 WSMessage.PositionSubscription := WSMessage.PositionSubscription m;
                 WSMessage.AccountBalancesSnapshot := WSMessage.AccountBalancesSnapshot m;
                 WSMessage.AccountBalancesUpdate := WSMessage.AccountBalancesUpdate m;
                 WSMessage.MarketData := WSMessage.MarketData m;
                 WSMessage.MarketDataLite := WSMessage.MarketDataLite m;
                 WSMessage.Trade := WSMessage.Trade m |}
          | _ => None
          end
        else if fold_eqb k "orderSubscriptionUpdate" then
          match v with
          | Json.JObj _ => Some {| WSMessage.RequestID := WSMessage.RequestID m;
                 WSMessage.SubscriptionType := WSMessage.SubscriptionType m;
                 WSMessage.Error := WSMessage.Error m;
                 WSMessage.Heartbeat := WSMessage.Heartbeat m;
                 WSMessage.OrderSubscriptionSnapshot := WSMessage.OrderSubscriptionSnapshot m;
                 WSMessage.OrderSubscriptionUpdate := Some v;
                 WSMessage.PositionSubscription := WSMessage.PositionSubscription m;
                 WSMessage.AccountBalancesSnapshot := WSMessage.AccountBalancesSnapshot m;
                 WSMessage.AccountBalancesUpdate := WSMessage.AccountBalancesUpdate m;
                 WSMessage.MarketData := WSMessage.MarketData m;
                 WSMessage.MarketDataLite := WSMessage.MarketDataLite m;
                 WSMessage.Trade := WSMessage.Trade m |}
          | Json.JNull => Some {| WSMessage.RequestID := WSMessage.RequestID m;
                 WSMessage.SubscriptionType := WSMessage.SubscriptionType m;
                 WSMessage.Error := WSMessage.Error m;
                 WSMessage.Heartbeat := WSMessage.Heartbeat m;
                 WSMessage.OrderSubscriptionSnapshot := WSMessage.OrderSubscriptionSnapshot m;
                 WSMessage.OrderSubscriptionUpdate := None;
                 WSMessage.PositionSubscription := WSMessage.PositionSubscription m;
                 WSMessage.AccountBalancesSnapshot := WSMessage.AccountBalancesSnapshot m;
                 WSMessage.AccountBalancesUpdate := WSMessage.AccountBalancesUpdate m;
                 WSMessage.MarketData := WSMessage.MarketData m;
                 WSMessage.MarketDataLite := WSMessage.MarketDataLite m;
                 WSMessage.Trade := WSMessage.Trade m |}
          | _ => None
          end
        else if fold_eqb k "positionSubscription" then
          match v with
          | Json.JObj _ => Some {| WSMessage.RequestID := WSMessage.RequestID m;
                 WSMessage.SubscriptionType := WSMessage.SubscriptionType m;
                 WSMessage.Error := WSMessage.Error m;
                 WSMessage.Heartbeat := WSMessage.Heartbeat m;
                 WSMessage.OrderSubscriptionSnapshot := WSMessage.OrderSubscriptionSnapshot m;
                 WSMessage.OrderSubscriptionUpdate := WSMessage.OrderSubscriptionUpdate m;
                 WSMessage.PositionSubscription := Some v;
                 WSMessage.AccountBalancesSnapshot := WSMessage.AccountBalancesSnapshot m;
                 WSMessage.AccountBalancesUpdate := WSMessage.AccountBalancesUpdate m;
                 WSMessage.MarketData := WSMessage.MarketData m;
                 WSMessage.MarketDataLite := WSMessage.MarketDataLite m;
                 WSMessage.Trade := WSMessage.Trade m |}
          | Json.JNull => Some {| WSMessage.RequestID := WSMessage.RequestID m;
                 WSMessage.SubscriptionType := WSMessage.SubscriptionType m;
                 WSMessage.Error := WSMessage.Error m;
                 WSMessage.Heartbeat := WSMessage.Heartbeat m;
                 WSMessage.OrderSubscriptionSnapshot := WSMessage.OrderSubscriptionSnapshot m;
                 WSMessage.OrderSubscriptionUpdate := WSMessage.OrderSubscriptionUpdate m;
                 WSMessage.PositionSubscription := None;
                 WSMessage.AccountBalancesSnapshot := WSMessage.AccountBalancesSnapshot m;
                 WSMessage.AccountBalancesUpdate := WSMessage.AccountBalancesUpdate m;
                 WSMessage.MarketData := WSMessage.MarketData m;
                 WSMessage.MarketDataLite := WSMessage.MarketDataLite m;
                 WSMessage.Trade := WSMessage.Trade m |}
          | _ => None
          end
        else if fold_eqb k "accountBalancesSnapshot" then
          match v with
          | Json.JObj _ => Some {| WSMessage.RequestID := WSMessage.RequestID m;
                 WSMessage.SubscriptionType := WSMessage.SubscriptionType m;
                 WSMessage.Error := WSMessage.Error m;
                 WSMessage.Heartbeat := WSMessage.Heartbeat m;
                 WSMessage.OrderSubscriptionSnapshot := WSMessage.OrderSubscriptionSnapshot m;
                 WSMessage.OrderSubscriptionUpdate := WSMessage.OrderSubscriptionUpdate m;
                 WSMessage.PositionSubscription := WSMessage.PositionSubscription m;
                 WSMessage.AccountBalancesSnapshot := Some v;
                 WSMessage.AccountBalancesUpdate := WSMessage.AccountBalancesUpdate m;
                 WSMessage.MarketData := WSMessage.MarketData m;
                 WSMessage.MarketDataLite := WSMessage.MarketDataLite m;
                 WSMessage.Trade := WSMessage.Trade m |}
          | Json.JNull => Some {| WSMessage.RequestID := WSMessage.RequestID m;
                 WSMessage.SubscriptionType := WSMessage.SubscriptionType m;
                 WSMessage.Error := WSMessage.Error m;
                 WSMessage.Heartbeat := WSMessage.Heartbeat m;
                 WSMessage.OrderSubscriptionSnapshot := WSMessage.OrderSubscriptionSnapshot m;
                 WSMessage.OrderSubscriptionUpdate := WSMessage.OrderSubscriptionUpdate m;
                 WSMessage.PositionSubscription := WSMessage.PositionSubscription m;
                 WSMessage.AccountBalancesSnapshot := None;
                 WSMessage.AccountBalancesUpdate := WSMessage.AccountBalancesUpdate m;
                 WSMessage.MarketData := WSMessage.MarketData m;
                 WSMessage.MarketDataLite := WSMessage.MarketDataLite m;
                 WSMessage.Trade := WSMessage.Trade m |}
          | _ => None
          end
        else if fold_eqb k "accountBalancesUpdate" then
          match v with
          | Json.JObj _ => Some {| WSMessage.RequestID := WSMessage.RequestID m;
                 WSMessage.SubscriptionType := WSMessage.SubscriptionType m;
                 WSMessage.Error := WSMessage.Error m;
                 WSMessage.Heartbeat := WSMessage.Heartbeat m;
                 WSMessage.OrderSubscriptionSnapshot := WSMessage.OrderSubscriptionSnapshot m;
                 WSMessage.OrderSubscriptionUpdate := WSMessage.OrderSubscriptionUpdate m;
                 WSMessage.PositionSubscription := WSMessage.PositionSubscription m;
                 WSMessage.AccountBalancesSnapshot := WSMessage.AccountBalancesSnapshot m;
                 WSMessage.AccountBalancesUpdate := Some v;
                 WSMessage.MarketData := WSMessage.MarketData m;
                 WSMessage.MarketDataLite := WSMessage.MarketDataLite m;
                 WSMessage.Trade := WSMessage.Trade m |}
          | Json.JNull => Some {| WSMessage.RequestID := WSMessage.RequestID m;
                 WSMessage.SubscriptionType := WSMessage.SubscriptionType m;
                 WSMessage.Error := WSMessage.Error m;
                 WSMessage.Heartbeat := WSMessage.Heartbeat m;
                 WSMessage.OrderSubscriptionSnapshot := WSMessage.OrderSubscriptionSnapshot m;
                 WSMessage.OrderSubscriptionUpdate := WSMessage.OrderSubscriptionUpdate m;
                 WSMessage.PositionSubscription := WSMessage.PositionSubscription m;
                 WSMessage.AccountBalancesSnapshot := WSMessage.AccountBalancesSnapshot m;
                 WSMessage.AccountBalancesUpdate := None;
                 WSMessage.MarketData := WSMessage.MarketData m;
                 WSMessage.MarketDataLite := WSMessage.MarketDataLite m;
                 WSMessage.Trade := WSMessage.Trade m |}
          | _ => None
          end
        else if fold_eqb k "marketData" then
          match v with
          | Json.JObj _ => Some {| WSMessage.RequestID := WSMessage.RequestID m;
                 WSMessage.SubscriptionType := WSMessage.SubscriptionType m;
                 WSMessage.Error := WSMessage.Error m;
                 WSMessage.Heartbeat := WSMessage.Heartbeat m;
                 WSMessage.OrderSubscriptionSnapshot := WSMessage.OrderSubscriptionSnapshot m;
                 WSMessage.OrderSubscriptionUpdate := WSMessage.OrderSubscriptionUpdate m;
                 WSMessage.PositionSubscription := WSMessage.PositionSubscription m;
                 WSMessage.AccountBalancesSnapshot := WSMessage.AccountBalancesSnapshot m;
                 WSMessage.AccountBalancesUpdate := WSMessage.AccountBalancesUpdate m;
                 WSMessage.MarketData := Some v;
                 WSMessage.MarketDataLite := WSMessage.MarketDataLite m;
                 WSMessage.Trade := WSMessage.Trade m |}
          | Json.JNull => Some {| WSMessage.RequestID := WSMessage.RequestID m;
                 WSMessage.SubscriptionType := WSMessage.SubscriptionType m;
                 WSMessage.Error := WSMessage.Error m;
                 WSMessage.Heartbeat := WSMessage.Heartbeat m;
                 WSMessage.OrderSubscriptionSnapshot := WSMessage.OrderSubscriptionSnapshot m;
                 WSMessage.OrderSubscriptionUpdate := WSMessage.OrderSubscriptionUpdate m;
                 WSMessage.PositionSubscription := WSMessage.PositionSubscription m;
                 WSMessage.AccountBalancesSnapshot := WSMessage.AccountBalancesSnapshot m;
                 WSMessage.AccountBalancesUpdate := WSMessage.AccountBalancesUpdate m;
                 WSMessage.MarketData := None;
                 WSMessage.MarketDataLite := WSMessage.MarketDataLite m;
                 WSMessage.Trade := WSMessage.Trade m |}
          | _ => None
          end
        else if fold_eqb k "marketDataLite" then
          match v with
          | Json.JObj _ => Some {| WSMessage.RequestID := WSMessage.RequestID m;
                 WSMessage.SubscriptionType := WSMessage.SubscriptionType m;
                 WSMessage.Error := WSMessage.Error m;
                 WSMessage.Heartbeat := WSMessage.Heartbeat m;
                 WSMessage.OrderSubscriptionSnapshot := WSMessage.OrderSubscriptionSnapshot m;
                 WSMessage.OrderSubscriptionUpdate := WSMessage.OrderSubscriptionUpdate m;
                 WSMessage.PositionSubscription := WSMessage.PositionSubscription m;
                 WSMessage.AccountBalancesSnapshot := WSMessage.AccountBalancesSnapshot m;
                 WSMessage.AccountBalancesUpdate := WSMessage.AccountBalancesUpdate m;
                 WSMessage.MarketData := WSMessage.MarketData m;
                 WSMessage.MarketDataLite := Some v;
                 WSMessage.Trade := WSMessage.Trade m |}
          | Json.JNull => Some {| WSMessage.RequestID := WSMessage.RequestID m;
                 WSMessage.SubscriptionType := WSMessage.SubscriptionType m;
                 WSMessage.Error := WSMessage.Error m;
                 WSMessage.Heartbeat := WSMessage.Heartbeat m;
                 WSMessage.OrderSubscriptionSnapshot := WSMessage.OrderSubscriptionSnapshot m;
                 WSMessage.OrderSubscriptionUpdate := WSMessage.OrderSubscriptionUpdate m;
                 WSMessage.PositionSubscription := WSMessage.PositionSubscription m;
                 WSMessage.AccountBalancesSnapshot := WSMessage.AccountBalancesSnapshot m;
                 WSMessage.AccountBalancesUpdate := WSMessage.AccountBalancesUpdate m;
                 WSMessage.MarketData := WSMessage.MarketData m;
                 WSMessage.MarketDataLite := None;
                 WSMessage.Trade := WSMessage.Trade m |}
          | _ => None
          end
        else if fold_eqb k "trade" then
          match v with
          | Json.JObj _ => Some {| WSMessage.RequestID := WSMessage.RequestID m;
                 WSMessage.SubscriptionType := WSMessage.SubscriptionType m;
                 WSMessage.Error := WSMessage.Error m;
                 WSMessage.Heartbeat := WSMessage.Heartbeat m;
                 WSMessage.OrderSubscriptionSnapshot := WSMessage.OrderSubscriptionSnapshot m;
                 WSMessage.OrderSubscriptionUpdate := WSMessage.OrderSubscriptionUpdate m;
                 WSMessage.PositionSubscription := WSMessage.PositionSubscription m;
                 WSMessage.AccountBalancesSnapshot := WSMessage.AccountBalancesSnapshot m;
                 WSMessage.AccountBalancesUpdate := WSMessage.AccountBalancesUpdate m;
                 WSMessage.MarketData := WSMessage.MarketData m;
                 WSMessage.MarketDataLite := WSMessage.MarketDataLite m;
                 WSMessage.Trade := Some v |}
          | Json.JNull => Some {| WSMessage.RequestID := WSMessage.RequestID m;
                 WSMessage.SubscriptionType := WSMessage.SubscriptionType m;
                 WSMessage.Error := WSMessage.Error m;
                 WSMessage.Heartbeat := WSMessage.Heartbeat m;
                 WSMessage.OrderSubscriptionSnapshot := WSMessage.OrderSubscriptionSnapshot m;
                 WSMessage.OrderSubscriptionUpdate := WSMessage.OrderSubscriptionUpdate m;
                 WSMessage.PositionSubscription := WSMessage.PositionSubscription m;
                 WSMessage.AccountBalancesSnapshot := WSMessage.AccountBalancesSnapshot m;
                 WSMessage.AccountBalancesUpdate := WSMessage.AccountBalancesUpdate m;
                 WSMessage.MarketData := WSMessage.MarketData m;
                 WSMessage.MarketDataLite := WSMessage.MarketDataLite m;
                 WSMessage.Trade := None |}
          | _ => None
          end
        else Some m
    end.

Definition decodeWSMessage (data : string) : option WSMessage.t :=
    match Json.decode data with
    | Some (Json.JObj members) =>
        fold_left set_WSMessage_field members (Some WSMessage.zero)
    | Some Json.JNull => Some WSMessage.zero
    | _ => None
    end.

#[export] Instance json_decoder : Decoder :=
    {| Unmarshal_WSMessage := decodeWSMessage |}.

  (** A signer that shows what it was given: the signature is the key
      and the message side by side, the encoding leaves it as it is. *)
#[export] Instance plain_crypto : Auth.Crypto :=
    {| Auth.ed25519_Sign := fun key message => key ++ "|" ++ message;
       Auth.base64_EncodeToString := fun b => b |}.

Definition cfg : Config.t :=
    {| Config.APIKey := "key-id";
       Config.PrivateKey := "secret";
       Config.Symbol := "m1";
       Config.BaseURL := "https://api.polymarket.us";
       Config.WSPrivateURL := "wss://api.polymarket.us/v1/ws/private";
       Config.WSMarketsURL := "wss://api.polymarket.us/v1/ws/markets";
       Config.InsecureSkipVerify := false |}.

  (** The text of an inbound frame carrying only a request id. *)
Definition frame_with_id (n : nat) : string :=
    Json.encode (Json.JObj [("requestId", Json.JStr (Go.FormatInt (Z.of_nat n)))]).

  (** What that frame decodes to. *)
Definition message_with_id (n : nat) : WSMessage.t :=
    {| WSMessage.RequestID := Go.FormatInt (Z.of_nat n);
       WSMessage.SubscriptionType := EmptyString;
       WSMessage.Error := EmptyString;
       WSMessage.Heartbeat := None;
       WSMessage.OrderSubscriptionSnapshot := None;
       WSMessage.OrderSubscriptionUpdate := None;
       WSMessage.PositionSubscription := None;
       WSMessage.AccountBalancesSnapshot := None;
       WSMessage.AccountBalancesUpdate := None;
       WSMessage.MarketData := None;
       WSMessage.MarketDataLite := None;
       WSMessage.Trade := None |}.

  (** Frames number 1 to 101. *)
Definition frames_101 : list string := map frame_with_id (seq 1 101).
Definition messages_101 : list WSMessage.t := map message_with_id (seq 1 101).

  (** The text of a heartbeat frame. *)
Definition heartbeat_frame : string :=
    Json.encode (Json.JObj [("heartbeat", Json.JObj [])]).

  (** A session on which [Connect] has succeeded. *)
Definition connected_client : Client.WSClient :=
    fst (fst (Client.Connect (K := plain_crypto)
                             (Client.NewWSClient cfg) 1704067200000 None
                             1704067200001 None None)).

  (** The program once [Connect] has succeeded, both readers blocked in
      their first [ReadMessage], and [Close] has then returned although
      closing the private socket failed. *)
Definition closed_with_blocked_readers : Client.System :=
    Client.run (K := plain_crypto) (D := json_decoder) (Client.boot cfg)
      [Client.EvCall (Client.CallConnect 1704067200000 None 1704067200001 None None);
       Client.EvSelect 0;
       Client.EvSelect 1;
       Client.EvCall (Client.CallClose (Some (Go.LibError "close: broken pipe")) None)].

  (** The program right after a successful [Connect]. *)
Definition connected_system : Client.System :=
    Client.run (K := plain_crypto) (D := json_decoder) (Client.boot cfg)
      [Client.EvCall (Client.CallConnect 1704067200000 None 1704067200001 None None)].

(** A key library that takes the text as the key bytes. *)
#[export] Instance plain_keylib : Config.KeyLib :=
  {| Config.base64_DecodeString := fun s => inl s;
     Config.ed25519_NewKeyFromSeed := fun seed => seed ++ seed |}.

(** An environment that sets the three required variables, the key
    being 32 bytes long, and a plain-HTTP base URL. *)
Definition staging_env : Config.Env :=
  fun name =>
    if String.eqb name "TEST_API_KEY_ID" then "key-id"
    else if String.eqb name "POLYMARKET_PRIVATE_KEY"
    then "0123456789abcdef0123456789abcdef"
    else if String.eqb name "POLYMARKET_SYMBOL" then "m1"
    else if String.eqb name "RETAIL_API_URL" then "http://localhost:8080"
    else EmptyString.

End Sample.

(* ================================================================== *)
(** * Properties *)

Import Go.
Import Models.
Import Client.

(** ** Basic facts about the session record *)

Lemma writes_on_app (s : socket) (t1 t2 : list effect) :
  writes_on s (t1 ++ t2)%list = (writes_on s t1 ++ writes_on s t2)%list.
Proof.
  induction t1 as [|e t1 IH]; simpl; [reflexivity|].
  destruct e; simpl; auto.
  destruct (socket_eqb s s0); simpl; rewrite IH; reflexivity.
Qed.

(** ** Connect *)

(** C4.  When the private dial succeeds and the markets dial fails on a
    session that is not connected, [Connect] calls [Close] on the
    private socket as its last action, returns the markets dial error
    wrapped as a connect error, starts no reader, and the session
    reports not connected. *)
Theorem connect_rolls_back_private_socket
        `{K : Auth.Crypto} (c : WSClient) (now1 now2 : Z)
        (err : error) (rollback : option error) :
  connected c = false ->
  exists c' k,
    Connect c now1 None now2 (Some err) rollback
      = (c', Some (ErrorfW "failed to connect to markets WebSocket" err), false)
    /\ privateConn c' = Some k
    /\ conn_url k = privateURL c
    /\ conn_closes k = 1%nat
    /\ trace c' = (trace c ++ [EffDial Private (privateURL c) None;
                               EffDial Markets (marketsURL c) (Some err);
                               EffConnClose Private rollback])%list
    /\ marketsConn c' = marketsConn c
    /\ IsConnected c' = false.
Proof.
  intros Hc. unfold Connect. simpl.
  eexists. eexists. split; [reflexivity|]. simpl.
  repeat split; try assumption.
  rewrite <- !app_assoc. reflexivity.
Qed.

Lemma connect_rolls_back_private_socket_witness :
  connected (NewWSClient Sample.cfg) = false
  /\ exists c' k,
       Connect (K := Sample.plain_crypto)
               (NewWSClient Sample.cfg) 1704067200000 None 1704067200001
               (Some (LibError "dial tcp: connection refused")) None
         = (c', Some (ErrorfW "failed to connect to markets WebSocket"
                              (LibError "dial tcp: connection refused")), false)
       /\ privateConn c' = Some k
       /\ conn_url k = privateURL (NewWSClient Sample.cfg)
       /\ conn_closes k = 1%nat
       /\ trace c' = (trace (NewWSClient Sample.cfg)
                      ++ [EffDial Private (privateURL (NewWSClient Sample.cfg)) None;
                          EffDial Markets (marketsURL (NewWSClient Sample.cfg))
                                  (Some (LibError "dial tcp: connection refused"));
                          EffConnClose Private None])%list
       /\ marketsConn c' = marketsConn (NewWSClient Sample.cfg)
       /\ IsConnected c' = false.
Proof.
  split; [reflexivity|].
  apply (connect_rolls_back_private_socket (K := Sample.plain_crypto)
                                           (NewWSClient Sample.cfg)).
  reflexivity.
Defined.

(** ** Close *)

(** C8.  On a session whose cancellation channel is still open and
    which holds both sockets, [Close] first closes the cancellation
    channel, then calls [Close] on the private socket and then on the
    markets socket whatever the first call returned; it returns nil
    when both calls succeed and otherwise one error that collects the
    failures in that order; afterwards the session reports not
    connected. *)
Theorem close_closes_both_and_aggregates
        (c : WSClient) (k1 k2 : Conn) (close1 close2 : option error) :
  done c = false ->
  privateConn c = Some k1 ->
  marketsConn c = Some k2 ->
  exists c',
    Close c close1 close2
      = Returns (c',
                 match close1, close2 with
                 | None, None => None
                 | Some e1, None => Some (ErrorfV "errors closing connections" [e1])
                 | None, Some e2 => Some (ErrorfV "errors closing connections" [e2])
                 | Some e1, Some e2 =>
                     Some (ErrorfV "errors closing connections" [e1; e2])
                 end)
    /\ trace c' = (trace c ++ [EffCloseDone;
                               EffConnClose Private close1;
                               EffConnClose Markets close2])%list
    /\ privateConn c' = Some (conn_closed_once k1)
    /\ marketsConn c' = Some (conn_closed_once k2)
    /\ done c' = true
    /\ IsConnected c' = false.
Proof.
  intros Hd H1 H2. destruct c; simpl in *; subst.
  unfold Close; simpl.
  destruct close1, close2; simpl; eexists; (split; [reflexivity|]); simpl;
    rewrite <- !app_assoc; repeat split; reflexivity.
Qed.

Lemma close_closes_both_and_aggregates_witness :
  exists c',
    Close Sample.connected_client (Some (LibError "broken pipe")) None
      = Returns (c', Some (ErrorfV "errors closing connections"
                                   [LibError "broken pipe"]))
    /\ trace c' = (trace Sample.connected_client
                   ++ [EffCloseDone;
                       EffConnClose Private (Some (LibError "broken pipe"));
                       EffConnClose Markets None])%list
    /\ privateConn c'
       = option_map conn_closed_once (privateConn Sample.connected_client)
    /\ marketsConn c'
       = option_map conn_closed_once (marketsConn Sample.connected_client)
    /\ done c' = true
    /\ IsConnected c' = false.
Proof.
  destruct (close_closes_both_and_aggregates
              Sample.connected_client
              {| conn_url := "wss://api.polymarket.us/v1/ws/private";
                 conn_header :=
                   Auth.GenerateWSHeaders (K := Sample.plain_crypto)
                                          Sample.cfg 1704067200000;
                 conn_closes := 0 |}
              {| conn_url := "wss://api.polymarket.us/v1/ws/markets";
                 conn_header :=
                   Auth.GenerateWSMarketsHeaders (K := Sample.plain_crypto)
                                                 Sample.cfg 1704067200001;
                 conn_closes := 0 |}
              (Some (LibError "broken pipe")) None
              eq_refl eq_refl eq_refl) as [c' Hc'].
  exists c'. exact Hc'.
Defined.

(** ** How the steps of the program move the session *)

Ltac break_match :=
  match goal with
  | |- context [match ?x with _ => _ end] => is_var x; destruct x
  | |- context [if ?x then _ else _] => is_var x; destruct x
  | |- context [match ?f ?x with _ => _ end] => is_var x; destruct (f x) eqn:?
  | |- context [match nth_error ?l ?i with _ => _ end] =>
      destruct (nth_error l i) eqn:?
  | |- context [if (?a <? ?b)%nat then _ else _] => destruct (a <? b)%nat eqn:?
  end.

Ltac break_all := repeat (break_match; simpl in * ).

Ltac unfold_calls :=
  unfold step_call, Connect, Close, SubscribeOrders, SubscribePositions,
    SubscribeBalances, SubscribeMarketData, SubscribeMarketDataLite,
    SubscribeTrades, Unsubscribe, IsConnected, nextRequestID,
    sendPrivate, sendMarkets, with_client in *.

Ltac unfold_readers :=
  unfold reader_select, reader_receive, try_send, with_client in *.

Section Steps.
Context `{K : Auth.Crypto}.
Context `{D : Decoder}.

  (** Once closed, the cancellation channel stays closed. *)
Lemma step_done_stays (s : System) (e : event) :
    done (client s) = true -> done (client (fst (step s e))) = true.
  Proof.
    destruct s as [c rds cr]. destruct c. simpl. intros Hd. subst.
    unfold step. simpl. destruct cr; [reflexivity|].
    destruct e as [k|i|i r|]; [destruct k| | |];
      unfold_calls; unfold_readers; simpl; break_all; reflexivity.
  Qed.

Lemma run_done_stays (evs : list event) (s : System) :
    done (client s) = true -> done (client (run s evs)) = true.
  Proof.
    revert s. induction evs as [|e evs IH]; intros s Hd; simpl; [exact Hd|].
    apply IH. apply step_done_stays. exact Hd.
  Qed.

End Steps.

(** C10.  Once [Close] has returned on a session, every later call of
    [Close] on it panics with "close of closed channel", whatever the
    application and the readers did in between: no step of the
    program reopens the channel. *)
Theorem second_close_panics
        `{K : Auth.Crypto} `{D : Decoder}
        (c c' : WSClient) (close1 close2 : option error) (err : option error) :
  Close c close1 close2 = Returns (c', err) ->
  (forall e1 e2, Close c' e1 e2 = Panics "close of closed channel")
  /\ (forall (rds : list reader) (evs : list event) e1 e2,
        let s := run {| client := c'; readers := rds; crashed := false |} evs in
        Close (client s) e1 e2 = Panics "close of closed channel").
Proof.
  intros HC.
  assert (Hd : done c' = true).
  { revert HC. destruct c. unfold Close. simpl.
    break_all; intros HC; inversion HC; reflexivity. }
  split.
  - intros e1 e2. unfold Close. rewrite Hd. reflexivity.
  - intros rds evs e1 e2 s. unfold Close.
    assert (Hs : done (client s) = true)
      by (apply run_done_stays; exact Hd).
    rewrite Hs. reflexivity.
Qed.

Lemma second_close_panics_witness :
  exists c',
    Close Sample.connected_client None None = Returns (c', None)
    /\ Close c' None None = Panics "close of closed channel".
Proof.
  eexists. split; [reflexivity|].
  apply (second_close_panics (K := Sample.plain_crypto) (D := Sample.json_decoder)
                             Sample.connected_client _ None None None eq_refl).
Defined.

(** ** Subscribe: routing *)

(** C3.  Every subscribe call leaves the socket that the mapping does
    not name untouched, and hands exactly one frame to the socket it
    names when that socket is present (none, and an error, when it is
    absent).  In particular an order subscription never writes to the
    markets socket and a market-data subscription never writes to the
    private socket. *)
Theorem subscribe_routes_by_kind
        (k : kind) (c : WSClient) (marketSlugs : list string)
        (debounced : bool) (wr : option error) :
  let target := socket_of_kind k in
  let c' := fst (subscribe k c marketSlugs debounced wr) in
  let r := snd (subscribe k c marketSlugs debounced wr) in
  writes_on (other_socket target) (trace c')
  = writes_on (other_socket target) (trace c)
  /\ match conn_of target c with
     | Some _ =>
         exists data,
           trace c' = (trace c ++ [EffWrite target data wr])%list
           /\ writes_on target (trace c') = (writes_on target (trace c) ++ [data])%list
           /\ snd r = wr
     | None =>
         trace c' = trace c /\ exists e, r = (EmptyString, Some e)
     end
  /\ writes_on Markets (trace (fst (SubscribeOrders c marketSlugs wr)))
     = writes_on Markets (trace c)
  /\ writes_on Private (trace (fst (SubscribeMarketData c marketSlugs debounced wr)))
     = writes_on Private (trace c).
Proof.
  destruct c. unfold subscribe. unfold_calls. simpl.
  repeat split.
  - destruct k; simpl; break_all; simpl; rewrite ?writes_on_app; simpl;
      rewrite ?app_nil_r; reflexivity.
  - destruct k; simpl; break_all; simpl;
      try (eexists; repeat split; rewrite ?writes_on_app; reflexivity);
      try (split; [reflexivity | eexists; reflexivity]).
  - break_all; simpl; rewrite ?writes_on_app; simpl; rewrite ?app_nil_r; reflexivity.
  - break_all; simpl; rewrite ?writes_on_app; simpl; rewrite ?app_nil_r; reflexivity.
Qed.

(** ** The subscription frame *)

Lemma append_assoc (a b c : string) : (a ++ b) ++ c = a ++ (b ++ c).
Proof. induction a; simpl; congruence. Qed.

(** Reading back one escaped character. *)
Lemma parse_string_escape_char (c : ascii) (rest : string) :
  Json.parse_string (Json.escape_char c ++ rest)
  = match Json.parse_string rest with
    | Some (t, r) => Some (String c t, r)
    | None => None
    end.
Proof.
  destruct c as [[] [] [] [] [] [] [] []]; reflexivity.
Qed.

(** Reading back an escaped string: every byte string survives. *)
Lemma parse_string_escape (s rest : string) :
  Json.parse_string (Json.escape s ++ String dquote rest) = Some (s, rest).
Proof.
  induction s as [|c s IH]; simpl.
  - reflexivity.
  - rewrite append_assoc, parse_string_escape_char, IH. reflexivity.
Qed.

Lemma encode_string_append (s rest : string) :
  Json.encode_string s ++ rest = String dquote (Json.escape s ++ String dquote rest).
Proof.
  unfold Json.encode_string, quoted. simpl. rewrite append_assoc. reflexivity.
Qed.

(** The frame of a market-data subscription for ["m1"], debounced,
    around its request id. *)
Lemma market_data_frame_shape (rid : string) :
  Marshal (subscription rid SubscriptionTypeMarketData ["m1"] true)
  = ("{" ++ Json.encode_string "subscribe" ++ ":{"
         ++ Json.encode_string "request_id" ++ ":" ++ String dquote EmptyString)
    ++ (Json.escape rid
        ++ String dquote
             ("," ++ Json.encode_string "subscription_type" ++ ":1,"
                  ++ Json.encode_string "market_slugs" ++ ":["
                  ++ Json.encode_string "m1" ++ "],"
                  ++ Json.encode_string "responses_debounced" ++ ":true}}")).
Proof.
  unfold Marshal, subscription, json_of_WSSubscribeRequest, json_of_WSSubscription.
  cbn [Subscribe WSSubscription.RequestID WSSubscription.SubscriptionType
       WSSubscription.MarketSlugs WSSubscription.ResponsesDebounced map List.app].
  cbn [Json.encode].
  rewrite !append_assoc.
  rewrite (encode_string_append rid).
  generalize (Json.escape rid). intros e.
  vm_compute. reflexivity.
Qed.

Lemma market_data_frame_parses (rid : string) (fuel : nat) :
  (10 <= fuel)%nat ->
  Json.parse_value fuel
    (Marshal (subscription rid SubscriptionTypeMarketData ["m1"] true))
  = Some (Json.JObj
            [("subscribe",
              Json.JObj [("request_id", Json.JStr rid);
                         ("subscription_type", Json.JNum 1);
                         ("market_slugs", Json.JArr [Json.JStr "m1"]);
                         ("responses_debounced", Json.JBool true)])],
          EmptyString).
Proof.
  intros Hf.
  do 10 (destruct fuel as [|fuel]; [lia|]). clear Hf.
  rewrite market_data_frame_shape.
  match goal with
  | |- context [Json.escape rid ++ String dquote ?suf] =>
      generalize (parse_string_escape rid suf);
      generalize (Json.escape rid ++ String dquote suf)
  end.
  intros mid Hmid.
  match goal with
  | |- ?l = _ => let l' := eval hnf in l in change l with l'
  end.
  repeat match goal with
         | |- context [match ?x with Some _ => _ | None => _ end] =>
             let t := eval hnf in x in progress change x with t
         end.
  change (EmptyString ++ mid) with mid.
  rewrite Hmid.
  vm_compute. reflexivity.
Qed.

Lemma market_data_frame_length (rid : string) :
  (10 <= String.length
           (Marshal (subscription rid SubscriptionTypeMarketData ["m1"] true)))%nat.
Proof.
  rewrite market_data_frame_shape.
  cbn [append Json.encode_string quoted Json.escape Json.escape_char String.length].
  simpl. lia.
Qed.

(** C7.  The frame that encodes a market-data subscription for market
    ids ["m1"] with debouncing on, whatever its request id, decodes to
    an object whose [subscribe] member has [subscription_type] equal to
    the integer 1, [market_slugs] equal to ["m1"] and
    [responses_debounced] equal to true; decoding it into the request
    type gives the request back; and it is the frame that
    [SubscribeMarketData] hands to the markets socket. *)
Theorem market_data_subscription_round_trip (rid : string) :
  let frame := Marshal (subscription rid SubscriptionTypeMarketData ["m1"] true) in
  (exists obj sub,
      Json.decode frame = Some obj
      /\ Json.member "subscribe" obj = Some sub
      /\ Json.member "request_id" sub = Some (Json.JStr rid)
      /\ Json.member "subscription_type" sub = Some (Json.JNum 1)
      /\ Json.member "market_slugs" sub = Some (Json.JArr [Json.JStr "m1"])
      /\ Json.member "responses_debounced" sub = Some (Json.JBool true))
  /\ Unmarshal_WSSubscribeRequest frame
     = Some {| Subscribe :=
                 Some {| WSSubscription.RequestID := rid;
                         WSSubscription.SubscriptionType := 1;
                         WSSubscription.MarketSlugs := ["m1"];
                         WSSubscription.ResponsesDebounced := true |} |}
  /\ (forall (c : WSClient) (wr : option error),
        marketsConn c <> None ->
        trace (fst (SubscribeMarketData c ["m1"] true wr))
        = (trace c
           ++ [EffWrite Markets
                 (Marshal (subscription (fst (nextRequestID c "marketdata"))
                                        SubscriptionTypeMarketData ["m1"] true))
                 wr])%list).
Proof.
  intros frame.
  assert (Hdec : Json.decode frame
                 = Some (Json.JObj
                           [("subscribe",
                             Json.JObj [("request_id", Json.JStr rid);
                                        ("subscription_type", Json.JNum 1);
                                        ("market_slugs", Json.JArr [Json.JStr "m1"]);
                                        ("responses_debounced", Json.JBool true)])])).
  { unfold Json.decode, frame.
    rewrite market_data_frame_parses; [reflexivity|].
    pose proof (market_data_frame_length rid). lia. }
  split; [|split].
  - eexists. eexists. split; [exact Hdec|]. repeat split.
  - unfold Unmarshal_WSSubscribeRequest. rewrite Hdec. reflexivity.
  - intros c wr Hm. destruct c. unfold_calls. simpl in *.
    destruct marketsConn0; [destruct wr; reflexivity | congruence].
Qed.

Lemma market_data_subscription_round_trip_witness :
  marketsConn Sample.connected_client <> None
  /\ trace (fst (SubscribeMarketData Sample.connected_client ["m1"] true None))
     = (trace Sample.connected_client
        ++ [EffWrite Markets
              (Marshal (subscription "marketdata-1" SubscriptionTypeMarketData
                                     ["m1"] true))
              None])%list.
Proof.
  assert (Hm : marketsConn Sample.connected_client <> None) by (simpl; discriminate).
  split; [exact Hm|].
  exact (proj2 (proj2 (market_data_subscription_round_trip "marketdata-1"))
               Sample.connected_client None Hm).
Defined.

(** Under the earlier layout the same subscription goes out with a
    string-valued [subscriptionType] member and no [subscription_type]
    member. *)
Remark older_layout_frame :
  let frame :=
    ModelsOld.Marshal_subscribe
      {| ModelsOld.RequestID := "marketdata-1";
         ModelsOld.SubscriptionType := ModelsOld.SubscriptionTypeMarketData;
         ModelsOld.MarketSlugs := ["m1"];
         ModelsOld.ResponsesDebounced := true |} in
  exists obj sub,
    Json.decode frame = Some obj
    /\ Json.member "subscribe" obj = Some sub
    /\ Json.member "subscription_type" sub = None
    /\ Json.member "subscriptionType" sub
       = Some (Json.JStr "SUBSCRIPTION_TYPE_MARKET_DATA").
Proof.
  eexists. eexists. split; [vm_compute; reflexivity|].
  repeat split.
Qed.

(** ** The request signer *)

Section UrlQuery.
Import NetHTTP.

Lemma all_chars_app (p : ascii -> bool) (a b : string) :
    all_chars p (a ++ b) = all_chars p a && all_chars p b.
  Proof.
    induction a as [|c a IH]; simpl; [reflexivity|].
    rewrite IH, andb_assoc. reflexivity.
  Qed.

Lemma cut_lacks (c : ascii) (s : string) :
    lacks c s = true -> cut c s = (s, EmptyString, false).
  Proof.
    unfold lacks. induction s as [|x s IH]; simpl; [reflexivity|].
    intros Hs. apply andb_true_iff in Hs. destruct Hs as [Hx Hs].
    apply negb_true_iff in Hx. rewrite Hx, (IH Hs). reflexivity.
  Qed.

Lemma cut_app (c : ascii) (u q : string) :
    lacks c u = true -> cut c (u ++ String c q) = (u, q, true).
  Proof.
    unfold lacks. induction u as [|x u IH]; simpl.
    - intros _. rewrite Ascii.eqb_refl. reflexivity.
    - intros Hs. apply andb_true_iff in Hs. destruct Hs as [Hx Hs].
      apply negb_true_iff in Hx. rewrite Hx, (IH Hs). reflexivity.
  Qed.

  (** A question mark ends the scan for a scheme exactly as the end of
      the text does. *)
Lemma getScheme_from_query (u q whole seen : string) (i : nat) :
    lacks "?" u = true ->
    lacks "?" whole = true ->
    getScheme_from i seen (u ++ String "?" q) (whole ++ String "?" q)
    = match getScheme_from i seen u whole with
      | Some (scheme, rest) => Some (scheme, rest ++ String "?" q)
      | None => None
      end
    /\ (forall scheme rest,
          getScheme_from i seen u whole = Some (scheme, rest) ->
          lacks "?" rest = true).
  Proof.
    intros Hu Hw. revert i seen.
    induction u as [|c u IH]; intros i seen.
    - simpl. split; [reflexivity|].
      intros scheme rest Heq. inversion Heq; subst. exact Hw.
    - unfold lacks in Hu. simpl in Hu. apply andb_true_iff in Hu.
      destruct Hu as [Hc Hu].
      specialize (IH Hu).
      simpl.
      destruct (is_upper c || is_lower c).
      { apply IH. }
      destruct (Json.is_digit c || Ascii.eqb c "+" || Ascii.eqb c "-" || Ascii.eqb c ".").
      { destruct i.
        - split; [reflexivity|]. intros ? ? Heq; inversion Heq; subst; exact Hw.
        - apply IH. }
      destruct (Ascii.eqb c ":").
      { destruct i.
        - split; [reflexivity|]. intros ? ? Heq; discriminate.
        - split; [reflexivity|]. intros ? ? Heq; inversion Heq; subst; exact Hu. }
      split; [reflexivity|]. intros ? ? Heq; inversion Heq; subst; exact Hw.
  Qed.

  (** The query does not reach the path. *)
Lemma parse_rest_path (scheme rest q1 q2 fragment : string) :
    option_map URL.Path (parse_rest scheme rest q1 fragment)
    = option_map URL.Path (parse_rest scheme rest q2 fragment).
  Proof.
    unfold parse_rest.
    repeat match goal with
           | |- context [if ?x then _ else _] => destruct x
           | |- context [match cut ?c ?x with _ => _ end] =>
               destruct (cut c x) as [[? ?] ?]
           | |- context [match unescape ?x with _ => _ end] => destruct (unescape x)
           end; reflexivity.
  Qed.

Lemma not_star_with_query (u q : string) :
    String.eqb (u ++ String "?" q) "*" = false.
  Proof.
    destruct u as [|c [|d u]]; simpl; try reflexivity.
    - destruct (Ascii.eqb c "*"); reflexivity.
    - destruct (Ascii.eqb c "*"); reflexivity.
  Qed.

Lemma Parse_star_query (q : string) :
    lacks "#" q = true ->
    all_chars (fun c => negb (is_ctl c)) q = true ->
    option_map URL.Path (Parse ("*" ++ String "?" q)) = Some "*".
  Proof.
    intros Hq Hctl. unfold Parse.
    assert (Hcut : cut "#" ("*" ++ String "?" q) = ("*" ++ String "?" q, EmptyString, false)).
    { apply cut_lacks. unfold lacks in *. simpl. exact Hq. }
    rewrite Hcut. simpl all_chars. rewrite Hctl. simpl.
    reflexivity.
  Qed.

  (** Appending a query to a URL leaves the parsed path as it is. *)
Lemma Parse_query_path (u q : string) :
    lacks "#" u = true ->
    lacks "?" u = true ->
    lacks "#" q = true ->
    all_chars (fun c => negb (is_ctl c)) q = true ->
    option_map URL.Path (Parse (u ++ String "?" q)) = option_map URL.Path (Parse u).
  Proof.
    intros Hu1 Hu2 Hq Hctl.
    destruct (String.eqb_spec u "*") as [Hstar|Hstar].
    { subst u. rewrite Parse_star_query by assumption. reflexivity. }
    unfold Parse.
    rewrite (cut_lacks "#" u Hu1).
    assert (Hcut : cut "#" (u ++ String "?" q) = (u ++ String "?" q, EmptyString, false)).
    { apply cut_lacks. unfold lacks in *. rewrite all_chars_app. simpl.
      rewrite Hu1, Hq. reflexivity. }
    rewrite Hcut, all_chars_app. simpl all_chars at 2. rewrite Hctl.
    change (negb (is_ctl "?") && true) with true. rewrite andb_true_r.
    destruct (all_chars (fun c => negb (is_ctl c)) u); simpl; [|reflexivity].
    rewrite not_star_with_query.
    apply String.eqb_neq in Hstar. rewrite Hstar.
    unfold getScheme.
    destruct (getScheme_from_query u q u EmptyString 0 Hu2 Hu2) as [Hs Hr].
    rewrite Hs.
    destruct (getScheme_from 0 EmptyString u u) as [[scheme rest]|]; [|reflexivity].
    specialize (Hr scheme rest eq_refl).
    rewrite (cut_app "?" rest q Hr), (cut_lacks "?" rest Hr).
    apply parse_rest_path.
  Qed.

End UrlQuery.

Section Signing.
Context `{K : Auth.Crypto}.
Import NetHTTP.

Lemma doRequest_signed_signature (cfg : Config.t) (method path : string)
        (has_body : bool) (now : Z) :
    Rest.signature_of (Rest.doRequest_signed cfg method path has_body now)
    = option_map
        (fun req =>
           Some (Auth.base64_EncodeToString
                   (Auth.ed25519_Sign (Config.PrivateKey cfg)
                      (FormatInt now ++ Request.Method req
                                 ++ URL.Path (Request.URL req)))))
        (NewRequest method (Config.BaseURL cfg ++ path)).
  Proof.
    unfold Rest.doRequest_signed, Rest.signature_of. simpl.
    destruct (NewRequest method (Config.BaseURL cfg ++ path)) as [req|]; [|reflexivity].
    destruct has_body; reflexivity.
  Qed.

Lemma NewRequest_query (method u q : string) :
    lacks "#" u = true ->
    lacks "?" u = true ->
    lacks "#" q = true ->
    all_chars (fun c => negb (is_ctl c)) q = true ->
    option_map (fun req => (Request.Method req, URL.Path (Request.URL req)))
               (NewRequest method (u ++ String "?" q))
    = option_map (fun req => (Request.Method req, URL.Path (Request.URL req)))
                 (NewRequest method u).
  Proof.
    intros Hu1 Hu2 Hq Hctl. unfold NewRequest.
    destruct (negb (all_chars is_token_char
                      (if String.eqb method EmptyString then "GET" else method)));
      [reflexivity|].
    pose proof (Parse_query_path u q Hu1 Hu2 Hq Hctl) as HP.
    destruct (Parse (u ++ String "?" q)), (Parse u); simpl in *;
      try discriminate; try reflexivity.
    inversion HP. congruence.
  Qed.

End Signing.

(** C6.  For every request, configuration and clock reading, the
    signer signs exactly the decimal timestamp, then the method, then
    the URL path, with nothing in between, and sends the same decimal
    timestamp along; a query string appended to the request target does
    not change what is signed; signing GET
    /v1/portfolio/positions?limit=10 at 1704067200000 signs
    1704067200000GET/v1/portfolio/positions. *)
Theorem signed_message_is_timestamp_method_path `{K : Auth.Crypto} :
  (forall (req : NetHTTP.Request.t) (cfg : Config.t) (now : Z),
      let req' := fst (Auth.SignRequest req cfg now) in
      NetHTTP.Header_Get "X-PM-Signature" (NetHTTP.Request.Header req')
      = Some (Auth.base64_EncodeToString
                (Auth.ed25519_Sign (Config.PrivateKey cfg)
                   (FormatInt now ++ NetHTTP.Request.Method req
                              ++ NetHTTP.URL.Path (NetHTTP.Request.URL req))))
      /\ NetHTTP.Header_Get "X-PM-Timestamp" (NetHTTP.Request.Header req')
         = Some (FormatInt now)
      /\ snd (Auth.SignRequest req cfg now) = None)
  /\ (forall (cfg : Config.t) (method path query : string)
             (has_body : bool) (now : Z),
        NetHTTP.lacks "#" (Config.BaseURL cfg ++ path) = true ->
        NetHTTP.lacks "?" (Config.BaseURL cfg ++ path) = true ->
        NetHTTP.lacks "#" query = true ->
        NetHTTP.all_chars (fun c => negb (NetHTTP.is_ctl c)) query = true ->
        Rest.signature_of (Rest.doRequest_signed cfg method (path ++ String "?" query)
                                            has_body now)
        = Rest.signature_of (Rest.doRequest_signed cfg method path has_body now))
  /\ (forall (cfg : Config.t),
        Config.BaseURL cfg = "https://api.polymarket.us" ->
        Rest.signature_of (Rest.doRequest_signed cfg "GET"
                        "/v1/portfolio/positions?limit=10" false 1704067200000)
        = Some (Some (Auth.base64_EncodeToString
                        (Auth.ed25519_Sign (Config.PrivateKey cfg)
                           "1704067200000GET/v1/portfolio/positions")))).
Proof.
  split; [|split].
  - intros req cfg now. repeat split.
  - intros cfg method path query has_body now Hu1 Hu2 Hq Hctl.
    rewrite !doRequest_signed_signature.
    rewrite <- append_assoc.
    pose proof (NewRequest_query method (Config.BaseURL cfg ++ path) query
                                 Hu1 Hu2 Hq Hctl) as HN.
    destruct (NetHTTP.NewRequest method ((Config.BaseURL cfg ++ path) ++ String "?" query)),
             (NetHTTP.NewRequest method (Config.BaseURL cfg ++ path));
      simpl in *; try discriminate; try reflexivity.
    inversion HN. congruence.
  - intros cfg Hbase. rewrite doRequest_signed_signature, Hbase. reflexivity.
Qed.

Lemma signed_message_is_timestamp_method_path_witness :
  Rest.signature_of
               (Rest.doRequest_signed (K := Sample.plain_crypto) Sample.cfg "GET"
                  ("/v1/portfolio/positions" ++ String "?" "limit=10")
                  false 1704067200000)
  = Rest.signature_of
                 (Rest.doRequest_signed (K := Sample.plain_crypto) Sample.cfg "GET"
                    "/v1/portfolio/positions" false 1704067200000)
  /\ Rest.signature_of
                  (Rest.doRequest_signed (K := Sample.plain_crypto) Sample.cfg "GET"
                     "/v1/portfolio/positions?limit=10" false 1704067200000)
     = Some (Some "secret|1704067200000GET/v1/portfolio/positions").
Proof.
  split.
  - apply (proj1 (proj2 (signed_message_is_timestamp_method_path
                           (K := Sample.plain_crypto)))); reflexivity.
  - apply (proj2 (proj2 (signed_message_is_timestamp_method_path
                           (K := Sample.plain_crypto))) Sample.cfg).
    reflexivity.
Defined.

(** ** The inbound queue *)

Lemma try_send_bounded {A : Type} (cap : nat) (q : list A) (v : A) :
  (List.length q <= cap)%nat ->
  (List.length (fst (try_send cap q v)) <= cap)%nat.
Proof.
  intros Hq. unfold try_send.
  destruct (List.length q <? cap)%nat eqn:Hlt; simpl; [|exact Hq].
  apply Nat.ltb_lt in Hlt. rewrite length_app. simpl. lia.
Qed.

Section Queue.
Context `{K : Auth.Crypto}.
Context `{D : Decoder}.

Lemma step_queue_move (s : System) (e : event) :
    queue_move (messages (client s)) (messages (client (fst (step s e)))).
  Proof.
    destruct s as [c rds cr]. destruct c. unfold step. simpl.
    destruct cr; [apply QueueSame; reflexivity|].
    destruct e as [k|i|i r|]; [destruct k| | |]; unfold_calls; simpl;
      try unfold reader_receive; simpl;
      break_all; try (apply QueueSame; reflexivity);
      try (eapply QueuePop; reflexivity);
      (eapply QueuePush; [unfold no_heartbeat; eassumption|]);
      match goal with H : try_send _ _ _ = _ |- _ => rewrite H end; reflexivity.
  Qed.

Lemma run_queue_bounded (evs : list event) (s : System) :
    (List.length (messages (client s)) <= messages_cap)%nat ->
    (List.length (messages (client (run s evs))) <= messages_cap)%nat.
  Proof.
    revert s. induction evs as [|e evs IH]; intros s Hs; simpl; [exact Hs|].
    apply IH.
    destruct (step_queue_move s e) as [Hq|m Hq|m Hm Hq].
    - rewrite Hq. exact Hs.
    - rewrite Hq in Hs. simpl in Hs. lia.
    - rewrite Hq. apply try_send_bounded. exact Hs.
  Qed.

Lemma run_queue_no_heartbeat (evs : list event) (s : System) :
    Forall no_heartbeat (messages (client s)) ->
    Forall no_heartbeat (messages (client (run s evs))).
  Proof.
    revert s. induction evs as [|e evs IH]; intros s Hs; simpl; [exact Hs|].
    apply IH.
    destruct (step_queue_move s e) as [Hq|m Hq|m Hm Hq].
    - rewrite Hq. exact Hs.
    - rewrite Hq in Hs. inversion Hs; assumption.
    - rewrite Hq. unfold try_send.
      destruct (List.length (messages (client s)) <? messages_cap)%nat; simpl;
        [|exact Hs].
      apply Forall_app. split; [exact Hs|]. constructor; [exact Hm|constructor].
  Qed.

  (** No step of the program logs the push of a heartbeat. *)
Lemma step_trace_grows (s : System) (e : event) :
    exists l, trace (client (fst (step s e))) = (trace (client s) ++ l)%list
              /\ Forall push_ok l.
  Proof.
    destruct s as [c rds cr]. destruct c. unfold step. simpl.
    destruct cr; [exists []; rewrite app_nil_r; split; [reflexivity|constructor]|].
    destruct e as [k|i|i r|]; [destruct k| | |]; unfold_calls; simpl;
      try unfold reader_receive, try_send; simpl;
      break_all; rewrite <- ?app_assoc; simpl;
      try (exists []; rewrite app_nil_r; split; [reflexivity|constructor]);
      try (eexists; split; [reflexivity|]; repeat constructor; assumption).
  Qed.

Lemma run_trace_push_ok (evs : list event) (s : System) :
    Forall push_ok (trace (client s)) ->
    Forall push_ok (trace (client (run s evs))).
  Proof.
    revert s. induction evs as [|e evs IH]; intros s Hs; simpl; [exact Hs|].
    apply IH.
    destruct (step_trace_grows s e) as [l [Hl Hok]].
    rewrite Hl. apply Forall_app. split; assumption.
  Qed.

Lemma firstn_full {A : Type} (n : nat) (q l : list A) :
    List.length q = n -> firstn n (q ++ l) = q.
  Proof.
    intros Hq. rewrite firstn_app, Hq, Nat.sub_diag. simpl.
    rewrite app_nil_r. rewrite <- Hq. apply firstn_all.
  Qed.

  (** A reader fed frames that decode to messages other than
      heartbeats, nobody else touching the session: the queue takes
      them in order until it is full and keeps what it has from then
      on; the reader ends waiting for the next frame. *)
Lemma reader_loop_frames (sock : socket) (frames : list string) :
    forall (msgs : list WSMessage.t) (c : WSClient),
      done c = false ->
      (List.length (messages c) <= messages_cap)%nat ->
      map Unmarshal_WSMessage frames = map Some msgs ->
      Forall no_heartbeat msgs ->
      messages (fst (reader_loop sock c (map ReadOk frames)))
      = firstn messages_cap (messages c ++ msgs)
      /\ snd (reader_loop sock c (map ReadOk frames)) = InRead.
  Proof.
    induction frames as [|f frames IH]; intros msgs c Hd Hlen Hdec Hhb.
    - destruct msgs; [|discriminate].
      cbn [map reader_loop]. unfold reader_select. rewrite Hd.
      cbn [fst snd]. rewrite app_nil_r. split; [|reflexivity].
      symmetry. apply firstn_all2. exact Hlen.
    - destruct msgs as [|m msgs]; [discriminate|].
      cbn [map] in Hdec. inversion Hdec as [[Hf Hrest]].
      inversion Hhb as [|? ? Hm Hms]; subst.
      cbn [map reader_loop]. unfold reader_select. rewrite Hd.
      unfold reader_receive. rewrite Hf.
      unfold no_heartbeat in Hm. rewrite Hm.
      unfold try_send.
      destruct (List.length (messages c) <? messages_cap)%nat eqn:Hlt.
      + apply Nat.ltb_lt in Hlt.
        destruct (IH msgs (emit (EffPush sock m true)
                                (set_messages (messages c ++ [m]) c)))
          as [Hq Hp]; try assumption.
        { cbn [messages emit set_messages]. rewrite length_app.
          cbn [List.length]. lia. }
        rewrite Hq, Hp. cbn [messages emit set_messages].
        rewrite <- app_assoc. split; reflexivity.
      + apply Nat.ltb_ge in Hlt.
        destruct (IH msgs (emit (EffPush sock m false)
                                (set_messages (messages c) c)))
          as [Hq Hp]; try assumption.
        rewrite Hq, Hp. cbn [messages emit set_messages]. split; [|reflexivity].
        assert (Hfull : List.length (messages c) = messages_cap) by lia.
        rewrite !firstn_full by exact Hfull. reflexivity.
  Qed.

End Queue.

(** C1.  The inbound queue has room for 100 messages.  In every state
    the program can reach it holds at most 100.  In every state, a
    reader whose receive has returned a message to forward finishes its
    iteration at once, back at the top of its loop: the message is
    appended when there is room and dropped otherwise.  When 101 frames
    that decode to messages other than heartbeats arrive on one socket
    of a running session whose queue is empty, nothing draining it, the
    queue ends up holding messages 1 to 100 in arrival order and not
    message 101. *)
Theorem inbound_queue_bounded_and_lossy `{K : Auth.Crypto} `{D : Decoder} :
  messages_cap = 100%nat
  /\ (forall (cfg : Config.t) (evs : list event),
        (List.length (messages (client (run (boot cfg) evs))) <= 100)%nat)
  /\ (forall (sock : socket) (c : WSClient) (frame : string) (msg : WSMessage.t),
        Unmarshal_WSMessage frame = Some msg ->
        no_heartbeat msg ->
        snd (reader_receive sock c (ReadOk frame)) = AtSelect
        /\ messages (fst (reader_receive sock c (ReadOk frame)))
           = if (List.length (messages c) <? 100)%nat
             then (messages c ++ [msg])%list
             else messages c)
  /\ (forall (sock : socket) (c : WSClient) (frames : list string)
             (msgs : list WSMessage.t),
        done c = false ->
        messages c = [] ->
        List.length frames = 101%nat ->
        map Unmarshal_WSMessage frames = map Some msgs ->
        Forall no_heartbeat msgs ->
        let c' := fst (reader_loop sock c (map ReadOk frames)) in
        messages c' = firstn 100 msgs
        /\ List.length (messages c') = 100%nat
        /\ snd (reader_loop sock c (map ReadOk frames)) = InRead).
Proof.
  split; [reflexivity|]. split; [|split].
  - intros cfg evs. apply (run_queue_bounded evs (boot cfg)). simpl.
    unfold messages_cap. lia.
  - intros sock c frame msg Hdec Hhb. unfold reader_receive. rewrite Hdec.
    unfold no_heartbeat in Hhb. rewrite Hhb. unfold try_send.
    change messages_cap with 100%nat.
    destruct (List.length (messages c) <? 100)%nat; simpl; split; reflexivity.
  - intros sock c frames msgs Hd Hq Hlen Hdec Hhb c'.
    destruct (reader_loop_frames sock frames msgs c Hd) as [Hm Hp];
      try assumption.
    { rewrite Hq. simpl. unfold messages_cap. lia. }
    subst c'. rewrite Hm, Hq. cbn [app]. change messages_cap with 100%nat.
    split; [reflexivity|]. split; [|exact Hp].
    rewrite length_firstn.
    assert (Hl : List.length msgs = 101%nat).
    { rewrite <- (length_map Some msgs), <- Hdec, length_map. exact Hlen. }
    rewrite Hl. reflexivity.
Qed.

(** C2.  In every state the program can reach, the inbound queue holds
    no message whose heartbeat variant is populated, and no reader has
    ever pushed, or tried to push, such a message. *)
Theorem heartbeats_never_reach_queue `{K : Auth.Crypto} `{D : Decoder}
        (cfg : Config.t) (evs : list event) :
  Forall no_heartbeat (messages (client (run (boot cfg) evs)))
  /\ (forall (sock : socket) (m : WSMessage.t) (queued : bool),
        In (EffPush sock m queued) (trace (client (run (boot cfg) evs))) ->
        WSMessage.Heartbeat m = None).
Proof.
  split.
  - apply run_queue_no_heartbeat. constructor.
  - intros sock m queued Hin.
    assert (Hok : Forall push_ok (trace (client (run (boot cfg) evs))))
      by (apply run_trace_push_ok; constructor).
    rewrite Forall_forall in Hok. apply (Hok _ Hin).
Qed.

Lemma inbound_queue_bounded_and_lossy_witness :
  let r := readPrivate (D := Sample.json_decoder) Sample.connected_client
                       (map ReadOk Sample.frames_101) in
  messages (fst r) = firstn 100 Sample.messages_101
  /\ List.length (messages (fst r)) = 100%nat
  /\ snd r = InRead.
Proof.
  apply (proj2 (proj2 (proj2 (inbound_queue_bounded_and_lossy
                                (K := Sample.plain_crypto)
                                (D := Sample.json_decoder))))
               Private Sample.connected_client Sample.frames_101
               Sample.messages_101).
  - reflexivity.
  - reflexivity.
  - reflexivity.
  - vm_compute. reflexivity.
  - apply Forall_forall. intros m Hm.
    apply in_map_iff in Hm. destruct Hm as [n [Hn _]]. subst m. reflexivity.
Defined.

(** ** Cancellation and the readers *)

Lemma nth_error_set_reader_pc_same (i : nat) (p : pc) (l : list reader) :
  nth_error (set_reader_pc i p l) i
  = option_map (fun rd => {| rd_socket := rd_socket rd; rd_pc := p |})
               (nth_error l i).
Proof.
  revert i. induction l as [|rd l IH]; intros [|i]; simpl; auto.
Qed.

Section Termination.
Context `{K : Auth.Crypto}.
Context `{D : Decoder}.

Lemma step_closing_invariant (s : System) (e : event) :
  allowed s e -> closing_invariant s -> closing_invariant (fst (step s e)).
Proof.
  destruct s as [c rds cr]. destruct c.
  unfold closing_invariant, allowed, step. simpl.
  intros Hal [Hcr [Hrd Hcl]]. subst cr.
  destruct e as [k|i|i r|].
  - destruct k.
    + destruct Hal as [Hc Hd]. subst.
      unfold_calls; simpl. break_all; simpl;
        (split; [reflexivity|]); (split; [|discriminate]).
      * rewrite app_nil_r. intros Hne. destruct (Hrd Hne). split; assumption.
      * rewrite app_nil_r. intros Hne. destruct (Hrd Hne).
        split; [discriminate | assumption].
      * intros _. split; discriminate.
    + subst. unfold_calls; simpl. break_all; simpl;
        (split; [reflexivity|]);
        (split;
         [ intros Hne; destruct (Hrd Hne); split; congruence
         | intros _ sock k Hk; destruct sock; simpl in Hk;
           inversion Hk; subst; simpl; lia ]).
    + unfold_calls; simpl in *; break_all; simpl in *; auto.
    + unfold_calls; simpl in *; break_all; simpl in *; auto.
    + unfold_calls; simpl in *; break_all; simpl in *; auto.
    + unfold_calls; simpl in *; break_all; simpl in *; auto.
    + unfold_calls; simpl in *; break_all; simpl in *; auto.
    + unfold_calls; simpl in *; break_all; simpl in *; auto.
    + unfold_calls; simpl in *; break_all; simpl in *; auto.
    + unfold_calls; simpl in *; auto.
  - destruct (nth_error rds i) as [rd|] eqn:Hi; simpl; [|auto].
    destruct (rd_pc rd); simpl; auto.
    split; [reflexivity|]. split; [|assumption].
    intros _. apply Hrd. intros ->. destruct i; discriminate.
  - destruct (nth_error rds i) as [rd|] eqn:Hi; simpl; [|auto].
    destruct (rd_pc rd); simpl; auto.
    assert (Hne : rds <> []) by (intros ->; destruct i; discriminate).
    unfold reader_receive, try_send. simpl.
    destruct r; simpl; break_all; simpl; auto.
  - destruct messages0; simpl; auto.
Qed.

Lemma run_closing_invariant (evs : list event) :
  forall s, allowed_run s evs -> closing_invariant s ->
            closing_invariant (run s evs).
Proof.
  induction evs as [|e evs IH]; intros s Hal Hinv; [exact Hinv|].
  destruct Hal as [He Hr]. cbn [run].
  apply IH; [exact Hr|]. apply step_closing_invariant; assumption.
Qed.

End Termination.



(** ** Request ids *)

Lemma wrap64_idem_l (a b : Z) : wrap64 (wrap64 a + b) = wrap64 (a + b).
Proof.
  unfold wrap64. f_equal.
  replace ((a + 2 ^ 63) mod 2 ^ 64 - 2 ^ 63 + b + 2 ^ 63)
    with ((a + 2 ^ 63) mod 2 ^ 64 + b) by ring.
  rewrite Zplus_mod_idemp_l. f_equal. ring.
Qed.

Lemma FormatInt_inj (a b : Z) : FormatInt a = FormatInt b -> a = b.
Proof.
  unfold FormatInt. intros Heq.
  apply DecimalZ.to_int_inj.
  assert (Hnn : forall z, Z.to_int z <> Decimal.Pos Decimal.Nil
                          /\ Z.to_int z <> Decimal.Neg Decimal.Nil).
  { intros [|p|p]; simpl; split; try discriminate;
      intros Hp; inversion Hp as [Hq];
      apply (DecimalPos.Unsigned.to_uint_nonnil p Hq). }
  destruct (Hnn a) as [Ha1 Ha2]. destruct (Hnn b) as [Hb1 Hb2].
  pose proof (NilZero.isi _ Ha1 Ha2) as Ia.
  pose proof (NilZero.isi _ Hb1 Hb2) as Ib.
  rewrite Heq in Ia. congruence.
Qed.

(** A request id determines its number: the prefixes hold no dash. *)
Lemma request_id_number (p1 p2 x1 x2 : string) :
  NetHTTP.lacks "-" p1 = true ->
  NetHTTP.lacks "-" p2 = true ->
  p1 ++ "-" ++ x1 = p2 ++ "-" ++ x2 ->
  x1 = x2.
Proof.
  unfold NetHTTP.lacks. revert p2.
  induction p1 as [|c p1 IH]; intros [|d p2] H1 H2 Heq; simpl in *.
  - inversion Heq. reflexivity.
  - inversion Heq; subst. discriminate.
  - inversion Heq; subst. discriminate.
  - inversion Heq; subst.
    apply andb_true_iff in H1. apply andb_true_iff in H2.
    apply (IH p2); tauto.
Qed.

Section RequestIds.
Context `{K : Auth.Crypto}.
Context `{D : Decoder}.

Lemma step_requestID (s : System) (e : event) :
    requestID (client (fst (step s e)))
    = if is_subscribe e && negb (crashed s)
      then wrap64 (requestID (client s) + 1)
      else requestID (client s).
  Proof.
    destruct s as [c rds cr]. destruct c. unfold step. simpl.
    destruct cr; [rewrite andb_false_r; reflexivity|].
    destruct e as [k|i|i r|]; [destruct k| | |]; unfold_calls; simpl;
      try unfold reader_receive, try_send; simpl;
      break_all; reflexivity.
  Qed.

End RequestIds.

Lemma wrap64_small (z : Z) : (- 2 ^ 63 <= z < 2 ^ 63)%Z -> wrap64 z = z.
Proof.
  intros H. unfold wrap64.
  rewrite Z.mod_small by lia. lia.
Qed.

Lemma prefix_of_kind_no_dash (k : kind) : NetHTTP.lacks "-" (prefix_of_kind k) = true.
Proof. destruct k; reflexivity. Qed.

Lemma kind_is_subscribe (e : event) (k : kind) :
  kind_of_event e = Some k -> is_subscribe e = true.
Proof. destruct e as [[]| | |]; simpl; intros H; (discriminate || reflexivity). Qed.

Lemma count_subscribes_cons (e : event) (evs : list event) :
  count_subscribes (e :: evs)
  = ((if is_subscribe e then 1 else 0) + count_subscribes evs)%nat.
Proof. unfold count_subscribes. simpl. destruct (is_subscribe e); reflexivity. Qed.

Lemma count_subscribes_firstn (n : nat) (evs : list event) :
  (count_subscribes (firstn n evs) <= count_subscribes evs)%nat.
Proof.
  revert n. induction evs as [|e evs IH]; intros [|n]; simpl;
    rewrite ?count_subscribes_cons; try (unfold count_subscribes; simpl; lia).
  specialize (IH n). lia.
Qed.

(** An allocating call at a later position has a larger number. *)
Lemma count_subscribes_later (evs : list event) :
  forall (i j : nat) (e : event),
    (i < j)%nat ->
    nth_error evs j = Some e ->
    is_subscribe e = true ->
    (count_subscribes (firstn (S i) evs) < count_subscribes (firstn (S j) evs))%nat.
Proof.
  induction evs as [|e0 evs IH]; intros i j e Hij Hj He.
  - destruct j; discriminate.
  - destruct j as [|j]; [lia|]. simpl in Hj.
    change (firstn (S (S j)) (e0 :: evs)) with (e0 :: firstn (S j) evs).
    change (firstn (S i) (e0 :: evs)) with (e0 :: firstn i evs).
    rewrite !count_subscribes_cons.
    destruct i as [|i].
    + change (firstn 0 evs) with (@nil event).
      assert (1 <= count_subscribes (firstn (S j) evs))%nat;
        [|change (count_subscribes []) with 0%nat; destruct (is_subscribe e0); lia].
      clear IH Hij. revert j Hj. induction evs as [|e1 evs IH]; intros j Hj.
      * destruct j; discriminate.
      * destruct j as [|j]; simpl in Hj.
        -- inversion Hj; subst.
           change (firstn 1 (e :: evs)) with [e].
           rewrite count_subscribes_cons, He. lia.
        -- change (firstn (S (S j)) (e1 :: evs)) with (e1 :: firstn (S j) evs).
           rewrite count_subscribes_cons. specialize (IH j Hj). lia.
    + specialize (IH i j e ltac:(lia) Hj He). lia.
Qed.

Section Allocation.
Context `{K : Auth.Crypto}.
Context `{D : Decoder}.

Lemma returns_of_crashed (evs : list event) :
  forall s j, crashed s = true -> nth_error (returns s evs) j = Some RetNone
                                  \/ nth_error (returns s evs) j = None.
Proof.
  induction evs as [|e evs IH]; intros s j Hc.
  - right. destruct j; reflexivity.
  - assert (Hst : step s e = (s, RetNone)) by (unfold step; rewrite Hc; reflexivity).
    cbn [returns]. rewrite Hst. destruct j as [|j]; simpl; [left; reflexivity|].
    apply IH. exact Hc.
Qed.

Lemma step_returns_id_kind (s : System) (e : event) (id : string) :
  snd (step s e) = RetID id None ->
  crashed s = false
  /\ exists k,
       kind_of_event e = Some k
       /\ id = prefix_of_kind k ++ "-" ++ FormatInt (wrap64 (requestID (client s) + 1)).
Proof.
  destruct s as [c rds cr]. destruct c. unfold step. simpl.
  destruct cr; [discriminate|].
  destruct e as [k|i|i r|]; [destruct k| | |]; unfold_calls; simpl;
    try unfold reader_receive, try_send; simpl;
    break_all; intros Heq; try discriminate;
    inversion Heq; subst;
    (split; [reflexivity|]); eexists; split; reflexivity.
Qed.

(** The id returned at position [j] carries the number of allocating
    calls made up to and including that one. *)
Lemma returned_id_at (evs : list event) :
  forall (s : System) (j : nat) (id : string),
    nth_error (returns s evs) j = Some (RetID id None) ->
    exists e k,
      nth_error evs j = Some e
      /\ kind_of_event e = Some k
      /\ id = prefix_of_kind k ++ "-"
              ++ FormatInt (wrap64 (requestID (client s)
                                    + Z.of_nat (count_subscribes (firstn (S j) evs)))).
Proof.
  induction evs as [|e evs IH]; intros s j id Hj.
  - destruct j; discriminate.
  - destruct j as [|j]; cbn [returns nth_error] in Hj.
    + inversion Hj as [Hret].
      destruct (step_returns_id_kind s e id Hret) as [Hcr [k [Hk Hid]]].
      exists e, k. split; [reflexivity|]. split; [exact Hk|].
      change (firstn 1 (e :: evs)) with [e].
      rewrite count_subscribes_cons, (kind_is_subscribe e k Hk).
      exact Hid.
    + destruct (crashed s) eqn:Hcr.
      { assert (Hst : step s e = (s, RetNone)) by (unfold step; rewrite Hcr; reflexivity).
        rewrite Hst in Hj. simpl in Hj.
        destruct (returns_of_crashed evs s j Hcr) as [H|H]; rewrite H in Hj; discriminate. }
      destruct (IH _ _ _ Hj) as [e' [k [He' [Hk Hid]]]].
      exists e', k. split; [exact He'|]. split; [exact Hk|].
      rewrite Hid, step_requestID, Hcr.
      change (firstn (S (S j)) (e :: evs)) with (e :: firstn (S j) evs).
      rewrite count_subscribes_cons.
      destruct (is_subscribe e); simpl negb; cbn [andb].
      * rewrite wrap64_idem_l, Nat2Z.inj_add, Z.add_assoc. reflexivity.
      * reflexivity.
Qed.

Lemma run_counts_allocations (evs : list event) :
  forall s,
    crashed (run s evs) = false ->
    - 2 ^ 63 <= requestID (client s) ->
    requestID (client s) + Z.of_nat (count_subscribes evs) < 2 ^ 63 ->
    requestID (client (run s evs))
    = requestID (client s) + Z.of_nat (count_subscribes evs).
Proof.
  induction evs as [|e evs IH]; intros s Hc Hlo Hhi.
  - unfold count_subscribes. simpl. lia.
  - cbn [run] in *. rewrite count_subscribes_cons in *.
    destruct (crashed s) eqn:Hcr.
    { exfalso.
      assert (Hst : forall l, crashed (run s l) = true).
      { intros l. induction l as [|x l IHl]; simpl; [exact Hcr|].
        replace (fst (step s x)) with s; [exact IHl|].
        unfold step. rewrite Hcr. reflexivity. }
      replace (fst (step s e)) with s in Hc
        by (unfold step; rewrite Hcr; reflexivity).
      rewrite Hst in Hc. discriminate. }
    rewrite IH; try assumption; rewrite step_requestID, Hcr;
      destruct (is_subscribe e); simpl negb; cbn [andb];
      rewrite ?wrap64_small by lia; lia.
Qed.

End Allocation.

(** C5.  Within one session, as long as the counter has not left the
    range of a Go [int] (fewer than 2^31 allocating calls, an [int]
    being 32 or 64 bits wide), the request ids are the values of one
    counter that goes up by one at every allocating call.  A call that
    returns an id returns the prefix of its kind, a dash and the number
    of allocating calls made so far in the session, that call included
    and the calls whose send failed included; so the ids returned by
    two different calls are different.  At the end of a run the counter
    equals the number of allocating calls made. *)
Theorem request_ids_pairwise_distinct `{K : Auth.Crypto} `{D : Decoder}
        (cfg : Config.t) (evs : list event) :
  Z.of_nat (count_subscribes evs) < 2 ^ 31 ->
  (forall j id,
      nth_error (returns (boot cfg) evs) j = Some (RetID id None) ->
      exists e k,
        nth_error evs j = Some e
        /\ kind_of_event e = Some k
        /\ id = prefix_of_kind k ++ "-"
                ++ FormatInt (Z.of_nat (count_subscribes (firstn (S j) evs))))
  /\ (forall i j id1 id2,
         i <> j ->
         nth_error (returns (boot cfg) evs) i = Some (RetID id1 None) ->
         nth_error (returns (boot cfg) evs) j = Some (RetID id2 None) ->
         id1 <> id2)
  /\ (crashed (run (boot cfg) evs) = false ->
      requestID (client (run (boot cfg) evs)) = Z.of_nat (count_subscribes evs)).
Proof.
  intros Hcount.
  assert (Hfmt : forall j id,
             nth_error (returns (boot cfg) evs) j = Some (RetID id None) ->
             exists e k,
               nth_error evs j = Some e
               /\ kind_of_event e = Some k
               /\ id = prefix_of_kind k ++ "-"
                       ++ FormatInt (Z.of_nat (count_subscribes (firstn (S j) evs)))).
  { intros j id Hj.
    destruct (returned_id_at evs (boot cfg) j id Hj) as [e [k [He [Hk Hid]]]].
    exists e, k. split; [exact He|]. split; [exact Hk|].
    rewrite Hid. simpl requestID. rewrite Z.add_0_l.
    pose proof (count_subscribes_firstn (S j) evs).
    rewrite wrap64_small by lia. reflexivity. }
  assert (Hlt : forall i j id1 id2,
             (i < j)%nat ->
             nth_error (returns (boot cfg) evs) i = Some (RetID id1 None) ->
             nth_error (returns (boot cfg) evs) j = Some (RetID id2 None) ->
             id1 <> id2).
  { intros i j id1 id2 Hij Hi Hj Heq.
    destruct (Hfmt i id1 Hi) as [e1 [k1 [He1 [Hk1 Hid1]]]].
    destruct (Hfmt j id2 Hj) as [e2 [k2 [He2 [Hk2 Hid2]]]].
    rewrite Hid1, Hid2 in Heq.
    apply request_id_number in Heq; try apply prefix_of_kind_no_dash.
    apply FormatInt_inj in Heq.
    pose proof (count_subscribes_later evs i j e2 Hij He2 (kind_is_subscribe e2 k2 Hk2)).
    lia. }
  split; [exact Hfmt|]. split.
  - intros i j id1 id2 Hne Hi Hj.
    destruct (Nat.lt_total i j) as [Hl|[He|Hg]].
    + apply (Hlt i j); assumption.
    + congruence.
    + intros Heq. apply (Hlt j i id2 id1); auto.
  - intros Hc. rewrite (run_counts_allocations evs (boot cfg) Hc); simpl; lia.
Qed.

Lemma request_ids_pairwise_distinct_witness :
  "order-1" <> "marketdata-3".
Proof.
  apply (proj1 (proj2 (request_ids_pairwise_distinct
                         (K := Sample.plain_crypto) (D := Sample.json_decoder)
                         Sample.cfg
                         [EvCall (CallConnect 1704067200000 None 1704067200001 None None);
                          EvCall (CallSubscribeOrders ["m1"] None);
                          EvCall (CallSubscribeTrades ["m1"]
                                    (Some (LibError "write: broken pipe")));
                          EvCall (CallSubscribeMarketData ["m1"] true None)]
                         ltac:(vm_compute; reflexivity)))
               1%nat 3%nat).
  - discriminate.
  - reflexivity.
  - reflexivity.
Defined.

(* ================================================================== *)
(** * Further properties of the code *)

Lemma encode_JArr (l : list Json.value) :
  Json.encode (Json.JArr l) = "[" ++ Json.encode_elems true l ++ "]".
Proof. reflexivity. Qed.

Lemma encode_JObj (l : list (string * Json.value)) :
  Json.encode (Json.JObj l) = "{" ++ Json.encode_members true l ++ "}".
Proof. reflexivity. Qed.

Lemma size_JArr l : Json.size (Json.JArr l) = S (Json.size_elems l).
Proof. reflexivity. Qed.

Lemma size_JObj l : Json.size (Json.JObj l) = S (Json.size_members l).
Proof. reflexivity. Qed.

(** Induction on values through their lists. *)
Lemma value_ind_nested (P : Json.value -> Prop) :
  P Json.JNull ->
  (forall b, P (Json.JBool b)) ->
  (forall n, P (Json.JNum n)) ->
  (forall s, P (Json.JStr s)) ->
  (forall l, Forall P l -> P (Json.JArr l)) ->
  (forall l, Forall (fun kv => P (snd kv)) l -> P (Json.JObj l)) ->
  forall v, P v.
Proof.
  intros Hnull Hbool Hnum Hstr Harr Hobj.
  fix IH 1. intros [ | b | n | s | l | l ].
  - exact Hnull.
  - apply Hbool.
  - apply Hnum.
  - apply Hstr.
  - apply Harr. induction l as [|x l IHl]; constructor; [apply IH | exact IHl].
  - apply Hobj. induction l as [|[k x] l IHl]; constructor; [apply IH | exact IHl].
Qed.

Lemma substring_all (s : string) : String.substring 0 (String.length s) s = s.
Proof. induction s; simpl; congruence. Qed.

Lemma skip_ws_delimited (rest : string) :
  Json.delimited rest = true -> Json.skip_ws rest = rest.
Proof.
  destruct rest as [|c r]; [reflexivity|]. simpl.
  intros H. apply orb_true_iff in H. destruct H as [H|H];
    [apply orb_true_iff in H; destruct H as [H|H]|];
    apply Ascii.eqb_eq in H; subst; reflexivity.
Qed.

(** Digits *)
Lemma parse_digits_uint (d : Decimal.uint) (acc : Z) (cnt : nat) (rest : string) :
  Json.delimited rest = true ->
  Json.parse_digits acc cnt (NilEmpty.string_of_uint d ++ rest)
  = (Json.uint_val acc d, (cnt + Decimal.nb_digits d)%nat, rest).
Proof.
  intros Hrest. revert acc cnt.
  induction d; intros acc cnt; simpl;
    try (rewrite IHd, Nat.add_succ_r; reflexivity).
  destruct rest as [|c r]; simpl.
  - rewrite Nat.add_0_r. reflexivity.
  - simpl in Hrest.
    assert (Hd : Json.is_digit c = false).
    { apply orb_true_iff in Hrest. destruct Hrest as [H|H];
        [apply orb_true_iff in H; destruct H as [H|H]|];
        apply Ascii.eqb_eq in H; subst; reflexivity. }
    rewrite Hd, Nat.add_0_r. reflexivity.
Qed.

Lemma uint_val_pos (d : Decimal.uint) (acc : positive) :
  Json.uint_val (Zpos acc) d = Zpos (Pos.of_uint_acc d acc).
Proof.
  revert acc. induction d; intros acc; cbn [Json.uint_val Pos.of_uint_acc];
    try reflexivity; rewrite <- IHd; f_equal; lia.
Qed.

Lemma uint_val_zero (d : Decimal.uint) :
  Json.uint_val 0 d = Z.of_N (Pos.of_uint d).
Proof.
  induction d; simpl; try reflexivity; try exact IHd;
    apply uint_val_pos.
Qed.

Lemma uint_val_to_uint (p : positive) : Json.uint_val 0 (Pos.to_uint p) = Zpos p.
Proof.
  rewrite uint_val_zero, DecimalPos.Unsigned.of_to. reflexivity.
Qed.


Lemma to_uint_head_nonzero (p : positive) : Json.head_nonzero (Pos.to_uint p).
Proof.
  pose proof (DecimalPos.Unsigned.to_uint_nonnil p) as Hnn.
  pose proof (DecimalPos.Unsigned.to_uint_nonzero p) as Hnz.
  pose proof (DecimalN.Unsigned.to_of (Pos.to_uint p)) as Hto.
  unfold N.of_uint in Hto. rewrite DecimalPos.Unsigned.of_to in Hto.
  simpl in Hto.
  destruct (Pos.to_uint p) as [|d| | | | | | | | | ] eqn:Hp; simpl; auto.
  unfold Decimal.unorm in Hto. simpl in Hto.
  destruct (Decimal.nzhead d) eqn:Hd; try congruence;
    symmetry in Hto; rewrite <- Hd in Hto;
    apply (DecimalFacts.nzhead_nonzero _ _ Hto).
Qed.

Lemma not_fraction {A : Type} (rest : string) (x : A) :
  Json.delimited rest = true ->
  match rest with
  | String c _ =>
      if Ascii.eqb c "." || Ascii.eqb c "e" || Ascii.eqb c "E" then None else Some x
  | EmptyString => Some x
  end = Some x.
Proof.
  destruct rest as [|c r]; [reflexivity|]. simpl. intros H.
  apply orb_true_iff in H. destruct H as [H|H];
    [apply orb_true_iff in H; destruct H as [H|H]|];
    apply Ascii.eqb_eq in H; subst; reflexivity.
Qed.

Lemma parse_int_digits (neg : bool) (d : Decimal.uint) (rest : string) :
  Json.head_nonzero d ->
  Json.delimited rest = true ->
  Json.parse_int ((if neg then "-" else EmptyString)
                  ++ NilEmpty.string_of_uint d ++ rest)
  = Some (if neg then - Json.uint_val 0 d else Json.uint_val 0 d, rest).
Proof.
  intros Hd Hrest.
  destruct d; try contradiction; destruct neg;
    unfold Json.parse_int; cbn [append NilEmpty.string_of_uint Ascii.eqb Bool.eqb];
    cbn [Json.parse_digits Json.is_digit nat_of_ascii N_of_ascii N_of_digits
         N.to_nat Pos.to_nat Pos.iter_op Nat.add Nat.leb andb Init.Nat.add
         N.add N.mul Pos.add Pos.mul Pos.succ];
    rewrite parse_digits_uint by exact Hrest;
    repeat match goal with
           | |- context [Json.is_digit ?c] =>
               let b := eval vm_compute in (Json.is_digit c) in
               change (Json.is_digit c) with b
           | |- context [Z.of_nat ?n] =>
               let b := eval vm_compute in (Z.of_nat n) in
               change (Z.of_nat n) with b
           end;
    cbv beta iota zeta; cbn [Nat.eqb Json.uint_val];
    rewrite not_fraction by exact Hrest; reflexivity.
Qed.

Lemma parse_int_FormatInt (n : Z) (rest : string) :
  Json.delimited rest = true ->
  Json.parse_int (FormatInt n ++ rest) = Some (n, rest).
Proof.
  intros Hrest. unfold FormatInt. destruct n as [|p|p]; simpl Z.to_int.
  - unfold Json.parse_int. simpl.
    destruct rest as [|c r]; [reflexivity|].
    pose proof (parse_digits_uint Decimal.Nil 0 1 (String c r) Hrest) as Hd.
    simpl in Hd. simpl. rewrite Hd. simpl.
    apply (not_fraction (String c r) (0, String c r) Hrest).
  - pose proof (to_uint_head_nonzero p) as Hh.
    pose proof (parse_int_digits false (Pos.to_uint p) rest Hh Hrest) as Hp.
    rewrite uint_val_to_uint in Hp. simpl in Hp.
    unfold NilZero.string_of_int, NilZero.string_of_uint.
    destruct (Pos.to_uint p); try contradiction; exact Hp.
  - pose proof (to_uint_head_nonzero p) as Hh.
    pose proof (parse_int_digits true (Pos.to_uint p) rest Hh Hrest) as Hp.
    rewrite uint_val_to_uint in Hp. simpl in Hp.
    unfold NilZero.string_of_int, NilZero.string_of_uint.
    destruct (Pos.to_uint p); try contradiction; exact Hp.
Qed.


Lemma FormatInt_head (n : Z) (rest : string) :
  exists c r, FormatInt n ++ rest = String c r /\ Json.is_num_start c = true.
Proof.
  unfold FormatInt. destruct n as [|p|p]; simpl Z.to_int.
  - eexists. eexists. split; reflexivity.
  - pose proof (to_uint_head_nonzero p) as Hh.
    unfold NilZero.string_of_int, NilZero.string_of_uint.
    destruct (Pos.to_uint p); try contradiction;
      eexists; eexists; split; reflexivity.
  - eexists. eexists. split; reflexivity.
Qed.

Lemma parse_value_num_start (c : ascii) (r : string) (f : nat) :
  Json.is_num_start c = true ->
  Json.parse_value (S f) (String c r)
  = match Json.parse_int (String c r) with
    | Some (n, rest) => Some (Json.JNum n, rest)
    | None => None
    end.
Proof.
  destruct c as [[] [] [] [] [] [] [] []]; intros H;
    try discriminate H; reflexivity.
Qed.

Lemma parse_value_number (n : Z) (rest : string) (f : nat) :
  Json.delimited rest = true ->
  Json.parse_value (S f) (FormatInt n ++ rest) = Some (Json.JNum n, rest).
Proof.
  intros Hrest.
  destruct (FormatInt_head n rest) as [c [r [Heq Hc]]].
  pose proof (parse_int_FormatInt n rest Hrest) as Hp.
  rewrite Heq in *. rewrite parse_value_num_start by exact Hc.
  rewrite Hp. reflexivity.
Qed.


Lemma encode_starts_value (v : Json.value) (rest : string) :
  Json.starts_value (Json.encode v ++ rest) = true.
Proof.
  destruct v as [ | [] | n | s | l | l ]; try reflexivity.
  destruct (FormatInt_head n rest) as [c [r [Heq Hc]]].
  simpl Json.encode. rewrite Heq. simpl.
  revert Hc. clear. destruct c as [[] [] [] [] [] [] [] []]; intros H;
    try discriminate H; reflexivity.
Qed.

Lemma skip_ws_starts_value (s : string) :
  Json.starts_value s = true -> Json.skip_ws s = s.
Proof.
  destruct s as [|c r]; [discriminate|]. simpl. intros H.
  apply andb_true_iff in H. destruct H as [H _].
  apply andb_true_iff in H. destruct H as [H _].
  apply negb_true_iff in H. rewrite H. reflexivity.
Qed.

Lemma parse_value_array (f : nat) (r : string) :
  Json.starts_value r = true ->
  Json.parse_value (S f) (String "[" r) = Json.parse_elems f r [].
Proof.
  intros H. pose proof (skip_ws_starts_value r H) as Hs.
  destruct r as [|c r']; [discriminate|].
  simpl in H.
  apply andb_true_iff in H. destruct H as [H _].
  apply andb_true_iff in H. destruct H as [_ H].
  apply negb_true_iff in H.
  cbn [Json.parse_value]. 
  change (Json.skip_ws (String "[" (String c r'))) with (String "[" (String c r')).
  cbv beta iota. change (Ascii.eqb "[" "{") with false. change (Ascii.eqb "[" "[") with true.
  cbv beta iota. rewrite Hs, H. reflexivity.
Qed.

Lemma parse_value_object (f : nat) (r : string) :
  Json.parse_value (S f) (String "{" (String dquote r))
  = Json.parse_members f (String dquote r) [].
Proof. reflexivity. Qed.

Lemma parse_value_empty_array (f : nat) (rest : string) :
  Json.parse_value (S f) (String "[" (String "]" rest)) = Some (Json.JArr [], rest).
Proof. reflexivity. Qed.

Lemma parse_value_empty_object (f : nat) (rest : string) :
  Json.parse_value (S f) (String "{" (String "}" rest)) = Some (Json.JObj [], rest).
Proof. reflexivity. Qed.

Lemma parse_elems_step (f : nat) (s : string) (acc : list Json.value) :
  Json.parse_elems (S f) s acc
  = match Json.parse_value f s with
    | Some (v, r1) =>
        match Json.skip_ws r1 with
        | String sep r2 =>
            if Ascii.eqb sep "," then Json.parse_elems f r2 (acc ++ [v])%list
            else if Ascii.eqb sep "]" then Some (Json.JArr (acc ++ [v])%list, r2)
            else None
        | EmptyString => None
        end
    | None => None
    end.
Proof. reflexivity. Qed.

Lemma parse_members_step (f : nat) (k s : string) (acc : list (string * Json.value)) :
  Json.parse_members (S f) (Json.encode_string k ++ String ":" s) acc
  = match Json.parse_value f s with
    | Some (v, r3) =>
        match Json.skip_ws r3 with
        | String sep r4 =>
            if Ascii.eqb sep "," then Json.parse_members f r4 (acc ++ [(k, v)])%list
            else if Ascii.eqb sep "}" then Some (Json.JObj (acc ++ [(k, v)])%list, r4)
            else None
        | EmptyString => None
        end
    | None => None
    end.
Proof.
  rewrite encode_string_append.
  cbn [Json.parse_members].
  change (Json.skip_ws (String dquote (Json.escape k ++ String dquote (String ":" s))))
    with (String dquote (Json.escape k ++ String dquote (String ":" s))).
  cbv beta iota. change (Ascii.eqb dquote dquote) with true. cbv beta iota.
  rewrite parse_string_escape. reflexivity.
Qed.

Lemma delimited_elems_tail (xs : list Json.value) (rest : string) :
  Json.delimited (Json.encode_elems false xs ++ String "]" rest) = true.
Proof. destruct xs; reflexivity. Qed.

Lemma delimited_members_tail (xs : list (string * Json.value)) (rest : string) :
  Json.delimited (Json.encode_members false xs ++ String "}" rest) = true.
Proof. destruct xs as [|[k x] xs]; reflexivity. Qed.


Lemma parse_elems_encode (xs : list Json.value) :
  Forall Json.parses_back xs ->
  forall (x : Json.value) (acc : list Json.value) (f : nat) (rest : string),
    Json.parses_back x ->
    (Json.size_elems (x :: xs) <= f)%nat ->
    Json.parse_elems f (Json.encode x ++ Json.encode_elems false xs ++ String "]" rest) acc
    = Some (Json.JArr (acc ++ x :: xs)%list, rest).
Proof.
  induction 1 as [|y ys Hy Hys IH]; intros x acc f rest Hx Hf.
  - destruct f as [|f]; [simpl in Hf; lia|].
    rewrite parse_elems_step.
    rewrite Hx; [|simpl in Hf; lia|reflexivity].
    reflexivity.
  - destruct f as [|f]; [simpl in Hf; lia|].
    rewrite parse_elems_step.
    rewrite Hx; [|simpl in Hf; lia|apply delimited_elems_tail].
    cbn [Json.encode_elems]. cbn [append Json.skip_ws].
    change (Json.is_ws ",") with false. cbv beta iota.
    change (Ascii.eqb "," ",") with true. cbv beta iota.
    rewrite append_assoc.
    rewrite IH; [|exact Hy|simpl in Hf |- *; lia].
    rewrite <- app_assoc. reflexivity.
Qed.

Lemma parse_members_encode (xs : list (string * Json.value)) :
  Forall (fun kv => Json.parses_back (snd kv)) xs ->
  forall (k : string) (x : Json.value) (acc : list (string * Json.value))
         (f : nat) (rest : string),
    Json.parses_back x ->
    (Json.size_members ((k, x) :: xs) <= f)%nat ->
    Json.parse_members f
      (Json.encode_string k ++ String ":"
         (Json.encode x ++ Json.encode_members false xs ++ String "}" rest)) acc
    = Some (Json.JObj (acc ++ (k, x) :: xs)%list, rest).
Proof.
  induction 1 as [|[k' y] ys Hy Hys IH]; intros k x acc f rest Hx Hf.
  - destruct f as [|f]; [simpl in Hf; lia|].
    rewrite parse_members_step.
    rewrite Hx; [|simpl in Hf; lia|reflexivity].
    reflexivity.
  - destruct f as [|f]; [simpl in Hf; lia|].
    rewrite parse_members_step.
    rewrite Hx; [|simpl in Hf; lia|apply delimited_members_tail].
    cbn [Json.encode_members]. cbn [append Json.skip_ws].
    change (Json.is_ws ",") with false. cbv beta iota.
    change (Ascii.eqb "," ",") with true. cbv beta iota.
    repeat first [rewrite append_assoc | progress cbn [append]].
    rewrite IH; [|exact Hy|simpl in Hf |- *; lia].
    rewrite <- app_assoc. reflexivity.
Qed.

Lemma prefix_append (p rest : string) : String.prefix p (p ++ rest) = true.
Proof.
  induction p as [|c p IH]; simpl.
  - destruct rest; reflexivity.
  - destruct (Ascii.ascii_dec c c); [exact IH | congruence].
Qed.

Lemma substring_append (p rest : string) :
  String.substring (String.length p) (String.length rest) (p ++ rest) = rest.
Proof. induction p; simpl; [apply substring_all | assumption]. Qed.

Lemma length_append (a b : string) :
  String.length (a ++ b) = (String.length a + String.length b)%nat.
Proof. induction a; simpl; congruence. Qed.

Lemma strip_prefix_append (p rest : string) :
  Json.strip_prefix p (p ++ rest) = Some rest.
Proof.
  unfold Json.strip_prefix. rewrite prefix_append, length_append.
  replace (String.length p + String.length rest - String.length p)%nat
    with (String.length rest) by lia.
  rewrite substring_append. reflexivity.
Qed.

Theorem parse_value_encode (v : Json.value) : Json.parses_back v.
Proof.
  induction v as [ | b | n | s | l IHl | l IHl ] using value_ind_nested;
    intros f rest Hf Hrest;
    (destruct f as [|f]; [simpl in Hf; lia|]).
  - simpl.
    change (String "n" (String "u" (String "l" (String "l" rest))))
      with ("null" ++ rest).
    rewrite strip_prefix_append. reflexivity.
  - destruct b; simpl.
    + change (String "t" (String "r" (String "u" (String "e" rest))))
        with ("true" ++ rest).
      rewrite strip_prefix_append. reflexivity.
    + change (String "f" (String "a" (String "l" (String "s" (String "e" rest)))))
        with ("false" ++ rest).
      rewrite strip_prefix_append. reflexivity.
  - apply parse_value_number. exact Hrest.
  - cbn [Json.encode]. rewrite encode_string_append.
    cbn [Json.parse_value].
    change (Json.skip_ws (String dquote (Json.escape s ++ String dquote rest)))
      with (String dquote (Json.escape s ++ String dquote rest)).
    cbv beta iota.
    change (Ascii.eqb dquote "{") with false.
    change (Ascii.eqb dquote "[") with false.
    change (Ascii.eqb dquote dquote) with true. cbv beta iota.
    rewrite parse_string_escape. reflexivity.
  - rewrite encode_JArr. rewrite size_JArr in Hf.
    destruct l as [|x xs].
    + apply parse_value_empty_array.
    + inversion IHl as [|? ? Hx Hxs]; subst.
      cbn [Json.encode_elems append]. repeat first [rewrite append_assoc | progress cbn [append]].
      rewrite parse_value_array by apply encode_starts_value.
      apply (parse_elems_encode xs Hxs x [] f rest Hx). lia.
  - rewrite encode_JObj. rewrite size_JObj in Hf.
    destruct l as [|[k x] xs].
    + apply parse_value_empty_object.
    + inversion IHl as [|? ? Hx Hxs]; subst. simpl in Hx.
      cbn [Json.encode_members append]. repeat first [rewrite append_assoc | progress cbn [append]].
      rewrite (encode_string_append k). rewrite parse_value_object.
      rewrite <- (encode_string_append k).
      apply (parse_members_encode xs Hxs k x [] f rest Hx). lia.
Qed.

Lemma append_nil_r (s : string) : s ++ EmptyString = s.
Proof. induction s; simpl; congruence. Qed.

Lemma size_le_length (v : Json.value) :
  (Json.size v <= String.length (Json.encode v))%nat.
Proof.
  induction v as [ | b | n | s | l IHl | l IHl ] using value_ind_nested.
  - simpl. lia.
  - destruct b; simpl; lia.
  - destruct (FormatInt_head n EmptyString) as [c [r [Heq _]]].
    rewrite append_nil_r in Heq. simpl Json.encode. rewrite Heq. simpl. lia.
  - simpl. lia.
  - rewrite encode_JArr, size_JArr. cbn [append String.length].
    rewrite length_append. cbn [String.length].
    assert (H : forall b, (Json.size_elems l
                           <= String.length (Json.encode_elems b l)
                              + (if b then 1 else 0))%nat).
    { induction IHl as [|x xs Hx Hxs IH]; intros b;
        cbn [Json.size_elems Json.encode_elems]; [simpl; lia|].
      rewrite !length_append. specialize (IH false).
      cbv iota in IH. destruct b; cbn [String.length]; lia. }
    specialize (H true). cbv iota in H. lia.
  - rewrite encode_JObj, size_JObj. cbn [append String.length].
    rewrite length_append. cbn [String.length].
    assert (H : forall b, (Json.size_members l
                           <= String.length (Json.encode_members b l)
                              + (if b then 1 else 0))%nat).
    { induction IHl as [|[k x] xs Hx Hxs IH]; intros b;
        cbn [Json.size_members Json.encode_members]; [simpl; lia|].
      rewrite !length_append. cbn [snd] in Hx. specialize (IH false).
      cbv iota in IH. unfold Json.encode_string, quoted.
      cbn [String.length]. rewrite ?length_append. cbn [String.length].
      destruct b; cbn [String.length]; lia. }
    specialize (H true). cbv iota in H. lia.
Qed.

(** Every value is read back from its text. *)
Theorem decode_encode (v : Json.value) : Json.decode (Json.encode v) = Some v.
Proof.
  unfold Json.decode.
  pose proof (parse_value_encode v (S (String.length (Json.encode v))) EmptyString) as H.
  rewrite append_nil_r in H. rewrite H; [reflexivity| |reflexivity].
  pose proof (size_le_length v). lia.
Qed.

Lemma strings_of_map (l : list string) :
  strings_of (map Json.JStr l) = Some l.
Proof. induction l as [|x l IH]; simpl; [reflexivity|]. rewrite IH. reflexivity. Qed.

Lemma Unmarshal_Marshal_subscribe (r : WSSubscribeRequest) :
  match Subscribe r with
  | Some s => fits_int (WSSubscription.SubscriptionType s) = true
  | None => True
  end ->
  Unmarshal_WSSubscribeRequest (Marshal (OutSubscribe r)) = Some r.
Proof.
  intros Hfit. unfold Unmarshal_WSSubscribeRequest, Marshal.
  rewrite decode_encode.
  destruct r as [[[rid ty slugs deb]|]]; [|reflexivity].
  simpl in Hfit.
  unfold json_of_WSSubscribeRequest, json_of_WSSubscription.
  cbn [Subscribe WSSubscription.RequestID WSSubscription.SubscriptionType
       WSSubscription.MarketSlugs WSSubscription.ResponsesDebounced].
  destruct slugs as [|x slugs]; destruct deb; simpl; rewrite Hfit; simpl;
    rewrite ?strings_of_map; reflexivity.
Qed.

Lemma Unmarshal_Marshal_unsubscribe (r : WSUnsubscribeRequest) :
  Unmarshal_WSUnsubscribeRequest (Marshal (OutUnsubscribe r)) = Some r.
Proof.
  unfold Unmarshal_WSUnsubscribeRequest, Marshal. rewrite decode_encode.
  destruct r as [[[rid]|]]; reflexivity.
Qed.

Lemma is_ascii_app (a b : string) : is_ascii (a ++ b) = is_ascii a && is_ascii b.
Proof.
  induction a as [|c a IH]; simpl; [reflexivity|].
  rewrite IH, andb_assoc. reflexivity.
Qed.

Lemma is_ascii_uint (d : Decimal.uint) : is_ascii (NilEmpty.string_of_uint d) = true.
Proof. induction d; simpl; auto. Qed.

Lemma is_ascii_FormatInt (n : Z) : is_ascii (FormatInt n) = true.
Proof.
  unfold FormatInt, NilZero.string_of_int.
  destruct (Z.to_int n) as [d|d]; unfold NilZero.string_of_uint;
    destruct d; simpl; try reflexivity; apply is_ascii_uint.
Qed.

(** The request ids this client generates are ASCII. *)
Lemma request_id_is_ascii (k : kind) (n : Z) :
  is_ascii (prefix_of_kind k ++ "-" ++ FormatInt n) = true.
Proof.
  rewrite !is_ascii_app, is_ascii_FormatInt. destruct k; reflexivity.
Qed.

(** X1.  A subscription request whose type fits a Go [int] and whose
    request id and market slugs are ASCII is read back from the frame
    it is marshalled to, field by field: request id, type, market slugs
    and debounce flag; and a request without a subscription as well. *)
Theorem subscribe_request_round_trip (r : WSSubscribeRequest) :
  match Subscribe r with
  | Some s =>
      fits_int (WSSubscription.SubscriptionType s) = true
      /\ is_ascii (WSSubscription.RequestID s) = true
      /\ forallb is_ascii (WSSubscription.MarketSlugs s) = true
  | None => True
  end ->
  Unmarshal_WSSubscribeRequest (Marshal (OutSubscribe r)) = Some r.
Proof.
  intros H. apply Unmarshal_Marshal_subscribe.
  destruct (Subscribe r); [apply H | exact I].
Qed.

Lemma subscribe_request_round_trip_witness :
  Unmarshal_WSSubscribeRequest
    (Marshal (OutSubscribe
                {| Subscribe :=
                     Some {| WSSubscription.RequestID := "marketdata-7";
                             WSSubscription.SubscriptionType := SubscriptionTypeMarketData;
                             WSSubscription.MarketSlugs := ["m1"; "say \\ <hi>"];
                             WSSubscription.ResponsesDebounced := true |} |}))
  = Some {| Subscribe :=
              Some {| WSSubscription.RequestID := "marketdata-7";
                      WSSubscription.SubscriptionType := SubscriptionTypeMarketData;
                      WSSubscription.MarketSlugs := ["m1"; "say \\ <hi>"];
                      WSSubscription.ResponsesDebounced := true |} |}.
Proof.
  apply (subscribe_request_round_trip
           {| Subscribe :=
                Some {| WSSubscription.RequestID := "marketdata-7";
                        WSSubscription.SubscriptionType := SubscriptionTypeMarketData;
                        WSSubscription.MarketSlugs := ["m1"; "say \\ <hi>"];
                        WSSubscription.ResponsesDebounced := true |} |}).
  repeat split; reflexivity.
Defined.

(** X2.  An unsubscribe request whose request id is ASCII is read back
    from the frame it is marshalled to, quotes, backslashes and control
    characters in the id included; and a request without an
    unsubscription as well. *)
Theorem unsubscribe_request_round_trip (r : WSUnsubscribeRequest) :
  match Models.Unsubscribe r with
  | Some u => is_ascii (WSUnsubscription.RequestID u) = true
  | None => True
  end ->
  Unmarshal_WSUnsubscribeRequest (Marshal (OutUnsubscribe r)) = Some r.
Proof.
  intros _. exact (Unmarshal_Marshal_unsubscribe r).
Qed.

Lemma unsubscribe_request_round_trip_witness :
  Unmarshal_WSUnsubscribeRequest
    (Marshal (OutUnsubscribe
                {| Models.Unsubscribe :=
                     Some {| WSUnsubscription.RequestID := "order-1" |} |}))
  = Some {| Models.Unsubscribe :=
              Some {| WSUnsubscription.RequestID := "order-1" |} |}.
Proof.
  apply (unsubscribe_request_round_trip
           {| Models.Unsubscribe :=
                Some {| WSUnsubscription.RequestID := "order-1" |} |}).
  reflexivity.
Defined.

(** X3.  [Unsubscribe] with an ASCII request id writes on the socket
    its flag names and on no other, the frame it writes decodes to the
    unsubscribe request for the given id, the session counter is left
    alone, and with the socket absent nothing is written. *)
Theorem unsubscribe_routes_and_round_trips
        (c : WSClient) (requestID : string) (isPrivate : bool) (wr : option error) :
  is_ascii requestID = true ->
  let target := if isPrivate then Private else Markets in
  let c' := fst (Unsubscribe c requestID isPrivate wr) in
  let err := snd (Unsubscribe c requestID isPrivate wr) in
  Client.requestID c' = Client.requestID c
  /\ messages c' = messages c
  /\ writes_on (other_socket target) (trace c') = writes_on (other_socket target) (trace c)
  /\ match conn_of target c with
     | Some _ =>
         exists data,
           trace c' = (trace c ++ [EffWrite target data wr])%list
           /\ Unmarshal_WSUnsubscribeRequest data
              = Some {| Models.Unsubscribe :=
                          Some {| WSUnsubscription.RequestID := requestID |} |}
           /\ err = wr
     | None => c' = c /\ exists msg, err = Some (Errorf msg)
     end.
Proof.
  intros _.
  destruct c. unfold Unsubscribe, sendPrivate, sendMarkets. simpl.
  destruct isPrivate; simpl;
    match goal with
    | |- context [match ?x with Some _ => _ | None => _ end] => destruct x
    end; simpl;
    (split; [reflexivity|]); (split; [reflexivity|]);
    (split; [rewrite ?writes_on_app; simpl; rewrite ?app_nil_r; reflexivity|]).
  - eexists. split; [reflexivity|]. split; [|reflexivity].
    apply (Unmarshal_Marshal_unsubscribe
             {| Models.Unsubscribe :=
                  Some {| WSUnsubscription.RequestID := requestID |} |}).
  - split; [reflexivity|]. eexists. reflexivity.
  - eexists. split; [reflexivity|]. split; [|reflexivity].
    apply (Unmarshal_Marshal_unsubscribe
             {| Models.Unsubscribe :=
                  Some {| WSUnsubscription.RequestID := requestID |} |}).
  - split; [reflexivity|]. eexists. reflexivity.
Qed.

Lemma unsubscribe_routes_and_round_trips_witness :
  exists data,
    trace (fst (Client.Unsubscribe Sample.connected_client "order-1" true None))
    = (trace Sample.connected_client ++ [EffWrite Private data None])%list
    /\ Unmarshal_WSUnsubscribeRequest data
       = Some {| Models.Unsubscribe :=
                   Some {| WSUnsubscription.RequestID := "order-1" |} |}
    /\ snd (Client.Unsubscribe Sample.connected_client "order-1" true None) = None.
Proof.
  exact (proj2 (proj2 (proj2 (unsubscribe_routes_and_round_trips
                                Sample.connected_client "order-1" true None
                                eq_refl)))).
Defined.

(** X4.  Each subscribe method, its socket present and the market
    slugs ASCII, writes one frame that decodes to the request it was
    asked for: the request id it allocated (its prefix, a dash, the
    counter after one increment; ASCII whatever the counter),
    the integer of its kind, the market slugs (none for balances) and
    the debounce flag (market data only); when the write succeeds that
    id is what the method returns. *)
Theorem subscribe_frame_carries_request
        (k : kind) (c : WSClient) (marketSlugs : list string)
        (debounced : bool) (wr : option error) :
  conn_of (socket_of_kind k) c <> None ->
  forallb is_ascii marketSlugs = true ->
  let rid := prefix_of_kind k ++ "-" ++ FormatInt (wrap64 (requestID c + 1)) in
  let c' := fst (subscribe k c marketSlugs debounced wr) in
  is_ascii rid = true
  /\ exists data,
    trace c' = (trace c ++ [EffWrite (socket_of_kind k) data wr])%list
    /\ Unmarshal_WSSubscribeRequest data
       = Some {| Subscribe :=
                   Some {| WSSubscription.RequestID := rid;
                           WSSubscription.SubscriptionType := type_of_kind k;
                           WSSubscription.MarketSlugs :=
                             match k with
                             | KindAccountBalance => []
                             | _ => marketSlugs
                             end;
                           WSSubscription.ResponsesDebounced :=
                             match k with
                             | KindMarketData => debounced
                             | _ => false
                             end |} |}
    /\ snd (subscribe k c marketSlugs debounced wr)
       = match wr with
         | None => (rid, None)
         | Some e => (EmptyString, Some e)
         end.
Proof.
  intros Hconn _ rid c'. subst rid c'.
  split; [apply request_id_is_ascii|].
  destruct c. destruct k; simpl in Hconn;
    unfold subscribe, SubscribeOrders, SubscribePositions, SubscribeBalances,
      SubscribeMarketData, SubscribeMarketDataLite, SubscribeTrades,
      nextRequestID, sendPrivate, sendMarkets;
    cbn [privateConn marketsConn set_requestID requestID];
    match goal with
    | H : ?x <> None |- _ => destruct x; [|congruence]
    end;
    destruct wr; cbn [fst snd trace emit];
    eexists; (split; [reflexivity|]); (split; [|reflexivity]);
    apply Unmarshal_Marshal_subscribe; reflexivity.
Qed.

Lemma subscribe_frame_carries_request_witness :
  is_ascii "trade-1" = true
  /\ exists data,
    trace (fst (subscribe KindTrade Sample.connected_client ["m1"; "m2"] false None))
    = (trace Sample.connected_client ++ [EffWrite Markets data None])%list
    /\ Unmarshal_WSSubscribeRequest data
       = Some {| Subscribe :=
                   Some {| WSSubscription.RequestID := "trade-1";
                           WSSubscription.SubscriptionType := 3;
                           WSSubscription.MarketSlugs := ["m1"; "m2"];
                           WSSubscription.ResponsesDebounced := false |} |}
    /\ snd (subscribe KindTrade Sample.connected_client ["m1"; "m2"] false None)
       = ("trade-1", None).
Proof.
  apply (subscribe_frame_carries_request KindTrade Sample.connected_client
                                         ["m1"; "m2"] false None).
  - simpl. discriminate.
  - reflexivity.
Defined.

(** X5.  A subscribe call on a session whose socket is absent writes
    nothing and returns the empty string with a not-connected error,
    yet it has used up a request id: the counter has moved on by
    one. *)
Theorem failed_subscribe_uses_up_an_id
        (k : kind) (c : WSClient) (marketSlugs : list string)
        (debounced : bool) (wr : option error) :
  conn_of (socket_of_kind k) c = None ->
  let c' := fst (subscribe k c marketSlugs debounced wr) in
  trace c' = trace c
  /\ requestID c' = wrap64 (requestID c + 1)
  /\ snd (subscribe k c marketSlugs debounced wr)
     = (EmptyString,
        Some (Errorf (match socket_of_kind k with
                      | Private => "private WebSocket not connected"
                      | Markets => "markets WebSocket not connected"
                      end))).
Proof.
  intros Hconn. destruct c. destruct k; simpl in Hconn; subst;
    repeat split; reflexivity.
Qed.

Lemma failed_subscribe_uses_up_an_id_witness :
  let c' := fst (subscribe KindOrder (NewWSClient Sample.cfg) ["m1"] false None) in
  trace c' = trace (NewWSClient Sample.cfg)
  /\ requestID c' = wrap64 (requestID (NewWSClient Sample.cfg) + 1)
  /\ snd (subscribe KindOrder (NewWSClient Sample.cfg) ["m1"] false None)
     = (EmptyString, Some (Errorf "private WebSocket not connected")).
Proof.
  apply (failed_subscribe_uses_up_an_id KindOrder (NewWSClient Sample.cfg)
                                        ["m1"] false None).
  reflexivity.
Defined.

(** ** Connect and Close together *)

(** X6.  [Connect] returns nil exactly when both dials succeed, and it is
    then, and only then, that the session becomes connected and the two
    readers are started.  When it fails the connected flag, the markets
    socket, the counter and the queue are as before, and a private
    socket that was opened has had [Close] called on it. *)
Theorem connect_all_or_nothing
        `{K : Auth.Crypto} (c : WSClient) (now1 now2 : Z)
        (dial1 dial2 rollback : option error) :
  let c' := fst (fst (Connect c now1 dial1 now2 dial2 rollback)) in
  let err := snd (fst (Connect c now1 dial1 now2 dial2 rollback)) in
  let started := snd (Connect c now1 dial1 now2 dial2 rollback) in
  (err = None <-> dial1 = None /\ dial2 = None)
  /\ (started = true <-> err = None)
  /\ requestID c' = requestID c
  /\ messages c' = messages c
  /\ done c' = done c
  /\ (err = None ->
      IsConnected c' = true
      /\ (exists k1 k2,
            privateConn c' = Some k1 /\ marketsConn c' = Some k2
            /\ conn_url k1 = privateURL c /\ conn_url k2 = marketsURL c
            /\ conn_closes k1 = 0%nat /\ conn_closes k2 = 0%nat))
  /\ (err <> None ->
      IsConnected c' = IsConnected c
      /\ marketsConn c' = marketsConn c
      /\ match dial1 with
         | Some _ =>
             privateConn c' = privateConn c
             /\ trace c' = (trace c ++ [EffDial Private (privateURL c) dial1])%list
         | None =>
             (exists k, privateConn c' = Some k /\ conn_closes k = 1%nat)
             /\ trace c' = (trace c ++ [EffDial Private (privateURL c) None;
                                        EffDial Markets (marketsURL c) dial2;
                                        EffConnClose Private rollback])%list
         end).
Proof.
  destruct c. unfold Connect, IsConnected. simpl.
  destruct dial1 as [e1|]; [|destruct dial2 as [e2|]]; simpl;
    rewrite <- ?app_assoc; simpl;
    repeat split; try reflexivity; try discriminate; try congruence;
    try (intros [? ?]; discriminate); try (intros; discriminate);
    try (eexists; eexists; repeat split; reflexivity);
    try (eexists; split; reflexivity).
Qed.

(** X7.  On success each socket was dialled with its own signed headers: the
    private one signs its timestamp followed by GET/v1/ws/private, the
    markets one signs its own timestamp followed by GET/v1/ws/markets,
    and each carries that timestamp and the API key. *)
Theorem connect_signs_each_socket_path
        `{K : Auth.Crypto} (c : WSClient) (now1 now2 : Z) (rollback : option error) :
  let c' := fst (fst (Connect c now1 None now2 None rollback)) in
  exists k1 k2,
    privateConn c' = Some k1 /\ marketsConn c' = Some k2
    /\ NetHTTP.Header_Get "X-PM-Signature" (conn_header k1)
       = Some (Auth.base64_EncodeToString
                 (Auth.ed25519_Sign (Config.PrivateKey (config c))
                    (FormatInt now1 ++ "GET/v1/ws/private")))
    /\ NetHTTP.Header_Get "X-PM-Signature" (conn_header k2)
       = Some (Auth.base64_EncodeToString
                 (Auth.ed25519_Sign (Config.PrivateKey (config c))
                    (FormatInt now2 ++ "GET/v1/ws/markets")))
    /\ NetHTTP.Header_Get "X-PM-Timestamp" (conn_header k1) = Some (FormatInt now1)
    /\ NetHTTP.Header_Get "X-PM-Timestamp" (conn_header k2) = Some (FormatInt now2)
    /\ NetHTTP.Header_Get "X-PM-Access-Key" (conn_header k1)
       = Some (Config.APIKey (config c))
    /\ NetHTTP.Header_Get "X-PM-Access-Key" (conn_header k2)
       = Some (Config.APIKey (config c)).
Proof.
  destruct c. unfold Connect. simpl.
  eexists. eexists. repeat split.
Qed.

(** X8.  After a [Connect] that failed on the markets dial, [Close] calls
    [Close] on the private socket a second time and on no markets
    socket, and reports only what that second call returned. *)
Theorem close_after_failed_connect
        `{K : Auth.Crypto} (c : WSClient) (now1 now2 : Z)
        (err : error) (rollback close1 close2 : option error) :
  done c = false ->
  marketsConn c = None ->
  let c1 := fst (fst (Connect c now1 None now2 (Some err) rollback)) in
  exists c2 k,
    Close c1 close1 close2
    = Returns (c2, match close1 with
                   | Some e => Some (ErrorfV "errors closing connections" [e])
                   | None => None
                   end)
    /\ privateConn c2 = Some k
    /\ conn_closes k = 2%nat
    /\ marketsConn c2 = None
    /\ trace c2 = (trace c ++ [EffDial Private (privateURL c) None;
                               EffDial Markets (marketsURL c) (Some err);
                               EffConnClose Private rollback;
                               EffCloseDone;
                               EffConnClose Private close1])%list
    /\ IsConnected c2 = false.
Proof.
  intros Hd Hm. destruct c. simpl in *. subst.
  unfold Connect, Close. simpl.
  destruct close1; simpl; eexists; eexists;
    (split; [reflexivity|]); simpl; rewrite <- ?app_assoc; simpl;
    repeat split; reflexivity.
Qed.

Lemma close_after_failed_connect_witness :
  exists c2 k,
    Close (fst (fst (Connect (K := Sample.plain_crypto) (NewWSClient Sample.cfg)
                             1 None 2 (Some (LibError "refused")) None)))
          None None
    = Returns (c2, None)
    /\ privateConn c2 = Some k
    /\ conn_closes k = 2%nat
    /\ marketsConn c2 = None
    /\ trace c2 = (trace (NewWSClient Sample.cfg)
                   ++ [EffDial Private (privateURL (NewWSClient Sample.cfg)) None;
                       EffDial Markets (marketsURL (NewWSClient Sample.cfg))
                               (Some (LibError "refused"));
                       EffConnClose Private None;
                       EffCloseDone;
                       EffConnClose Private None])%list
    /\ IsConnected c2 = false.
Proof.
  apply (close_after_failed_connect (K := Sample.plain_crypto)
                                    (NewWSClient Sample.cfg) 1 2
                                    (LibError "refused") None None None);
    reflexivity.
Defined.

(** ** The readers *)

Section ReaderLoops.
Context `{D : Decoder}.

(** X9.  Frames that do not decode and heartbeats pass the reader without
    a trace: the session is exactly as before and the reader is
    waiting for the next frame. *)
Theorem reader_skips_discarded_frames (sock : socket) (frames : list string) :
    forall (c : WSClient),
      done c = false ->
      Forall discarded frames ->
      reader_loop sock c (map ReadOk frames) = (c, InRead).
Proof.
    induction frames as [|f frames IH]; intros c Hd Hall.
    - simpl. unfold reader_select. rewrite Hd. reflexivity.
    - inversion Hall as [|? ? Hf Hfs]; subst.
      cbn [map reader_loop]. unfold reader_select. rewrite Hd.
      unfold reader_receive. unfold discarded in Hf.
      destruct (Unmarshal_WSMessage f) as [m|].
      + destruct (WSMessage.Heartbeat m); [|congruence].
        apply IH; assumption.
      + apply IH; assumption.
Qed.

(** X10.  The first read error ends the reader: what it has queued by then
    is all it ever queues, whatever frames the socket would still
    have delivered. *)
Theorem reader_stops_at_read_error
          (sock : socket) (rs1 rs2 : list ReadResult) (err : error) (isClose : bool) :
    forall (c : WSClient),
      reader_loop sock c (rs1 ++ ReadErr err isClose :: rs2)%list
      = (fst (reader_loop sock c rs1), Exited).
Proof.
    induction rs1 as [|r rs1 IH]; intros c.
    - simpl. unfold reader_select. destruct (done c); reflexivity.
    - cbn [app reader_loop]. unfold reader_select.
      destruct (done c); [reflexivity|].
      unfold reader_receive.
      destruct r as [message|e b]; [|reflexivity].
      destruct (Unmarshal_WSMessage message) as [m|]; [|apply IH].
      destruct (WSMessage.Heartbeat m); [apply IH|].
      destruct (try_send messages_cap (messages c) m) as [q queued].
      apply IH.
Qed.

End ReaderLoops.

Lemma reader_skips_discarded_frames_witness :
  reader_loop (D := Sample.json_decoder) Private Sample.connected_client
              (map ReadOk [Sample.heartbeat_frame; "not json"; Sample.heartbeat_frame])
  = (Sample.connected_client, InRead).
Proof.
  apply (reader_skips_discarded_frames (D := Sample.json_decoder) Private).
  - reflexivity.
  - repeat constructor; vm_compute; discriminate.
Defined.

(** ** The queue as a channel *)

Lemma accepted_app (t1 t2 : list effect) :
  accepted (t1 ++ t2)%list = (accepted t1 ++ accepted t2)%list.
Proof.
  induction t1 as [|e t1 IH]; simpl; [reflexivity|].
  destruct e; simpl; auto. destruct queued; simpl; rewrite IH; reflexivity.
Qed.

Lemma pushes_app (t1 t2 : list effect) :
  pushes (t1 ++ t2)%list = (pushes t1 ++ pushes t2)%list.
Proof.
  induction t1 as [|e t1 IH]; simpl; [reflexivity|].
  destruct e; simpl; rewrite ?IH; reflexivity.
Qed.

Section Channel.
Context `{K : Auth.Crypto}.
Context `{D : Decoder}.

Lemma step_conserves (s : System) (e : event) :
    exists pushed,
      accepted (trace (client (fst (step s e))))
      = (accepted (trace (client s)) ++ pushed)%list
      /\ (delivered [snd (step s e)] ++ messages (client (fst (step s e))))%list
         = (messages (client s) ++ pushed)%list.
Proof.
    destruct s as [c rds cr]. destruct c. unfold step. simpl.
    destruct cr; [exists []; rewrite !List.app_nil_r; split; reflexivity|].
    destruct e as [k|i|i r|]; [destruct k| | |]; unfold_calls; simpl;
      try unfold reader_receive, try_send; simpl;
      break_all; rewrite ?accepted_app; simpl;
      try (exists []; rewrite ?List.app_nil_r; split; reflexivity);
      try (eexists; split; reflexivity).
Qed.

Lemma run_conserves (evs : list event) :
    forall (s : System) (pre : list WSMessage.t),
      (pre ++ messages (client s))%list = accepted (trace (client s)) ->
      ((pre ++ delivered (returns s evs)) ++ messages (client (run s evs)))%list
      = accepted (trace (client (run s evs))).
Proof.
    induction evs as [|e evs IH]; intros s pre Hs.
    - simpl. rewrite List.app_nil_r. exact Hs.
    - cbn [returns run].
      destruct (step_conserves s e) as [pushed [Ha Hm]].
      specialize (IH (fst (step s e)) (pre ++ delivered [snd (step s e)])%list).
      assert (Hd : delivered (snd (step s e) :: returns (fst (step s e)) evs)
                   = (delivered [snd (step s e)]
                      ++ delivered (returns (fst (step s e)) evs))%list).
      { simpl. destruct (snd (step s e)); reflexivity. }
      rewrite Hd, List.app_assoc. apply IH.
      rewrite <- List.app_assoc, Hm, List.app_assoc, Hs, Ha. reflexivity.
Qed.

End Channel.

(** X11.  Nothing is lost, duplicated or reordered between the queue and the
    consumer: in every run of the program, the messages handed to the
    consumer so far followed by the messages still queued are exactly
    the messages the queue accepted, in the order it accepted them. *)
Theorem queue_delivers_in_order `{K : Auth.Crypto} `{D : Decoder}
        (cfg : Config.t) (evs : list event) :
  (delivered (returns (boot cfg) evs) ++ messages (client (run (boot cfg) evs)))%list
  = accepted (trace (client (run (boot cfg) evs))).
Proof.
  apply (run_conserves evs (boot cfg) []). reflexivity.
Qed.

(** ** The application's calls and the readers *)

Section Interference.
Context `{K : Auth.Crypto}.
Context `{D : Decoder}.

Lemma same_program_refl (s : System) : same_program s s.
Proof. unfold same_program, same_control. intuition. Qed.

Lemma step_background (s : System) (e : event) :
    is_call e = false -> same_program (fst (step s e)) s.
Proof.
    destruct s as [c rds cr]. destruct c.
    unfold same_program, same_control, step. simpl.
    destruct cr; [intuition|].
    destruct e as [k|i|i r|]; simpl; [discriminate| | |]; intros _;
      unfold_readers; simpl; break_all; intuition.
Qed.

Lemma step_call_related (a b : System) (k : call) :
    same_program a b ->
    snd (step a (EvCall k)) = snd (step b (EvCall k))
    /\ same_program (fst (step a (EvCall k))) (fst (step b (EvCall k))).
Proof.
    destruct a as [ca ra cra], b as [cb rb crb]. destruct ca, cb.
    unfold same_program, same_control, step. simpl.
    intros [Hc H]. decompose [and] H. subst.
    destruct crb; [simpl; intuition|].
    destruct k; unfold_calls; simpl; break_all; simpl; intuition congruence.
Qed.

Lemma same_program_trans (a b c : System) :
    same_program a b -> same_program b c -> same_program a c.
Proof.
    unfold same_program, same_control. intros [H1 H2] [H3 H4].
    decompose [and] H2. decompose [and] H4.
    repeat split; congruence.
Qed.

Lemma calls_simulation (evs : list event) :
    forall a b, same_program a b ->
                call_returns a evs = returns b (filter is_call evs).
Proof.
    induction evs as [|e evs IH]; intros a b Hab; [reflexivity|].
    cbn [call_returns filter].
    destruct (is_call e) eqn:He.
    - destruct e as [k| | |]; try discriminate.
      destruct (step_call_related a b k Hab) as [Hr Hs].
      cbn [returns app]. rewrite Hr. f_equal. apply IH. exact Hs.
    - cbn [app]. apply IH.
      eapply same_program_trans; [apply step_background; exact He | exact Hab].
Qed.

End Interference.

(** X12.  What the application's calls return does not depend on the readers
    or on the consumer: along any run, the calls return what they would
    have returned had no reader taken a turn, no frame arrived and no
    message been consumed. *)
Theorem calls_independent_of_readers `{K : Auth.Crypto} `{D : Decoder}
        (s : System) (evs : list event) :
  call_returns s evs = returns s (filter is_call evs).
Proof.
  apply calls_simulation. apply same_program_refl.
Qed.

(** ** A closed session *)

Section Closed.
Context `{K : Auth.Crypto}.
Context `{D : Decoder}.

Lemma set_reader_pc_Forall (P : reader -> Prop) (p : pc) (l : list reader) :
    forall i,
      Forall P l ->
      (forall sock, P {| rd_socket := sock; rd_pc := p |}) ->
      Forall P (set_reader_pc i p l).
Proof.
    induction l as [|rd l IH]; intros i Hl Hp; simpl.
    - destruct i; constructor.
    - inversion Hl; subst. destruct i; constructor; auto.
Qed.

Lemma nth_error_Forall {A} (P : A -> Prop) (l : list A) (i : nat) (x : A) :
    Forall P l -> nth_error l i = Some x -> P x.
Proof.
    intros Hl Hx. rewrite Forall_forall in Hl. apply Hl.
    eapply nth_error_In; eauto.
Qed.

Lemma step_quiescent (s : System) (e : event) :
    quiescent s ->
    quiescent (fst (step s e))
    /\ pushes (trace (client (fst (step s e)))) = pushes (trace (client s)).
Proof.
    destruct s as [c rds cr]. destruct c. unfold quiescent, step. simpl.
    intros [Hd Hr]. subst.
    destruct cr; [simpl; auto|].
    destruct e as [k|i|i r|].
    - destruct k; unfold_calls; simpl; break_all; simpl;
        rewrite ?pushes_app; simpl; rewrite ?List.app_nil_r;
        repeat split; auto;
        try (apply Forall_app; split; [assumption|]);
        repeat constructor; simpl; discriminate.
    - destruct (nth_error rds i) as [rd|] eqn:Hi; simpl; auto.
      destruct (rd_pc rd) eqn:Hp; simpl; auto.
      split; [split|]; auto.
      apply set_reader_pc_Forall; [assumption|].
      intros sock. unfold reader_select. simpl. discriminate.
    - destruct (nth_error rds i) as [rd|] eqn:Hi; simpl; auto.
      destruct (rd_pc rd) eqn:Hp; simpl; auto.
      exfalso. apply (nth_error_Forall _ _ _ _ Hr Hi). exact Hp.
    - simpl. break_all; simpl; auto.
Qed.

Lemma run_quiescent (evs : list event) :
    forall s, quiescent s ->
              pushes (trace (client (run s evs))) = pushes (trace (client s)).
Proof.
    induction evs as [|e evs IH]; intros s Hs; [reflexivity|].
    cbn [run]. destruct (step_quiescent s e Hs) as [Hq Hp].
    rewrite (IH _ Hq). exact Hp.
Qed.

End Closed.

(** X13.  Once the session is closed and no reader is left inside
    [ReadMessage], nothing is ever offered to the queue again, whatever
    happens next: a later [Connect] may succeed and start two new
    readers, but they find the cancellation channel closed at their
    first [select] and return without reading. *)
Theorem closed_session_never_queues `{K : Auth.Crypto} `{D : Decoder}
        (s : System) (evs : list event) :
  done (client s) = true ->
  Forall (fun rd => rd_pc rd <> InRead) (readers s) ->
  pushes (trace (client (run s evs))) = pushes (trace (client s)).
Proof.
  intros Hd Hr. apply run_quiescent. split; assumption.
Qed.

Lemma closed_session_never_queues_witness :
  let s := run (K := Sample.plain_crypto) (D := Sample.json_decoder)
               Sample.connected_system [EvCall (CallClose None None)] in
  let evs := [EvCall (CallConnect 1704067200002 None 1704067200003 None None);
              EvSelect 2; EvReceive 2 (ReadOk (Sample.frame_with_id 1));
              EvSelect 0; EvReceive 0 (ReadOk (Sample.frame_with_id 2))] in
  connected (client (run (K := Sample.plain_crypto) (D := Sample.json_decoder) s evs))
  = true
  /\ pushes (trace (client (run (K := Sample.plain_crypto)
                                (D := Sample.json_decoder) s evs)))
     = pushes (trace (client s)).
Proof.
  split; [vm_compute; reflexivity|].
  apply (closed_session_never_queues (K := Sample.plain_crypto)
                                     (D := Sample.json_decoder)).
  - vm_compute. reflexivity.
  - vm_compute. repeat constructor; discriminate.
Defined.

Section Connected.
Context `{K : Auth.Crypto}.
Context `{D : Decoder}.

Lemma step_connected_has_sockets (s : System) (e : event) :
    connected_has_sockets (client s) ->
    connected_has_sockets (client (fst (step s e))).
Proof.
    destruct s as [c rds cr]. destruct c. unfold connected_has_sockets, step. simpl.
    intros H.
    destruct cr; [exact H|].
    destruct e as [k|i|i r|]; [destruct k| | |];
      unfold_calls; unfold_readers; simpl; break_all; simpl;
      try exact H; try discriminate;
      try (intros Hc; destruct (H Hc); split; congruence);
      try (intros _; split; discriminate).
Qed.

Lemma run_connected_has_sockets (evs : list event) :
    forall s, connected_has_sockets (client s) ->
              connected_has_sockets (client (run s evs)).
Proof.
    induction evs as [|e evs IH]; intros s Hs; [exact Hs|].
    cbn [run]. apply IH. apply step_connected_has_sockets. exact Hs.
Qed.

End Connected.

(** X14.  Whenever [IsConnected] answers true, both sockets have been dialled
    with success at some point: in every run of the program the session
    holds a connection for the private and for the markets socket, so
    neither send path answers "not connected". *)
Theorem connected_session_has_both_sockets `{K : Auth.Crypto} `{D : Decoder}
        (cfg : Config.t) (evs : list event) :
  IsConnected (client (run (boot cfg) evs)) = true ->
  privateConn (client (run (boot cfg) evs)) <> None
  /\ marketsConn (client (run (boot cfg) evs)) <> None.
Proof.
  unfold IsConnected.
  apply (run_connected_has_sockets evs (boot cfg)).
  unfold connected_has_sockets. simpl. discriminate.
Qed.

Lemma connected_session_has_both_sockets_witness :
  let evs := [EvCall (CallConnect 1704067200000 None 1704067200001 None None);
              EvCall (CallConnect 1704067200002 None 1704067200003
                                  (Some (LibError "dial tcp: timeout")) None)] in
  IsConnected (client (run (K := Sample.plain_crypto) (D := Sample.json_decoder)
                           (boot Sample.cfg) evs)) = true
  /\ privateConn (client (run (K := Sample.plain_crypto) (D := Sample.json_decoder)
                              (boot Sample.cfg) evs)) <> None
  /\ marketsConn (client (run (K := Sample.plain_crypto) (D := Sample.json_decoder)
                              (boot Sample.cfg) evs)) <> None.
Proof.
  split; [vm_compute; reflexivity|].
  apply (connected_session_has_both_sockets (K := Sample.plain_crypto)
                                            (D := Sample.json_decoder)).
  vm_compute. reflexivity.
Defined.

(** ** The timestamp window *)

(** X15.  For clock readings whose difference fits an [int64] and is not the
    least one, [ValidateTimestamp] accepts exactly the timestamps at
    most 300000 ms away from now, on either side, both ends of the
    window included. *)
Theorem ValidateTimestamp_window (now timestampMs : Z) :
  (- 2 ^ 63 < now - timestampMs < 2 ^ 63)%Z ->
  (Auth.ValidateTimestamp now timestampMs = None
   <-> (Z.abs (now - timestampMs) <= 300000)%Z).
Proof.
  intros H. unfold Auth.ValidateTimestamp.
  rewrite (wrap64_small (now - timestampMs)) by lia.
  change (5 * 60 * 1000)%Z with 300000%Z.
  destruct (Z.ltb_spec (now - timestampMs) 0).
  - rewrite wrap64_small by lia.
    destruct (Z.gtb_spec (- (now - timestampMs)) 300000); split; intros; try lia;
      try reflexivity; try discriminate.
  - destruct (Z.gtb_spec (now - timestampMs) 300000); split; intros; try lia;
      try reflexivity; try discriminate.
Qed.

Lemma ValidateTimestamp_window_witness :
  Auth.ValidateTimestamp 1704067200000 1704067500000 = None
  <-> (Z.abs (1704067200000 - 1704067500000) <= 300000)%Z.
Proof.
  apply (ValidateTimestamp_window 1704067200000 1704067500000). lia.
Defined.

(** X16.  The one difference the negation cannot turn around, the least
    [int64], is let through: a timestamp whose distance from now wraps
    to -2^63 is accepted although it lies far outside the window. *)
Theorem ValidateTimestamp_accepts_least_difference (now timestampMs : Z) :
  wrap64 (now - timestampMs) = (- 2 ^ 63)%Z ->
  Auth.ValidateTimestamp now timestampMs = None.
Proof.
  intros H. unfold Auth.ValidateTimestamp. rewrite H. reflexivity.
Qed.

Lemma ValidateTimestamp_accepts_least_difference_witness :
  Auth.ValidateTimestamp 1704067200000 (1704067200000 - 2 ^ 63) = None.
Proof.
  apply (ValidateTimestamp_accepts_least_difference
           1704067200000 (1704067200000 - 2 ^ 63)).
  vm_compute. reflexivity.
Defined.

(** ** Loading the configuration *)

Lemma eqb_empty_false (s : string) : String.eqb s EmptyString = false <-> s <> EmptyString.
Proof.
  destruct (String.eqb_spec s EmptyString); split; intros; congruence.
Qed.

(** X17.  [getEnvWithFallback] gives the value of the first of the names that
    is set to something non-empty, and the empty string only when none
    is. *)
Theorem getEnvWithFallback_first_set (env : Config.Env) (names : list string) :
  (Config.getEnvWithFallback env names = EmptyString
   <-> Forall (fun n => env n = EmptyString) names)
  /\ (forall pre n post,
        names = (pre ++ n :: post)%list ->
        Forall (fun m => env m = EmptyString) pre ->
        env n <> EmptyString ->
        Config.getEnvWithFallback env names = env n).
Proof.
  split.
  - induction names as [|n names IH]; simpl.
    + split; [constructor | reflexivity].
    + destruct (String.eqb_spec (env n) EmptyString) as [He|He]; simpl.
      * rewrite IH. split; intros H; [constructor; assumption|].
        inversion H; assumption.
      * split; intros H; [congruence|]. inversion H; congruence.
  - intros pre. revert names.
    induction pre as [|p pre IH]; intros names n post -> Hpre Hn; simpl.
    + apply eqb_empty_false in Hn. rewrite Hn. reflexivity.
    + inversion Hpre as [|? ? Hp Hpre']; subst. rewrite Hp. simpl.
      apply (IH _ n post eq_refl Hpre' Hn).
Qed.

Section Loading.
Context `{L : Config.KeyLib}.

(** X18.  [Load] succeeds exactly when the API key, the private key and the
    symbol are each set under one of their two names and the private
    key decodes to 32 or 64 bytes. *)
Theorem Load_succeeds_iff (env : Config.Env) :
    (exists cfg, Config.Load env = inl cfg)
    <-> Config.getEnvWithFallback env ["POLYMARKET_API_KEY"; "TEST_API_KEY_ID"]
        <> EmptyString
        /\ Config.getEnvWithFallback env ["POLYMARKET_PRIVATE_KEY"; "TEST_API_SECRET_KEY"]
           <> EmptyString
        /\ Config.getEnvWithFallback env ["POLYMARKET_SYMBOL"; "TEST_MARKET_SLUG"]
           <> EmptyString
        /\ exists bytes,
            Config.base64_DecodeString
              (Config.getEnvWithFallback env
                 ["POLYMARKET_PRIVATE_KEY"; "TEST_API_SECRET_KEY"]) = inl bytes
            /\ (String.length bytes = 32%nat \/ String.length bytes = 64%nat).
Proof.
    unfold Config.Load.
    destruct (String.eqb_spec
                (Config.getEnvWithFallback env ["POLYMARKET_API_KEY"; "TEST_API_KEY_ID"])
                EmptyString) as [Ha|Ha].
    { split; [intros [cfg H]; discriminate | intros [H _]; congruence]. }
    destruct (String.eqb_spec
                (Config.getEnvWithFallback env
                   ["POLYMARKET_PRIVATE_KEY"; "TEST_API_SECRET_KEY"])
                EmptyString) as [Hp|Hp].
    { split; [intros [cfg H]; discriminate | intros [_ [H _]]; congruence]. }
    destruct (Config.base64_DecodeString _) as [bytes|err] eqn:Hdec.
    2:{ split; [intros [cfg H]; discriminate
               | intros [_ [_ [_ [b [H _]]]]]; discriminate]. }
    destruct (Nat.eqb_spec (String.length bytes) 64) as [H64|H64];
      [|destruct (Nat.eqb_spec (String.length bytes) 32) as [H32|H32]].
    3:{ split; [intros [cfg H]; discriminate|].
        intros [_ [_ [_ [b [Hb [Hl|Hl]]]]]]; inversion Hb; subst; congruence. }
    all: destruct (String.eqb_spec
                     (Config.getEnvWithFallback env
                        ["POLYMARKET_SYMBOL"; "TEST_MARKET_SLUG"])
                     EmptyString) as [Hs|Hs];
      [ split; [intros [cfg H]; discriminate | intros [_ [_ [H _]]]; congruence]
      | split; [intros _; repeat split; auto; exists bytes; auto
               | intros _; eexists; reflexivity] ].
Qed.

(** What [Load] takes apart, step by step. *)
Lemma Load_inversion (env : Config.Env) (cfg : Config.t) :
    Config.Load env = inl cfg ->
    exists bytes wsBase,
      Config.base64_DecodeString
        (Config.getEnvWithFallback env
           ["POLYMARKET_PRIVATE_KEY"; "TEST_API_SECRET_KEY"]) = inl bytes
      /\ Config.APIKey cfg
         = Config.getEnvWithFallback env ["POLYMARKET_API_KEY"; "TEST_API_KEY_ID"]
      /\ Config.APIKey cfg <> EmptyString
      /\ Config.Symbol cfg
         = Config.getEnvWithFallback env ["POLYMARKET_SYMBOL"; "TEST_MARKET_SLUG"]
      /\ Config.Symbol cfg <> EmptyString
      /\ (String.length bytes = 64%nat /\ Config.PrivateKey cfg = bytes
          \/ String.length bytes = 32%nat
             /\ Config.PrivateKey cfg = Config.ed25519_NewKeyFromSeed bytes)
      /\ Config.BaseURL cfg
         = (let b := Config.getEnvWithFallback env
                       ["POLYMARKET_BASE_URL"; "RETAIL_API_URL"] in
            if String.eqb b EmptyString then "https://api.polymarket.us" else b)
      /\ Config.WSPrivateURL cfg = wsBase ++ "/v1/ws/private"
      /\ Config.WSMarketsURL cfg = wsBase ++ "/v1/ws/markets"
      /\ wsBase
         = (let w := Config.getEnvWithFallback env
                       ["POLYMARKET_WS_URL"; "RETAIL_WS_URL"] in
            if String.eqb w EmptyString then
              let b := Config.BaseURL cfg in
              if (5 <? String.length b)%nat && String.eqb (String.substring 0 5 b) "https"
              then "wss" ++ String.substring 5 (String.length b - 5) b
              else if (4 <? String.length b)%nat
                      && String.eqb (String.substring 0 4 b) "http"
              then "ws" ++ String.substring 4 (String.length b - 4) b
              else b
            else w).
Proof.
    unfold Config.Load.
    destruct (String.eqb_spec
                (Config.getEnvWithFallback env ["POLYMARKET_API_KEY"; "TEST_API_KEY_ID"])
                EmptyString) as [Ha|Ha]; [discriminate|].
    destruct (String.eqb_spec
                (Config.getEnvWithFallback env
                   ["POLYMARKET_PRIVATE_KEY"; "TEST_API_SECRET_KEY"])
                EmptyString) as [Hp|Hp]; [discriminate|].
    destruct (Config.base64_DecodeString _) as [bytes|err] eqn:Hdec; [|discriminate].
    destruct (Nat.eqb_spec (String.length bytes) 64) as [H64|H64];
      [|destruct (Nat.eqb_spec (String.length bytes) 32) as [H32|H32];
        [|discriminate]].
    all: destruct (String.eqb_spec
                     (Config.getEnvWithFallback env
                        ["POLYMARKET_SYMBOL"; "TEST_MARKET_SLUG"])
                     EmptyString) as [Hs|Hs]; [discriminate|].
    all: intros H; injection H as <-; cbn [Config.APIKey Config.Symbol Config.PrivateKey
                                          Config.BaseURL Config.WSPrivateURL
                                          Config.WSMarketsURL];
      exists bytes; eexists; repeat split; auto.
Qed.

End Loading.

Lemma substring_prefix (p rest : string) :
  String.substring 0 (String.length p) (p ++ rest) = p.
Proof.
  induction p as [|c p IH]; simpl; [destruct rest; reflexivity | congruence].
Qed.

Lemma ws_of_http (rest : string) :
  rest <> EmptyString ->
  (let b := "http" ++ rest in
   if (5 <? String.length b)%nat && String.eqb (String.substring 0 5 b) "https"
   then "wss" ++ String.substring 5 (String.length b - 5) b
   else if (4 <? String.length b)%nat && String.eqb (String.substring 0 4 b) "http"
        then "ws" ++ String.substring 4 (String.length b - 4) b
        else b)
  = "ws" ++ rest.
Proof.
  intros Hr. destruct rest as [|c [|d rest]]; [congruence| |]; cbv zeta.
  - reflexivity.
  - change (String.length ("http" ++ String c (String d rest)))
      with (S (S (S (S (S (S (String.length rest))))))).
    change (String.substring 0 4 ("http" ++ String c (String d rest))) with "http".
    change (String.substring 0 5 ("http" ++ String c (String d rest)))
      with (String "h" (String "t" (String "t" (String "p" (String c EmptyString))))).
    change (4 <? S (S (S (S (S (S (String.length rest)))))))%nat with true.
    change (5 <? S (S (S (S (S (S (String.length rest)))))))%nat with true.
    change (String.substring 4 (S (S (S (S (S (S (String.length rest)))))) - 4)
                             ("http" ++ String c (String d rest)))
      with (String c (String d (String.substring 0 (String.length rest) rest))).
    change (String.substring 5 (S (S (S (S (S (S (String.length rest)))))) - 5)
                             ("http" ++ String c (String d rest)))
      with (String d (String.substring 0 (String.length rest) rest)).
    rewrite substring_all.
    destruct (String.eqb_spec
                (String "h" (String "t" (String "t" (String "p" (String c EmptyString)))))
                "https") as [He|He]; [|reflexivity].
    injection He as ->. reflexivity.
Qed.

Section LoadedConfig.
Context `{L : Config.KeyLib}.

(** X19.  A configuration that [Load] returns is complete: the API key, the
    symbol and the base URL are not empty, and, the key library
    expanding a 32-byte seed to a 64-byte key, the private key is 64
    bytes long. *)
Theorem Load_config_complete (env : Config.Env) (cfg : Config.t) :
    (forall seed, String.length seed = 32%nat ->
                  String.length (Config.ed25519_NewKeyFromSeed seed) = 64%nat) ->
    Config.Load env = inl cfg ->
    Config.APIKey cfg <> EmptyString
    /\ Config.Symbol cfg <> EmptyString
    /\ Config.BaseURL cfg <> EmptyString
    /\ String.length (Config.PrivateKey cfg) = 64%nat.
Proof.
    intros Hseed Hload.
    destruct (Load_inversion env cfg Hload)
      as [bytes [wsBase [Hdec [Ha [Ha' [Hs [Hs' [Hk [Hb _]]]]]]]]].
    repeat split; auto.
    - rewrite Hb. cbv zeta.
      destruct (String.eqb_spec
                  (Config.getEnvWithFallback env ["POLYMARKET_BASE_URL"; "RETAIL_API_URL"])
                  EmptyString); [discriminate | assumption].
    - destruct Hk as [[Hl ->]|[Hl ->]]; auto.
Qed.

(** X20.  The two WebSocket URLs of a loaded configuration are one base
    followed by [/v1/ws/private] and [/v1/ws/markets].  The base is
    the WebSocket variable when one is set; otherwise it is the base
    URL with a leading [http] turned into [ws] (so [https] into
    [wss]) provided something follows, and the base URL as it is in
    every other case. *)
Theorem Load_websocket_urls (env : Config.Env) (cfg : Config.t) :
    Config.Load env = inl cfg ->
    exists base,
      Config.WSPrivateURL cfg = base ++ "/v1/ws/private"
      /\ Config.WSMarketsURL cfg = base ++ "/v1/ws/markets"
      /\ (Config.getEnvWithFallback env ["POLYMARKET_WS_URL"; "RETAIL_WS_URL"]
          <> EmptyString ->
          base = Config.getEnvWithFallback env ["POLYMARKET_WS_URL"; "RETAIL_WS_URL"])
      /\ (Config.getEnvWithFallback env ["POLYMARKET_WS_URL"; "RETAIL_WS_URL"]
          = EmptyString ->
          (forall rest, Config.BaseURL cfg = "http" ++ rest -> rest <> EmptyString ->
                        base = "ws" ++ rest)
          /\ ((forall rest, Config.BaseURL cfg = "http" ++ rest -> rest = EmptyString) ->
              base = Config.BaseURL cfg)).
Proof.
    intros Hload.
    destruct (Load_inversion env cfg Hload)
      as [bytes [wsBase [_ [_ [_ [_ [_ [_ [_ [Hp [Hm Hw]]]]]]]]]]].
    exists wsBase. split; [exact Hp|]. split; [exact Hm|].
    cbv zeta in Hw.
    destruct (String.eqb_spec
                (Config.getEnvWithFallback env ["POLYMARKET_WS_URL"; "RETAIL_WS_URL"])
                EmptyString) as [He|He].
    - split; [congruence|]. intros _. split.
      + intros rest Hb Hr. rewrite Hw, Hb. apply (ws_of_http rest Hr).
      + intros Hpre. rewrite Hw.
        destruct (Config.BaseURL cfg) as [|c1 [|c2 [|c3 [|c4 b]]]]; try reflexivity.
        destruct (String.eqb_spec
                    (String c1 (String c2 (String c3 (String c4 EmptyString)))) "http")
          as [E|E].
        * injection E as -> -> -> ->.
          rewrite (Hpre b eq_refl). reflexivity.
        * apply String.eqb_neq in E.
          rewrite (substring_prefix
                     (String c1 (String c2 (String c3 (String c4 EmptyString)))) b
                   : String.substring 0 4 (String c1 (String c2 (String c3 (String c4 b))))
                     = _).
          rewrite E, andb_false_r.
          destruct b as [|c5 b]; [reflexivity|].
          rewrite (substring_prefix
                     (String c1 (String c2 (String c3 (String c4 (String c5 EmptyString)))))
                     b
                   : String.substring 0 5
                       (String c1 (String c2 (String c3 (String c4 (String c5 b)))))
                     = _).
          destruct (String.eqb_spec
                      (String c1 (String c2 (String c3 (String c4 (String c5 EmptyString)))))
                      "https") as [E5|E5]; [|rewrite andb_false_r; reflexivity].
          injection E5 as -> -> -> -> ->. discriminate E.
    - split; [intros _; exact Hw|]. intros E. congruence.
Qed.

End LoadedConfig.

Lemma Load_config_complete_witness :
  exists cfg,
    Config.Load (L := Sample.plain_keylib) Sample.staging_env = inl cfg
    /\ Config.APIKey cfg <> EmptyString
    /\ Config.Symbol cfg <> EmptyString
    /\ Config.BaseURL cfg <> EmptyString
    /\ String.length (Config.PrivateKey cfg) = 64%nat.
Proof.
  eexists. split; [vm_compute; reflexivity|].
  apply (Load_config_complete (L := Sample.plain_keylib) Sample.staging_env).
  - intros seed Hs. simpl. rewrite length_append. lia.
  - vm_compute. reflexivity.
Defined.

Lemma Load_websocket_urls_witness :
  exists cfg base,
    Config.Load (L := Sample.plain_keylib) Sample.staging_env = inl cfg
    /\ Config.WSPrivateURL cfg = "ws://localhost:8080/v1/ws/private"
    /\ Config.WSPrivateURL cfg = base ++ "/v1/ws/private"
    /\ Config.WSMarketsURL cfg = base ++ "/v1/ws/markets".
Proof.
  destruct (Config.Load (L := Sample.plain_keylib) Sample.staging_env) as [cfg|err] eqn:Hl;
    [|vm_compute in Hl; discriminate].
  destruct (Load_websocket_urls (L := Sample.plain_keylib) Sample.staging_env cfg Hl)
    as [base [Hp [Hm _]]].
  exists cfg, base. split; [reflexivity|]. split; [|split; assumption].
  vm_compute in Hl. injection Hl as <-. reflexivity.
Defined.

(** ** REST request targets *)

Section RestTargets.
Import NetHTTP.

Lemma unescape_escaped_char (c : ascii) (r : string) :
  unescape ((if shouldEscape_pathSegment c then percent c else String c EmptyString) ++ r)
  = option_map (String c) (unescape r).
Proof.
  destruct c as [[] [] [] [] [] [] [] []];
    match goal with
    | |- unescape (?e ++ r) = _ =>
        let v := eval vm_compute in e in change e with v
    end;
    cbn [append]; simpl; destruct (unescape r); reflexivity.
Qed.

Lemma unescape_PathEscape (s b : string) :
  unescape (PathEscape s ++ b) = option_map (append s) (unescape b).
Proof.
  induction s as [|c s IH]; cbn [PathEscape].
  - cbn [append]. destruct (unescape b); reflexivity.
  - rewrite append_assoc, unescape_escaped_char, IH.
    destruct (unescape b); reflexivity.
Qed.

Lemma escaped_char_plain (c : ascii) :
  all_chars is_query_safe
            (if shouldEscape_pathSegment c then percent c else String c EmptyString) = true
  /\ lacks "?" (if shouldEscape_pathSegment c then percent c else String c EmptyString)
     = true.
Proof.
  destruct c as [[] [] [] [] [] [] [] []]; split; reflexivity.
Qed.

Lemma PathEscape_plain (s : string) :
  all_chars is_query_safe (PathEscape s) = true /\ lacks "?" (PathEscape s) = true.
Proof.
  induction s as [|c s [IH1 IH2]]; cbn [PathEscape]; [split; reflexivity|].
  destruct (escaped_char_plain c) as [H1 H2].
  unfold lacks in *. rewrite !all_chars_app, H1, H2, IH1, IH2. split; reflexivity.
Qed.

Lemma query_char_safe (c : ascii) :
  all_chars is_query_safe
            (if shouldEscape_queryComponent c
             then (if Ascii.eqb c " " then "+" else percent c)
             else String c EmptyString) = true.
Proof.
  destruct c as [[] [] [] [] [] [] [] []]; reflexivity.
Qed.

Lemma QueryEscape_safe (s : string) : all_chars is_query_safe (QueryEscape s) = true.
Proof.
  induction s as [|c s IH]; cbn [QueryEscape]; [reflexivity|].
  rewrite all_chars_app, query_char_safe, IH. reflexivity.
Qed.

Lemma join_query_safe (l : Values) : all_chars is_query_safe (join_query l) = true.
Proof.
  induction l as [|[k v] l IH]; cbn [join_query]; [reflexivity|].
  rewrite !all_chars_app, !QueryEscape_safe. cbn [all_chars andb].
  destruct l as [|x l]; [reflexivity|].
  rewrite all_chars_app, IH. reflexivity.
Qed.

Lemma query_safe_split (q : string) :
  all_chars is_query_safe q = true ->
  lacks "#" q = true /\ all_chars (fun c => negb (is_ctl c)) q = true.
Proof.
  unfold lacks. induction q as [|c q IH]; cbn [all_chars]; [split; reflexivity|].
  intros H. apply andb_true_iff in H. destruct H as [Hc Hq].
  destruct (IH Hq) as [H1 H2]. rewrite H1, H2.
  unfold is_query_safe in Hc. apply andb_true_iff in Hc. destruct Hc as [Ha Hb].
  rewrite Ha, Hb. split; reflexivity.
Qed.

Lemma host_char_plain (c : ascii) :
  is_host_char c = true ->
  is_query_safe c = true /\ negb (Ascii.eqb c "?") = true /\ negb (Ascii.eqb c "/") = true.
Proof.
  destruct c as [[] [] [] [] [] [] [] []]; intros H;
    solve [discriminate H | repeat split; reflexivity].
Qed.

Lemma host_plain (host : string) :
  all_chars is_host_char host = true ->
  all_chars is_query_safe host = true
  /\ lacks "?" host = true /\ lacks "/" host = true.
Proof.
  unfold lacks. induction host as [|c host IH]; cbn [all_chars];
    [repeat split; reflexivity|].
  intros H. apply andb_true_iff in H. destruct H as [Hc Hh].
  destruct (IH Hh) as [H1 [H2 H3]].
  destruct (host_char_plain c Hc) as [G1 [G2 G3]].
  rewrite H1, H2, H3, G1, G2, G3. repeat split; reflexivity.
Qed.

(** Parsing [http://host/path] or [https://host/path]: the path is the
    text from the first slash after the host, with its escapes
    decoded. *)
Lemma Parse_http_host (secure : bool) (host p : string) :
  all_chars is_host_char host = true ->
  all_chars is_query_safe p = true ->
  lacks "?" p = true ->
  option_map URL.Path
             (Parse ((if secure then "https://" else "http://") ++ host ++ String "/" p))
  = unescape (String "/" p).
Proof.
  intros Hh Hp Hq.
  destruct (host_plain host Hh) as [Hh1 [Hh2 Hh3]].
  destruct (query_safe_split host Hh1) as [Hh4 Hh5].
  destruct (query_safe_split p Hp) as [Hp4 Hp5].
  set (tail := host ++ String "/" p).
  assert (Ht1 : lacks "#" tail = true).
  { unfold tail, lacks in *. rewrite all_chars_app. cbn [all_chars].
    rewrite Hh4, Hp4. reflexivity. }
  assert (Ht2 : all_chars (fun c => negb (is_ctl c)) tail = true).
  { unfold tail. rewrite all_chars_app. cbn [all_chars].
    rewrite Hh5, Hp5. reflexivity. }
  assert (Ht3 : lacks "?" tail = true).
  { unfold tail, lacks in *. rewrite all_chars_app. cbn [all_chars].
    rewrite Hh2, Hq. reflexivity. }
  unfold Parse.
  rewrite cut_lacks
    by (destruct secure; unfold lacks in *; cbn [append all_chars];
        rewrite Ht1; reflexivity).
  replace (all_chars (fun c => negb (is_ctl c))
                     ((if secure then "https://" else "http://") ++ tail))
    with true
    by (destruct secure; cbn [append all_chars]; rewrite Ht2; reflexivity).
  change (unescape EmptyString) with (Some EmptyString).
  cbv beta iota. cbn [negb].
  replace (String.eqb ((if secure then "https://" else "http://") ++ tail) "*")
    with false by (destruct secure; reflexivity).
  replace (getScheme ((if secure then "https://" else "http://") ++ tail))
    with (Some (if secure then "https" else "http", String "/" (String "/" tail)))
    by (destruct secure; reflexivity).
  rewrite cut_lacks
    by (unfold lacks in *; cbn [all_chars]; rewrite Ht3; reflexivity).
  replace (map_string to_lower (if secure then "https" else "http"))
    with (if secure then "https" else "http") by (destruct secure; reflexivity).
  cbv beta iota. unfold parse_rest.
  change (String.prefix "/" (String "/" (String "/" tail))) with true.
  rewrite (prefix_append "//" tail
           : String.prefix "//" (String "/" (String "/" tail)) = true).
  replace (String.eqb (if secure then "https" else "http") EmptyString)
    with false by (destruct secure; reflexivity).
  cbn [negb orb andb].
  replace (String.substring 2 (String.length (String "/" (String "/" tail)) - 2)
                            (String "/" (String "/" tail)))
    with tail
    by (cbn [String.length Nat.sub String.substring];
        rewrite Nat.sub_0_r, substring_all; reflexivity).
  unfold tail.
  rewrite (cut_app "/" host p Hh3).
  destruct (unescape (String "/" p)); reflexivity.
Qed.

Lemma unescape_plain_prefix (a b : string) :
  lacks "%" a = true ->
  unescape (a ++ b) = option_map (append a) (unescape b).
Proof.
  unfold lacks. induction a as [|c a IH]; cbn [all_chars append]; intros H.
  - destruct (unescape b); reflexivity.
  - apply andb_true_iff in H. destruct H as [Hc Ha].
    apply negb_true_iff in Hc. cbn [unescape]. rewrite Hc, (IH Ha).
    destruct (unescape b); reflexivity.
Qed.

(** The path an escaped identifier between two plain pieces parses back
    to. *)
Lemma unescape_target (pre id post : string) :
  lacks "%" pre = true ->
  lacks "%" post = true ->
  unescape (pre ++ PathEscape id ++ post) = Some (pre ++ id ++ post).
Proof.
  intros Hpre Hpost.
  rewrite (unescape_plain_prefix pre _ Hpre), unescape_PathEscape.
  replace (unescape post) with (Some post).
  - reflexivity.
  - rewrite <- (append_nil_r post) at 2.
    rewrite (unescape_plain_prefix post EmptyString Hpost). cbn.
    rewrite append_nil_r. reflexivity.
Qed.

Section Targets.
Context `{K : Auth.Crypto}.

Lemma signed_target (cfg : Config.t) (host method p path : string)
        (has_body : bool) (now : Z) :
    Config.BaseURL cfg = "https://" ++ host \/ Config.BaseURL cfg = "http://" ++ host ->
    all_chars is_host_char host = true ->
    all_chars is_query_safe p = true ->
    lacks "?" p = true ->
    unescape (String "/" p) = Some path ->
    all_chars is_token_char method = true ->
    method <> EmptyString ->
    Rest.signature_of (Rest.doRequest_signed cfg method (String "/" p) has_body now)
    = Some (Some (Auth.base64_EncodeToString
                    (Auth.ed25519_Sign (Config.PrivateKey cfg)
                       (FormatInt now ++ method ++ path)))).
Proof.
    intros Hb Hh Hp Hq Hu Hm Hne.
    rewrite doRequest_signed_signature. unfold NewRequest.
    apply String.eqb_neq in Hne. rewrite Hne, Hm. cbn [negb].
    assert (HP : option_map URL.Path (Parse (Config.BaseURL cfg ++ String "/" p))
                 = Some path).
    { destruct Hb as [-> | ->].
      - rewrite <- Hu. rewrite append_assoc. apply (Parse_http_host true host p Hh Hp Hq).
      - rewrite <- Hu. rewrite append_assoc. apply (Parse_http_host false host p Hh Hp Hq). }
    destruct (Parse (Config.BaseURL cfg ++ String "/" p)) as [u|]; [|discriminate].
    cbn in HP. injection HP as HP. cbn. rewrite HP. reflexivity.
Qed.

Lemma query_not_signed (cfg : Config.t) (method path q : string)
        (has_body : bool) (now : Z) :
    lacks "#" (Config.BaseURL cfg ++ path) = true ->
    lacks "?" (Config.BaseURL cfg ++ path) = true ->
    all_chars is_query_safe q = true ->
    Rest.signature_of
      (Rest.doRequest_signed cfg method (path ++ "?" ++ q) has_body now)
    = Rest.signature_of (Rest.doRequest_signed cfg method path has_body now).
Proof.
    intros H1 H2 Hq. destruct (query_safe_split q Hq) as [Hq1 Hq2].
    rewrite !doRequest_signed_signature.
    pose proof (NewRequest_query method (Config.BaseURL cfg ++ path) q H1 H2 Hq1 Hq2) as HN.
    rewrite append_assoc in HN. cbn [append] in HN |- *.
    destruct (NewRequest method (Config.BaseURL cfg ++ path ++ String "?" q)) as [r1|];
      destruct (NewRequest method (Config.BaseURL cfg ++ path)) as [r2|];
      cbn in HN |- *; try discriminate; [|reflexivity].
    injection HN as Hm Hpth. rewrite Hm, Hpth. reflexivity.
Qed.

Lemma with_query_not_signed (cfg : Config.t) (path : string) (params : Values)
        (now : Z) :
    lacks "#" (Config.BaseURL cfg ++ path) = true ->
    lacks "?" (Config.BaseURL cfg ++ path) = true ->
    Rest.signature_of
      (Rest.doRequest_signed cfg "GET" (Rest.with_query path params) false now)
    = Rest.signature_of (Rest.doRequest_signed cfg "GET" path false now).
Proof.
    intros H1 H2. unfold Rest.with_query.
    destruct (0 <? List.length params)%nat; [|reflexivity].
    apply query_not_signed; auto. apply join_query_safe.
Qed.

End Targets.

Lemma lacks_app (c : ascii) (a b : string) :
  lacks c (a ++ b) = lacks c a && lacks c b.
Proof. unfold lacks. apply all_chars_app. Qed.

(** X21.  The filters of the list endpoints are not covered by the signature:
    whatever market, limit, cursor, types, sort order or slugs
    [GetMarkets], [GetPositions], [GetActivities] and [GetOpenOrders]
    are given, the request is signed exactly as the request for the
    bare path is. *)
Theorem list_filters_are_not_signed `{K : Auth.Crypto} (cfg : Config.t) (now : Z) :
  lacks "#" (Config.BaseURL cfg) = true ->
  lacks "?" (Config.BaseURL cfg) = true ->
  (forall limit active,
      Rest.signature_of
        (Rest.doRequest_signed cfg "GET" (Rest.GetMarkets_path limit active) false now)
      = Rest.signature_of (Rest.doRequest_signed cfg "GET" "/v1/markets" false now))
  /\ (forall market limit cursor,
         Rest.signature_of
           (Rest.doRequest_signed cfg "GET"
              (Rest.GetPositions_path market limit cursor) false now)
         = Rest.signature_of
             (Rest.doRequest_signed cfg "GET" "/v1/portfolio/positions" false now))
  /\ (forall marketSlug types limit cursor sortOrder,
         Rest.signature_of
           (Rest.doRequest_signed cfg "GET"
              (Rest.GetActivities_path marketSlug types limit cursor sortOrder)
              false now)
         = Rest.signature_of
             (Rest.doRequest_signed cfg "GET" "/v1/portfolio/activities" false now))
  /\ (forall slugs,
         Rest.signature_of
           (Rest.doRequest_signed cfg "GET" (Rest.GetOpenOrders_path slugs) false now)
         = Rest.signature_of
             (Rest.doRequest_signed cfg "GET" "/v1/orders/open" false now)).
Proof.
  intros H1 H2.
  assert (Hpath : forall path, lacks "#" path = true -> lacks "?" path = true ->
                    lacks "#" (Config.BaseURL cfg ++ path) = true
                    /\ lacks "?" (Config.BaseURL cfg ++ path) = true).
  { intros path G1 G2. rewrite !lacks_app, H1, H2, G1, G2. split; reflexivity. }
  repeat split; intros.
  - unfold Rest.GetMarkets_path.
    destruct (Hpath "/v1/markets" eq_refl eq_refl).
    apply with_query_not_signed; assumption.
  - unfold Rest.GetPositions_path.
    destruct (Hpath "/v1/portfolio/positions" eq_refl eq_refl).
    apply with_query_not_signed; assumption.
  - unfold Rest.GetActivities_path.
    destruct (Hpath "/v1/portfolio/activities" eq_refl eq_refl).
    apply with_query_not_signed; assumption.
  - unfold Rest.GetOpenOrders_path.
    destruct (Hpath "/v1/orders/open" eq_refl eq_refl).
    destruct (0 <? List.length slugs)%nat; [|reflexivity].
    apply query_not_signed; auto. apply join_query_safe.
Qed.

Lemma list_filters_are_not_signed_witness :
  Rest.signature_of
    (Rest.doRequest_signed (K := Sample.plain_crypto) Sample.cfg "GET"
       (Rest.GetPositions_path "m 1" 10 "a&b#c") false 1704067200000)
  = Rest.signature_of
      (Rest.doRequest_signed (K := Sample.plain_crypto) Sample.cfg "GET"
         "/v1/portfolio/positions" false 1704067200000).
Proof.
  apply (proj1 (proj2 (list_filters_are_not_signed (K := Sample.plain_crypto)
                         Sample.cfg 1704067200000 eq_refl eq_refl))).
Defined.

(** X22.  The identifier in a request path is signed as given, not as sent:
    [GetMarketBySlug], [GetMarketSettlement], [GetOrder] and
    [CancelOrder] put the percent-escaped slug or order id on the wire,
    and the signed message carries it unescaped, for every identifier
    and every base URL of the form [http(s)://host]. *)
Theorem escaped_identifier_is_signed_raw `{K : Auth.Crypto}
        (cfg : Config.t) (host : string) (now : Z) :
  Config.BaseURL cfg = "https://" ++ host \/ Config.BaseURL cfg = "http://" ++ host ->
  all_chars is_host_char host = true ->
  (forall slug,
      Rest.signature_of
        (Rest.doRequest_signed cfg "GET" (Rest.GetMarketBySlug_path slug) false now)
      = Some (Some (Auth.base64_EncodeToString
                      (Auth.ed25519_Sign (Config.PrivateKey cfg)
                         (FormatInt now ++ "GET" ++ "/v1/market/slug/" ++ slug)))))
  /\ (forall slug,
         Rest.signature_of
           (Rest.doRequest_signed cfg "GET" (Rest.GetMarketSettlement_path slug) false now)
         = Some (Some (Auth.base64_EncodeToString
                         (Auth.ed25519_Sign (Config.PrivateKey cfg)
                            (FormatInt now ++ "GET" ++ "/v1/markets/" ++ slug
                                       ++ "/settlement")))))
  /\ (forall orderID,
         Rest.signature_of
           (Rest.doRequest_signed cfg "GET" (Rest.GetOrder_path orderID) false now)
         = Some (Some (Auth.base64_EncodeToString
                         (Auth.ed25519_Sign (Config.PrivateKey cfg)
                            (FormatInt now ++ "GET" ++ "/v1/order/" ++ orderID)))))
  /\ (forall orderID,
         Rest.signature_of
           (Rest.doRequest_signed cfg "POST" (Rest.CancelOrder_path orderID) true now)
         = Some (Some (Auth.base64_EncodeToString
                         (Auth.ed25519_Sign (Config.PrivateKey cfg)
                            (FormatInt now ++ "POST" ++ "/v1/order/" ++ orderID
                                       ++ "/cancel"))))).
Proof.
  intros Hb Hh.
  assert (Hgen : forall method pre id post has_body,
             all_chars is_query_safe pre = true -> lacks "?" pre = true ->
             lacks "%" (String "/" pre) = true ->
             all_chars is_query_safe post = true -> lacks "?" post = true ->
             lacks "%" post = true ->
             all_chars is_token_char method = true -> method <> EmptyString ->
             Rest.signature_of
               (Rest.doRequest_signed cfg method
                  (String "/" (pre ++ PathEscape id ++ post)) has_body now)
             = Some (Some (Auth.base64_EncodeToString
                             (Auth.ed25519_Sign (Config.PrivateKey cfg)
                                (FormatInt now ++ method
                                           ++ String "/" pre ++ id ++ post))))).
  { intros method pre id post has_body P1 P2 P3 Q1 Q2 Q3 M1 M2.
    destruct (PathEscape_plain id) as [E1 E2].
    apply (signed_target cfg host method _ _ has_body now Hb Hh); auto.
    - rewrite !all_chars_app, P1, E1, Q1. reflexivity.
    - rewrite !lacks_app, P2, E2, Q2. reflexivity.
    - apply (unescape_target (String "/" pre) id post P3 Q3). }
  repeat split; intros.
  - unfold Rest.GetMarketBySlug_path.
    rewrite <- (append_nil_r (PathEscape slug)).
    rewrite <- (append_nil_r slug) at 2.
    apply (Hgen "GET" "v1/market/slug/" slug EmptyString false);
      solve [reflexivity | discriminate].
  - unfold Rest.GetMarketSettlement_path.
    apply (Hgen "GET" "v1/markets/" slug "/settlement" false);
      solve [reflexivity | discriminate].
  - unfold Rest.GetOrder_path.
    rewrite <- (append_nil_r (PathEscape orderID)).
    rewrite <- (append_nil_r orderID) at 2.
    apply (Hgen "GET" "v1/order/" orderID EmptyString false);
      solve [reflexivity | discriminate].
  - unfold Rest.CancelOrder_path.
    apply (Hgen "POST" "v1/order/" orderID "/cancel" true);
      solve [reflexivity | discriminate].
Qed.

Lemma escaped_identifier_is_signed_raw_witness :
  Rest.GetMarketBySlug_path "a/b c" = "/v1/market/slug/a%2Fb%20c"
  /\ Rest.signature_of
       (Rest.doRequest_signed (K := Sample.plain_crypto) Sample.cfg "GET"
          (Rest.GetMarketBySlug_path "a/b c") false 1704067200000)
     = Some (Some "secret|1704067200000GET/v1/market/slug/a/b c").
Proof.
  split; [reflexivity|].
  apply (proj1 (escaped_identifier_is_signed_raw (K := Sample.plain_crypto)
                  Sample.cfg "api.polymarket.us" 1704067200000
                  (or_introl eq_refl) eq_refl)).
Defined.

End RestTargets.

(** ** Using a session out of order *)

(** X23.  A second [Connect] on a connected session dials both sockets again
    and drops the first pair without closing it: when [Close] follows,
    [Close] is called on the second pair only, so of the four
    connections dialled two are never closed, and four readers have
    been started. *)
Theorem second_connect_abandons_first_sockets
        `{K : Auth.Crypto} (c : WSClient) (now1 now2 now3 now4 : Z)
        (rollback1 rollback2 close1 close2 : option error) :
  done c = false ->
  let c1 := fst (fst (Connect c now1 None now2 None rollback1)) in
  let c2 := fst (fst (Connect c1 now3 None now4 None rollback2)) in
  exists c3 err k1 k2,
    Close c2 close1 close2 = Returns (c3, err)
    /\ trace c3 = (trace c ++ [EffDial Private (privateURL c) None;
                               EffDial Markets (marketsURL c) None;
                               EffGo Private; EffGo Markets;
                               EffDial Private (privateURL c) None;
                               EffDial Markets (marketsURL c) None;
                               EffGo Private; EffGo Markets;
                               EffCloseDone;
                               EffConnClose Private close1;
                               EffConnClose Markets close2])%list
    /\ privateConn c3 = Some k1 /\ marketsConn c3 = Some k2
    /\ conn_header k1 = Auth.GenerateWSHeaders (config c) now3
    /\ conn_header k2 = Auth.GenerateWSMarketsHeaders (config c) now4
    /\ conn_closes k1 = 1%nat /\ conn_closes k2 = 1%nat.
Proof.
  intros Hd. destruct c. simpl in Hd. subst.
  unfold Connect, Close. simpl.
  destruct close1, close2; simpl;
    do 4 eexists; (split; [reflexivity|]); simpl;
    rewrite <- ?app_assoc; simpl; repeat split; reflexivity.
Qed.

Lemma second_connect_abandons_first_sockets_witness :
  exists c3 err k1 k2,
    Close (fst (fst (Connect (K := Sample.plain_crypto) Sample.connected_client
                             1704067200002 None 1704067200003 None None)))
          None None
    = Returns (c3, err)
    /\ trace c3
       = (trace (NewWSClient Sample.cfg)
          ++ [EffDial Private (privateURL (NewWSClient Sample.cfg)) None;
              EffDial Markets (marketsURL (NewWSClient Sample.cfg)) None;
              EffGo Private; EffGo Markets;
              EffDial Private (privateURL (NewWSClient Sample.cfg)) None;
              EffDial Markets (marketsURL (NewWSClient Sample.cfg)) None;
              EffGo Private; EffGo Markets;
              EffCloseDone;
              EffConnClose Private None;
              EffConnClose Markets None])%list
    /\ privateConn c3 = Some k1 /\ marketsConn c3 = Some k2
    /\ conn_header k1
       = Auth.GenerateWSHeaders (K := Sample.plain_crypto)
                                (config (NewWSClient Sample.cfg)) 1704067200002
    /\ conn_header k2
       = Auth.GenerateWSMarketsHeaders (K := Sample.plain_crypto)
                                       (config (NewWSClient Sample.cfg)) 1704067200003
    /\ conn_closes k1 = 1%nat /\ conn_closes k2 = 1%nat.
Proof.
  apply (second_connect_abandons_first_sockets
           (K := Sample.plain_crypto) (NewWSClient Sample.cfg)
           1704067200000 1704067200001 1704067200002 1704067200003
           None None None None).
  reflexivity.
Defined.

(** X24.  [Close] does not take the sockets away: on a closed session
    [IsConnected] answers false, yet a subscribe call still marshals its
    request, hands it to [WriteMessage] on the closed connection and
    returns what that write returns, in place of a not-connected
    error. *)
Theorem subscribe_after_close_still_writes
        (k : kind) (c : WSClient) (marketSlugs : list string) (debounced : bool)
        (close1 close2 wr : option error) :
  done c = false ->
  conn_of (socket_of_kind k) c <> None ->
  exists c1 err data,
    Close c close1 close2 = Returns (c1, err)
    /\ IsConnected c1 = false
    /\ trace (fst (subscribe k c1 marketSlugs debounced wr))
       = (trace c1 ++ [EffWrite (socket_of_kind k) data wr])%list
    /\ snd (subscribe k c1 marketSlugs debounced wr)
       = match wr with
         | None => (prefix_of_kind k ++ "-" ++ FormatInt (wrap64 (requestID c + 1)), None)
         | Some e => (EmptyString, Some e)
         end.
Proof.
  intros Hd Hconn. destruct c as [cfg pc mc pu mu dn ms rid cn rc tr].
  simpl in Hd. subst dn.
  destruct pc as [kp|], mc as [km|]; destruct k; simpl in Hconn;
    try congruence; clear Hconn;
    destruct close1, close2; destruct wr;
    do 3 eexists; (split; [reflexivity|]); repeat split; reflexivity.
Qed.

Lemma subscribe_after_close_still_writes_witness :
  exists c1 err data,
    Close Sample.connected_client None None = Returns (c1, err)
    /\ IsConnected c1 = false
    /\ trace (fst (subscribe KindOrder c1 ["m1"] false None))
       = (trace c1 ++ [EffWrite Private data None])%list
    /\ snd (subscribe KindOrder c1 ["m1"] false None) = ("order-1", None).
Proof.
  apply (subscribe_after_close_still_writes KindOrder Sample.connected_client
                                            ["m1"] false None None None).
  - reflexivity.
  - simpl. discriminate.
Defined.
